(** * AIPoweredBISystem: the assistant pipeline, embedded and verified

    A shallow embedding of the decision logic of the repository's
    natural-language assistant:

    - [agent_tools.py]   : the Metrics Aggregator ([AICRUDTools]);
    - [enhanced_agent.py]: the query classifier, the completion client and
                           the supervisor pipeline ([EnhancedAIAgent]);
    - [ai_agent.py]      : the basic completion client ([AIAgent]);
    - [main.py]          : the [/ai/enhanced-query] endpoint and the response
                           post-processor;
    - [enhanced_streamlit.py]: the second copy of the post-processor.

    Python values are modelled as a small universe of dynamic values,
    exceptions as the left summand of an error monad, [float] as IEEE-754
    binary64 through the Standard Library's [SpecFloat], and [str] as a list
    of Unicode code points.  All definitions come first; the theorems
    follow. *)

From Stdlib Require Import ZArith NArith List Bool String Ascii Lia.
From Stdlib Require Import DecimalString Sorted.
From Stdlib Require Import SpecFloat.
Import ListNotations.

Set Implicit Arguments.
Set Warnings "-register-all".

(* ================================================================== *)
(** * Part I.  Definitions                                             *)
(* ================================================================== *)

(** ** Python [str]: sequences of code points *)

Module PyStr.

Definition pystr : Type := list N.

(** An ASCII literal as a Python string. *)
Definition str (s : string) : pystr :=
  List.map N_of_ascii (list_ascii_of_string s).

(** U+2022 BULLET, the one non-ASCII character the source uses in code. *)
Definition bullet : N := 8226%N.
Definition newline : N := 10%N.

Fixpoint eqb (a b : pystr) : bool :=
  match a, b with
  | [], [] => true
  | x :: a', y :: b' => N.eqb x y && eqb a' b'
  | _, _ => false
  end.

(** [s.startswith(p)] *)
Fixpoint startswith (p s : pystr) : bool :=
  match p, s with
  | [], _ => true
  | x :: p', y :: s' => N.eqb x y && startswith p' s'
  | _ :: _, [] => false
  end.

(** [s.startswith((p1, p2, ...))] *)
Definition startswith_any (ps : list pystr) (s : pystr) : bool :=
  existsb (fun p => startswith p s) ps.

(** [needle in hay] *)
Fixpoint contains (needle hay : pystr) : bool :=
  startswith needle hay ||
  match hay with
  | [] => false
  | _ :: t => contains needle t
  end.

(** [any(word in s for word in words)] *)
Definition any_in (words : list pystr) (s : pystr) : bool :=
  existsb (fun w => contains w s) words.

(** The characters removed by [str.strip()] without argument: CPython's
    [_PyUnicode_IsWhitespace]. *)
Definition isspace (c : N) : bool :=
  ((9 <=? c) && (c <=? 13) || (28 <=? c) && (c <=? 32) ||
   (c =? 133) || (c =? 160) || (c =? 5760) ||
   (8192 <=? c) && (c <=? 8202) ||
   (c =? 8232) || (c =? 8233) || (c =? 8239) || (c =? 8287) ||
   (c =? 12288))%N.

Definition mem (c : N) (chars : pystr) : bool := existsb (N.eqb c) chars.

Fixpoint lstrip_by (f : N -> bool) (s : pystr) : pystr :=
  match s with
  | [] => []
  | c :: t => if f c then lstrip_by f t else s
  end.

Definition rstrip_by (f : N -> bool) (s : pystr) : pystr :=
  rev (lstrip_by f (rev s)).

(** [s.strip()] *)
Definition strip (s : pystr) : pystr :=
  rstrip_by isspace (lstrip_by isspace s).

(** [s.lstrip(chars)] *)
Definition lstrip (chars s : pystr) : pystr :=
  lstrip_by (fun c => mem c chars) s.

(** [s.strip(chars)] *)
Definition strip_chars (chars s : pystr) : pystr :=
  rstrip_by (fun c => mem c chars) (lstrip chars s).

(** [s.split(sep)] for a one-character separator: never empty, the
    pieces between consecutive separators, empty pieces kept. *)
Fixpoint split (sep : N) (s : pystr) : list pystr :=
  match s with
  | [] => [[]]
  | c :: t =>
      if N.eqb c sep then [] :: split sep t
      else match split sep t with
           | [] => [[c]]
           | w :: ws => (c :: w) :: ws
           end
  end.

(** ASCII case folding, the part of [str.lower()] that is fixed by the
    language; the rest of the Unicode case table is a parameter of the
    classifier below. *)
Definition ascii_lower_char (c : N) : N :=
  if ((65 <=? c) && (c <=? 90))%N then (c + 32)%N else c.
Definition ascii_lower (s : pystr) : pystr := List.map ascii_lower_char s.

End PyStr.

Import PyStr.

(** ** The response post-processor *)

(** [main.py], [extract_actions_from_response]. *)
Module Main_post.

Definition markers : list pystr :=
  [str "-"; [bullet]; str "1."; str "2."; str "3."; str "4."; str "5."].

(** The argument of [lstrip]: ['-•12345. ']. *)
Definition strip_set : pystr := str "-" ++ [bullet] ++ str "12345. ".

(** One iteration of the [for line in lines] loop on the accumulator
    [actions]. *)
Definition step (actions : list pystr) (line : pystr) : list pystr :=
  let line := strip line in
  if startswith_any markers line then
    let action := strip (lstrip strip_set line) in
    if negb (eqb action []) && (10 <? List.length action)%nat
    then actions ++ [action]
    else actions
  else actions.

Definition extract_actions_from_response (response : pystr) : list pystr :=
  let lines := split newline response in
  firstn 5 (fold_left step lines []).

End Main_post.

(** [enhanced_streamlit.py], [extract_actions_from_response]. *)
Module Streamlit_post.

Definition markers : list pystr :=
  [str "-"; [bullet]; str "1."; str "2."; str "3."; str "4."; str "5.";
   str "Recommend"; str "Action"; str "Step"].

Definition strip_set : pystr := str "-" ++ [bullet] ++ str "12345. ".

Definition step (actions : list pystr) (line : pystr) : list pystr :=
  let line := strip line in
  if startswith_any markers line && (15 <? List.length line)%nat then
    let action := strip (lstrip strip_set line) in
    if negb (eqb action []) && negb (startswith (str "**") action)
    then actions ++ [action]
    else actions
  else actions.

Definition extract_actions_from_response (response : pystr) : list pystr :=
  let lines := split newline response in
  firstn 5 (fold_left step lines []).

End Streamlit_post.

(** ** Python values, exceptions and the error monad *)

Module Py.

(** [float] is IEEE-754 binary64. *)
Definition prec : Z := 53.
Definition emax : Z := 1024.
Definition pyfloat : Type := spec_float.

(** The dynamic values that reach the pipeline: SQLite column values,
    JSON request bodies, the model service's responses and the nested
    dictionaries the aggregator builds.  A [VDict] is a [dict] with string
    keys in insertion order; a [VObj] is an object seen through its
    attributes (the model service's response objects). *)
Inductive value : Type :=
| VNone
| VBool (b : bool)
| VInt (z : Z)
| VFloat (f : pyfloat)
| VStr (s : pystr)
| VBytes (b : list N)
| VList (l : list value)
| VDict (d : list (pystr * value))
| VObj (attrs : list (pystr * value)).

Definition dict : Type := list (pystr * value).

(** Exception classes; every one of them derives from [Exception]. *)
Inductive exc_class : Type :=
| ValueError | TypeError | OverflowError | AttributeError | KeyError
| IndexError | ImportError
| DatabaseError      (* sqlite3.Error and its subclasses *)
| ServiceError.      (* connection and response errors of the model client *)

(** A raised exception; [text] is what [str(e)] yields. *)
Inductive exn : Type :=
| PyExc (c : exc_class) (text : pystr)
| HTTPException (status_code : Z) (detail : pystr).

(** [str(e)]; for [HTTPException] this is Starlette's
    ["{status_code}: {detail}"]. *)
Definition str_exn (e : exn) : pystr :=
  match e with
  | PyExc _ text => text
  | HTTPException status_code detail =>
      str (NilZero.string_of_int (Z.to_int status_code)) ++ str ": " ++ detail
  end.

Definition exc_class_eqb (a b : exc_class) : bool :=
  match a, b with
  | ValueError, ValueError | TypeError, TypeError
  | OverflowError, OverflowError | AttributeError, AttributeError
  | KeyError, KeyError | IndexError, IndexError | ImportError, ImportError
  | DatabaseError, DatabaseError | ServiceError, ServiceError => true
  | _, _ => false
  end.

(** Outcome of running Python code: a value or a raised exception. *)
Inductive result (A : Type) : Type :=
| Return (a : A)
| Raise (e : exn).
Arguments Return {A} a.
Arguments Raise {A} e.

Definition bind {A B} (m : result A) (k : A -> result B) : result B :=
  match m with
  | Return a => k a
  | Raise e => Raise e
  end.

(** [try: body / except Exception as e: handler(e)] *)
Definition try_except {A} (body : result A) (handler : exn -> result A)
  : result A :=
  match body with
  | Return a => Return a
  | Raise e => handler e
  end.

(** Is [e] an instance of one of [classes]?  [HTTPException] is none of
    the built-in classes. *)
Definition instance_of (classes : list exc_class) (e : exn) : bool :=
  match e with
  | PyExc c _ => existsb (exc_class_eqb c) classes
  | HTTPException _ _ => false
  end.

(** [try: body / except (E1, E2, ...): handler]: other exceptions pass
    through. *)
Definition try_except_only {A} (classes : list exc_class)
           (body : result A) (handler : result A) : result A :=
  match body with
  | Return a => Return a
  | Raise e => if instance_of classes e then handler else Raise e
  end.

Fixpoint mapM {A B} (f : A -> result B) (l : list A) : result (list B) :=
  match l with
  | [] => Return []
  | x :: t =>
      bind (f x) (fun y => bind (mapM f t) (fun ys => Return (y :: ys)))
  end.

(** *** Dictionaries *)

Fixpoint dict_get (k : pystr) (d : dict) : option value :=
  match d with
  | [] => None
  | (k', v) :: t => if PyStr.eqb k k' then Some v else dict_get k t
  end.

(** [k in d] *)
Definition dict_mem (k : pystr) (d : dict) : bool :=
  match dict_get k d with Some _ => true | None => false end.

(** [d.get(k, default)] *)
Definition dict_get_default (k : pystr) (default : value) (d : dict) : value :=
  match dict_get k d with Some v => v | None => default end.

(** [d[k] = v]: an existing key keeps its position. *)
Fixpoint dict_set (k : pystr) (v : value) (d : dict) : dict :=
  match d with
  | [] => [(k, v)]
  | (k', v') :: t =>
      if PyStr.eqb k k' then (k, v) :: t else (k', v') :: dict_set k v t
  end.

(** [d[k]], raising [KeyError]. *)
Definition dict_item (k : pystr) (d : dict) : result value :=
  match dict_get k d with
  | Some v => Return v
  | None => Raise (PyExc KeyError k)
  end.

(** *** Truth values *)

Definition float_is_zero (f : pyfloat) : bool :=
  match f with S754_zero _ => true | _ => false end.

(** [bool(v)] *)
Definition truthy (v : value) : bool :=
  match v with
  | VNone => false
  | VBool b => b
  | VInt z => negb (Z.eqb z 0)
  | VFloat f => negb (float_is_zero f)
  | VStr s => negb (PyStr.eqb s [])
  | VBytes b => negb (PyStr.eqb b [])
  | VList l => match l with [] => false | _ => true end
  | VDict d => match d with [] => false | _ => true end
  | VObj _ => true
  end.

(** [isinstance(v, int)]; [bool] is a subclass of [int]. *)
Definition isinstance_int (v : value) : bool :=
  match v with VInt _ | VBool _ => true | _ => false end.

(** [v == s] for a string literal [s]. *)
Definition eq_str (v : value) (s : pystr) : bool :=
  match v with VStr t => PyStr.eqb t s | _ => false end.

(** *** Numeric conversions *)

(** The float nearest to an integer (round half to even); an
    [S754_infinity] marks a magnitude beyond the largest float. *)
Definition float_of_Z (z : Z) : pyfloat := binary_normalize prec emax z 0 false.

(** Truncation towards zero of the finite float [(-1)^s * m * 2^e]. *)
Definition trunc_finite (s : bool) (m : positive) (e : Z) : Z :=
  let a := if (0 <=? e)%Z then (Z.pos m * 2 ^ e)%Z
           else (Z.pos m / 2 ^ (- e))%Z in
  if s then (- a)%Z else a.

Section Conversions.

(** CPython's parsers of numeric literals ([int(str)] and [float(str)],
    also applied to ASCII [bytes]); [None] is a [ValueError]. *)
Variable parse_int : pystr -> option Z.
Variable parse_float : pystr -> option pyfloat.

(** [int(v)] *)
Definition py_int (v : value) : result Z :=
  match v with
  | VBool b => Return (if b then 1 else 0)%Z
  | VInt z => Return z
  | VFloat S754_nan =>
      Raise (PyExc ValueError (str "cannot convert float NaN to integer"))
  | VFloat (S754_infinity _) =>
      Raise (PyExc OverflowError
                   (str "cannot convert float infinity to integer"))
  | VFloat (S754_zero _) => Return 0%Z
  | VFloat (S754_finite s m e) => Return (trunc_finite s m e)
  | VStr s | VBytes s =>
      match parse_int s with
      | Some z => Return z
      | None =>
          Raise (PyExc ValueError (str "invalid literal for int()"))
      end
  | VNone | VList _ | VDict _ | VObj _ =>
      Raise (PyExc TypeError
                   (str "int() argument must be a string, a bytes-like object or a real number"))
  end.

(** [float(v)] *)
Definition py_float (v : value) : result pyfloat :=
  match v with
  | VBool b => Return (float_of_Z (if b then 1 else 0))
  | VInt z =>
      match float_of_Z z with
      | S754_infinity _ =>
          Raise (PyExc OverflowError
                       (str "int too large to convert to float"))
      | f => Return f
      end
  | VFloat f => Return f
  | VStr s | VBytes s =>
      match parse_float s with
      | Some f => Return f
      | None =>
          Raise (PyExc ValueError
                       (str "could not convert string to float"))
      end
  | VNone | VList _ | VDict _ | VObj _ =>
      Raise (PyExc TypeError
                   (str "float() argument must be a string or a real number"))
  end.

End Conversions.

(** *** Float arithmetic used by the aggregator *)

Definition fdiv (x y : pyfloat) : pyfloat := SFdiv prec emax x y.
Definition fmul (x y : pyfloat) : pyfloat := SFmul prec emax x y.
(** [x >= y] *)
Definition fge (x y : pyfloat) : bool := SFleb y x.

(** The integer nearest to [m * 2^e], ties to even. *)
Definition round_half_even (m e : Z) : Z :=
  if (0 <=? e)%Z then (m * 2 ^ e)%Z
  else
    let d := (2 ^ (- e))%Z in
    let q := (m / d)%Z in
    let r := (m mod d)%Z in
    match (2 * r ?= d)%Z with
    | Lt => q
    | Gt => (q + 1)%Z
    | Eq => if Z.even q then q else (q + 1)%Z
    end.

(** [round(x, 1)]: the float nearest to the decimal with one fractional
    digit nearest to [x]; non-finite values, zeros and integral floats are
    returned unchanged. *)
Definition py_round1 (x : pyfloat) : pyfloat :=
  match x with
  | S754_finite s m e =>
      if (0 <=? e)%Z then x
      else
        let n := round_half_even (10 * Z.pos m) e in
        match n with
        | Z.pos p =>
            SFdiv prec emax (S754_finite s p 0) (S754_finite false 10 0)
        | _ => S754_zero s
        end
  | _ => x
  end.

End Py.

Import Py.

Notation "x <- m ;; k" := (Py.bind m (fun x => k))
  (at level 61, m at next level, right associativity).

(** ** The storage collaborator ([database.py]) *)

Module Db.

(** A [sqlite3.Row]: the selected columns, in order, with their values. *)
Definition row : Type := list (pystr * value).

(** The SQL statements the aggregator issues, with their bound
    parameters. *)
Inductive statement : Type :=
| SearchProducts (name_patterns : option (pystr * pystr * pystr))
                 (category_pattern : option pystr)
| LowStock (threshold : Z)
| CategoryStatistics | TotalStatistics | PriceStatistics
| RoleDistribution | UserActivity | RecentRegistrations
| CountCategories | CountProducts | CountActiveUsers | CountRoles
| IntegrityCheck | TableNames | CountTable (table : pystr)
| CategoryInsights | LowStockCategories.

(** The storage as the aggregator sees it: every call may raise.
    [execute s] is [cursor.execute(s)] followed by fetching its rows;
    [connect] is [sqlite3.connect] with the foreign-key pragma. *)
Record Storage : Type := {
  connect : result unit;
  execute : statement -> result (list row);
  rollback : result unit;
  close : result unit
}.

(** [cursor.fetchone()] *)
Definition fetchone (rows : list row) : option row := hd_error rows.

(** [with get_db_connection() as conn: body]: the context manager rolls
    back and re-raises on an exception and closes on every path. *)
Definition get_db_connection {A} (st : Storage) (body : result A) : result A :=
  _ <- connect st ;;
  match body with
  | Return a => _ <- close st ;; Return a
  | Raise e =>
      match rollback st with
      | Return _ => _ <- close st ;; Raise e
      | Raise e' => _ <- close st ;; Raise e'
      end
  end.

(** [row[0]] on the result of [fetchone()]. *)
Definition first_column (r : option row) : result value :=
  match r with
  | None =>
      Raise (PyExc TypeError (str "'NoneType' object is not subscriptable"))
  | Some [] => Raise (PyExc IndexError (str "No item with that key"))
  | Some ((_, v) :: _) => Return v
  end.

(** [dict(row)] *)
Definition dict_of_row (r : row) : dict :=
  fold_left (fun d kv => dict_set (fst kv) (snd kv) d) r [].

End Db.

Import Db.

(** ** The Metrics Aggregator ([agent_tools.py], class [AICRUDTools]) *)

Module AICRUDTools.

Definition fzero : pyfloat := S754_zero false.

Section Tools.

Variable parse_int : pystr -> option Z.
Variable parse_float : pystr -> option pyfloat.
(** [str.title()], which depends on the Unicode case tables. *)
Variable title : pystr -> pystr.

Definition safe_float (v : value) : result pyfloat :=
  try_except_only [ValueError; TypeError]
    (match v with
     | VNone => Return fzero
     | _ => py_float parse_float v
     end)
    (Return fzero).

Definition safe_int (v : value) : result Z :=
  try_except_only [ValueError; TypeError]
    (match v with
     | VNone => Return 0%Z
     | _ => py_int parse_int v
     end)
    (Return 0%Z).

Definition safe_float_v (v : value) : result value :=
  f <- safe_float v ;; Return (VFloat f).
Definition safe_int_v (v : value) : result value :=
  z <- safe_int v ;; Return (VInt z).

(** [if k in d: d[k] = conv(d[k])] *)
Definition coerce (conv : value -> result value) (k : pystr) (d : dict)
  : result dict :=
  match dict_get k d with
  | Some v => v' <- conv v ;; Return (dict_set k v' d)
  | None => Return d
  end.

(** The same coercion for a list of keys, left to right. *)
Fixpoint coerce_all (conv : value -> result value) (ks : list pystr)
         (d : dict) : result dict :=
  match ks with
  | [] => Return d
  | k :: t => d' <- coerce conv k d ;; coerce_all conv t d'
  end.

(** The loop body shared by [search_products] and
    [get_low_stock_products]. *)
Definition product_dict (r : row) : result value :=
  d <- coerce safe_float_v (str "price") (dict_of_row r) ;;
  d <- coerce safe_int_v (str "stock_quantity") d ;;
  Return (VDict d).

Definition like (s : pystr) : pystr := str "%" ++ s ++ str "%".

Definition search_products_body (st : Storage) (query : pystr)
           (category_filter : option pystr) : result value :=
  get_db_connection st
    (let name_patterns :=
       match query with
       | [] => None
       | _ => Some (like query, like (title query), like query)
       end in
     let category_pattern :=
       match category_filter with
       | Some ((_ :: _) as c) => Some (like c)
       | _ => None
       end in
     results <- execute st (SearchProducts name_patterns category_pattern) ;;
     products <- mapM product_dict results ;;
     Return (VList products)).

Definition search_products (st : Storage) (query : pystr)
           (category_filter : option pystr) : result value :=
  try_except (search_products_body st query category_filter)
             (fun _ => Return (VList [])).

Definition get_low_stock_products_body (st : Storage) (threshold : Z)
  : result value :=
  get_db_connection st
    (results <- execute st (LowStock threshold) ;;
     products <- mapM product_dict results ;;
     Return (VList products)).

Definition get_low_stock_products (st : Storage) (threshold : Z)
  : result value :=
  try_except (get_low_stock_products_body st threshold)
             (fun _ => Return (VList [])).

(** [get_sales_trends] *)

Definition category_stat (r : row) : result value :=
  d <- coerce safe_float_v (str "avg_price") (dict_of_row r) ;;
  d <- coerce_all safe_int_v
         [str "total_stock"; str "min_stock"; str "max_stock";
          str "product_count"] d ;;
  Return (VDict d).

(** [if row: ... dict(row) ...]: a missing or empty row leaves [{}]. *)
Definition dict_if_row (r : option row) (k : dict -> result dict)
  : result dict :=
  match r with
  | Some ((_ :: _) as r') => k (dict_of_row r')
  | _ => Return []
  end.

Definition int_of_value (v : value) : Z :=
  match v with
  | VInt z => z
  | VBool true => 1%Z
  | _ => 0%Z
  end.

Definition sales_trends_error (msg : pystr) : value :=
  VDict [(str "category_statistics", VList []);
         (str "total_statistics", VDict []);
         (str "price_statistics", VDict []);
         (str "total_products", VInt 0);
         (str "low_stock_alerts", VInt 0);
         (str "health_score", VStr (str "error"));
         (str "error", VStr msg)].

Definition get_sales_trends_body (st : Storage) : result value :=
  get_db_connection st
    (rows <- execute st CategoryStatistics ;;
     category_stats <- mapM category_stat rows ;;
     rows <- execute st TotalStatistics ;;
     total_stats <-
       dict_if_row (fetchone rows) (fun d =>
         d <- coerce safe_float_v (str "overall_avg_price") d ;;
         coerce_all safe_int_v
           [str "total_inventory"; str "low_stock_count";
            str "total_products"] d) ;;
     rows <- execute st PriceStatistics ;;
     price_stats <-
       dict_if_row (fetchone rows) (fun d =>
         coerce_all safe_float_v [str "min_price"; str "max_price"] d) ;;
     let low_stock_count :=
       let v := dict_get_default (str "low_stock_count") (VInt 0) total_stats in
       if isinstance_int v then v else VInt 0 in
     let health_score :=
       if (int_of_value low_stock_count <? 5)%Z
       then str "healthy" else str "needs_attention" in
     Return
       (VDict [(str "category_statistics", VList category_stats);
               (str "total_statistics", VDict total_stats);
               (str "price_statistics", VDict price_stats);
               (str "total_products",
                dict_get_default (str "total_products") (VInt 0) total_stats);
               (str "low_stock_alerts", low_stock_count);
               (str "total_inventory_value", VStr (str "N/A"));
               (str "health_score", VStr health_score)])).

Definition get_sales_trends (st : Storage) : result value :=
  try_except (get_sales_trends_body st)
             (fun e => Return (sales_trends_error (str_exn e))).

(** [analyze_user_behavior] *)

Definition role_dict (r : row) : result dict :=
  coerce_all safe_int_v [str "user_count"; str "active_users"]
             (dict_of_row r).

(** [next((safe_int(role['user_count']) for role in role_distribution
          if role.get('role_name') == name), 0)] *)
Fixpoint role_count (name : pystr) (roles : list dict) : result value :=
  match roles with
  | [] => Return (VInt 0)
  | role :: t =>
      if eq_str (dict_get_default (str "role_name") VNone role) name
      then v <- dict_item (str "user_count") role ;; safe_int_v v
      else role_count name t
  end.

Definition user_behavior_error (msg : pystr) : value :=
  VDict [(str "user_analytics",
          VDict [(str "role_distribution", VList []);
                 (str "activity_summary", VDict []);
                 (str "recent_registrations", VList []);
                 (str "total_active_users", VInt 0);
                 (str "total_inactive_users", VInt 0);
                 (str "admin_count", VInt 0);
                 (str "manager_count", VInt 0);
                 (str "user_count", VInt 0);
                 (str "error", VStr msg)])].

Definition analyze_user_behavior_body (st : Storage) : result value :=
  get_db_connection st
    (rows <- execute st RoleDistribution ;;
     role_distribution <- mapM role_dict rows ;;
     rows <- execute st UserActivity ;;
     user_activity <-
       dict_if_row (fetchone rows) (fun d =>
         coerce_all safe_int_v
           [str "total_users"; str "active_users_count";
            str "inactive_users_count"] d) ;;
     rows <- execute st RecentRegistrations ;;
     let recent_users := List.map (fun r => VDict (dict_of_row r)) rows in
     let total_active_users :=
       dict_get_default (str "active_users_count") (VInt 0) user_activity in
     let total_inactive_users :=
       dict_get_default (str "inactive_users_count") (VInt 0) user_activity in
     admin_count <- role_count (str "admin") role_distribution ;;
     manager_count <- role_count (str "manager") role_distribution ;;
     user_count <- role_count (str "user") role_distribution ;;
     Return
       (VDict [(str "user_analytics",
                VDict [(str "role_distribution",
                        VList (List.map VDict role_distribution));
                       (str "activity_summary", VDict user_activity);
                       (str "recent_registrations", VList recent_users);
                       (str "total_active_users", total_active_users);
                       (str "total_inactive_users", total_inactive_users);
                       (str "admin_count", admin_count);
                       (str "manager_count", manager_count);
                       (str "user_count", user_count)])])).

Definition analyze_user_behavior (st : Storage) : result value :=
  try_except (analyze_user_behavior_body st)
             (fun e => Return (user_behavior_error (str_exn e))).

(** [get_system_health] *)

(** [safe_int(cursor.fetchone()[0])] after a counting query. *)
Definition count_of (st : Storage) (s : statement) : result Z :=
  rows <- execute st s ;;
  v <- first_column (fetchone rows) ;;
  safe_int v.

(** The five boolean health indicators, in the order of the source's
    dictionary. *)
Definition health_indicators (category_count product_count user_count : Z)
           (low_stock_count : nat) (db_health : value)
  : list (pystr * bool) :=
  [(str "categories", (0 <? category_count)%Z);
   (str "products", (0 <? product_count)%Z);
   (str "users", (0 <? user_count)%Z);
   (str "low_stock", (low_stock_count <? 10)%nat);
   (str "database", eq_str db_health (str "ok"))].

(** [sum(health_indicators.values())] *)
Definition count_true (ind : list (pystr * bool)) : Z :=
  fold_left (fun (acc : Z) (kv : pystr * bool) =>
               if snd kv then (acc + 1)%Z else acc) ind 0%Z.

(** [sum(ind.values()) / len(ind) * 100] *)
Definition health_score_of (ind : list (pystr * bool)) : pyfloat :=
  fmul (fdiv (float_of_Z (count_true ind))
             (float_of_Z (Z.of_nat (List.length ind))))
       (float_of_Z 100).

Definition health_status_of (health_score : pyfloat) : pystr :=
  if fge health_score (float_of_Z 80) then str "excellent"
  else if fge health_score (float_of_Z 60) then str "good"
  else str "needs_attention".

(** The dictionary returned on the success path. *)
Definition health_report (category_count product_count user_count
                          role_count : Z) (low_stock_count : nat)
           (db_health : value) (table_sizes : dict) : value :=
  let ind := health_indicators category_count product_count user_count
                               low_stock_count db_health in
  let health_score := health_score_of ind in
  let health_status := health_status_of health_score in
  VDict [(str "system_metrics",
          VDict [(str "categories", VInt category_count);
                 (str "products", VInt product_count);
                 (str "active_users", VInt user_count);
                 (str "roles", VInt role_count);
                 (str "low_stock_alerts", VInt (Z.of_nat low_stock_count));
                 (str "database_health", db_health);
                 (str "table_sizes", VDict table_sizes);
                 (str "health_score", VFloat (py_round1 health_score));
                 (str "health_status", VStr health_status)]);
         (str "health_indicators",
          VDict (List.map (fun kv => (fst kv, VBool (snd kv))) ind))].

Definition system_health_error (msg : pystr) : value :=
  VDict [(str "system_metrics",
          VDict [(str "categories", VInt 0);
                 (str "products", VInt 0);
                 (str "active_users", VInt 0);
                 (str "roles", VInt 0);
                 (str "low_stock_alerts", VInt 0);
                 (str "database_health", VStr (str "unknown"));
                 (str "health_score", VInt 0);
                 (str "health_status", VStr (str "error"));
                 (str "error", VStr msg)])].

(** [for table in tables: ... table_sizes[table] = safe_int(...)]; a
    table name that is not a string is unhashable or formats to another
    statement, which the storage refuses. *)
Fixpoint table_sizes_loop (st : Storage) (tables : list value) (sizes : dict)
  : result dict :=
  match tables with
  | [] => Return sizes
  | VStr table :: t =>
      n <- count_of st (CountTable table) ;;
      table_sizes_loop st t (dict_set table (VInt n) sizes)
  | _ :: _ =>
      Raise (PyExc DatabaseError (str "unrecognized table name"))
  end.

Definition get_system_health_body (st : Storage) : result value :=
  get_db_connection st
    (category_count <- count_of st CountCategories ;;
     product_count <- count_of st CountProducts ;;
     user_count <- count_of st CountActiveUsers ;;
     role_count <- count_of st CountRoles ;;
     low_stock_products <- get_low_stock_products st 10 ;;
     let low_stock_count :=
       match low_stock_products with
       | VList l => List.length l
       | _ => 0%nat
       end in
     rows <- execute st IntegrityCheck ;;
     db_health <-
       match fetchone rows with
       | Some ((_ :: _) as r) => first_column (Some r)
       | _ => Return (VStr (str "unknown"))
       end ;;
     rows <- execute st TableNames ;;
     tables <- mapM (fun r => first_column (Some r)) rows ;;
     table_sizes <- table_sizes_loop st tables [] ;;
     Return (health_report category_count product_count user_count
                           role_count low_stock_count db_health
                           table_sizes)).

Definition get_system_health (st : Storage) : result value :=
  try_except (get_system_health_body st)
             (fun e => Return (system_health_error (str_exn e))).

(** [get_category_insights] *)

Definition insight_dict (r : row) : result dict :=
  d <- coerce safe_float_v (str "avg_price") (dict_of_row r) ;;
  coerce_all safe_int_v [str "total_stock"; str "product_count"] d.

Definition low_stock_category (r : row) : result value :=
  d <- coerce safe_int_v (str "low_stock_count") (dict_of_row r) ;;
  Return (VDict d).

(** [len([c for c in insights if p(safe_int(c.get('product_count', 0)))])] *)
Fixpoint count_insights (p : Z -> bool) (insights : list dict) : result Z :=
  match insights with
  | [] => Return 0%Z
  | c :: t =>
      n <- safe_int (dict_get_default (str "product_count") (VInt 0) c) ;;
      k <- count_insights p t ;;
      Return (if p n then k + 1 else k)%Z
  end.

Definition category_insights_error (msg : pystr) : value :=
  VDict [(str "category_insights", VList []);
         (str "low_stock_categories", VList []);
         (str "total_categories", VInt 0);
         (str "categories_with_products", VInt 0);
         (str "empty_categories", VInt 0);
         (str "error", VStr msg)].

Definition get_category_insights_body (st : Storage) : result value :=
  get_db_connection st
    (rows <- execute st CategoryInsights ;;
     category_insights <- mapM insight_dict rows ;;
     rows <- execute st LowStockCategories ;;
     low_stock_categories <- mapM low_stock_category rows ;;
     let total_categories := Z.of_nat (List.length category_insights) in
     categories_with_products <-
       count_insights (fun n => (0 <? n)%Z) category_insights ;;
     empty_categories <-
       count_insights (fun n => (n =? 0)%Z) category_insights ;;
     Return
       (VDict [(str "category_insights",
                VList (List.map VDict category_insights));
               (str "low_stock_categories", VList low_stock_categories);
               (str "total_categories", VInt total_categories);
               (str "categories_with_products", VInt categories_with_products);
               (str "empty_categories", VInt empty_categories)])).

Definition get_category_insights (st : Storage) : result value :=
  try_except (get_category_insights_body st)
             (fun e => Return (category_insights_error (str_exn e))).

End Tools.

End AICRUDTools.

(** ** The low-stock query over the relational schema ([database.py]) *)

Module Sqlite.

(** Rows of the [product] and [product_category] tables, typed by the
    schema of [init_db]. *)
Record product : Type := {
  product_id : Z;
  p_category_id : Z;
  p_subcategory_id : Z;
  product_name : pystr;
  price : pyfloat;
  stock_quantity : Z
}.

Record product_category : Type := {
  category_id : Z;
  subcategory_id : Z;
  category_name : pystr;
  description : option pystr
}.

Record database : Type := {
  products : list product;
  categories : list product_category
}.

(** [product p JOIN product_category pc ON p.category_id = pc.category_id
    AND p.subcategory_id = pc.subcategory_id] *)
Definition join (db : database) : list (product * product_category) :=
  flat_map
    (fun p =>
       List.map (fun pc => (p, pc))
         (filter (fun pc => (p_category_id p =? category_id pc)%Z &&
                            (p_subcategory_id p =? subcategory_id pc)%Z)
                 (categories db)))
    (products db).

Section OrderBy.
Variable A : Type.
Variable key : A -> Z.

Fixpoint insert_by (x : A) (l : list A) : list A :=
  match l with
  | [] => [x]
  | y :: t => if (key x <=? key y)%Z then x :: l else y :: insert_by x t
  end.

(** The order [ORDER BY key ASC] establishes. *)
Definition key_le (a b : A) : Prop := (key a <= key b)%Z.

(** [ORDER BY key ASC]; SQLite leaves the order of ties open, this
    model keeps them in input order. *)
Definition order_by (l : list A) : list A := fold_right insert_by [] l.
End OrderBy.

(** [SELECT p.*, pc.category_name] *)
Definition select_row (ppc : product * product_category) : row :=
  let (p, pc) := ppc in
  [(str "product_id", VInt (product_id p));
   (str "category_id", VInt (p_category_id p));
   (str "subcategory_id", VInt (p_subcategory_id p));
   (str "product_name", VStr (product_name p));
   (str "price", VFloat (price p));
   (str "stock_quantity", VInt (stock_quantity p));
   (str "category_name", VStr (category_name pc))].

(** SQLite integers are 64-bit; binding a larger Python [int] raises. *)
Definition fits_int64 (z : Z) : bool :=
  ((- 2 ^ 63 <=? z) && (z <? 2 ^ 63))%Z.

(** The statement of [get_low_stock_products]:
    [... WHERE p.stock_quantity < ? ORDER BY p.stock_quantity ASC]. *)
Definition low_stock_query (db : database) (threshold : Z)
  : result (list row) :=
  if fits_int64 threshold then
    Return
      (List.map select_row
         (order_by (fun ppc => stock_quantity (fst ppc))
            (filter (fun ppc => (stock_quantity (fst ppc) <? threshold)%Z)
                    (join db))))
  else
    Raise (PyExc OverflowError
                 (str "Python int too large to convert to SQLite INTEGER")).

(** A storage whose low-stock statement is answered from the tables of
    [db]; every other call is answered by [base]. *)
Definition storage_of (db : database) (base : Storage) : Storage :=
  {| connect := connect base;
     execute := fun s =>
                  match s with
                  | LowStock threshold => low_stock_query db threshold
                  | _ => execute base s
                  end;
     rollback := rollback base;
     close := close base |}.

End Sqlite.

(** ** The completion-service collaborator *)

Module Ollama.

(** What the process does to the outside world, in order. *)
Inductive event : Type :=
| EvList                                   (* client.list() *)
| EvGenerate (model : value) (prompt : pystr)   (* client.generate(...) *)
| EvSleep (seconds : Z).                   (* time.sleep(...) *)

Definition trace : Type := list event.

(** The model service: every call may fail, and its answer may depend on
    what happened before. *)
Record Service : Type := {
  new_client : result unit;    (* import ollama; ollama.Client() *)
  list_response : trace -> result value;
  generate_response : trace -> value -> pystr -> result value
}.

(** Code that talks to the service: an error monad over the trace. *)
Definition IO (A : Type) : Type := trace -> result A * trace.

Definition ret {A} (a : A) : IO A := fun t => (Return a, t).
Definition raise {A} (e : exn) : IO A := fun t => (Raise e, t).
Definition lift {A} (m : result A) : IO A := fun t => (m, t).

Definition bind {A B} (m : IO A) (k : A -> IO B) : IO B :=
  fun t =>
    match m t with
    | (Return a, t') => k a t'
    | (Raise e, t') => (Raise e, t')
    end.

(** [try: body / except Exception as e: handler(e)] *)
Definition try_io {A} (body : IO A) (handler : exn -> IO A) : IO A :=
  fun t =>
    match body t with
    | (Return a, t') => (Return a, t')
    | (Raise e, t') => handler e t'
    end.

Definition call_list (svc : Service) : IO value :=
  fun t => (list_response svc t, t ++ [EvList]).

Definition call_generate (svc : Service) (model : value) (prompt : pystr)
  : IO value :=
  fun t => (generate_response svc t model prompt,
            t ++ [EvGenerate model prompt]).

Definition sleep (seconds : Z) : IO unit :=
  fun t => (Return tt, t ++ [EvSleep seconds]).

(** [hasattr(v, name)]; only objects carry the attributes the source
    probes for ([models], [model], [name]). *)
Definition hasattr (v : value) (name : pystr) : bool :=
  match v with
  | VObj attrs => dict_mem name attrs
  | _ => false
  end.

(** [v.name] after a successful [hasattr]. *)
Definition getattr (v : value) (name : pystr) : value :=
  match v with
  | VObj attrs => dict_get_default name VNone attrs
  | _ => VNone
  end.

(** [for x in v] *)
Definition iterate (v : value) : result (list value) :=
  match v with
  | VList l => Return l
  | VDict d => Return (List.map (fun kv => VStr (fst kv)) d)
  | VStr s => Return (List.map (fun c => VStr [c]) s)
  | VBytes b => Return (List.map (fun c => VInt (Z.of_N c)) b)
  | VNone | VBool _ | VInt _ | VFloat _ | VObj _ =>
      Raise (PyExc TypeError (str "object is not iterable"))
  end.

(** ['response' in v]; the service's response objects answer it through
    their attributes. *)
Definition has_response (v : value) : result bool :=
  match v with
  | VDict d | VObj d => Return (dict_mem (str "response") d)
  | VStr s => Return (contains (str "response") s)
  | VList l => Return (existsb (fun x => eq_str x (str "response")) l)
  | VNone | VBool _ | VInt _ | VFloat _ | VBytes _ =>
      Raise (PyExc TypeError (str "argument is not iterable"))
  end.

(** [v['response']] *)
Definition response_item (v : value) : result value :=
  match v with
  | VDict d | VObj d => dict_item (str "response") d
  | _ => Raise (PyExc TypeError (str "object is not subscriptable"))
  end.

(** [v.get('response', default)] *)
Definition response_get (v : value) (default : value) : result value :=
  match v with
  | VDict d | VObj d => Return (dict_get_default (str "response") default d)
  | _ => Raise (PyExc AttributeError (str "object has no attribute 'get'"))
  end.

(** [response and 'response' in response], as a truth value. *)
Definition nonempty_with_response (v : value) : result bool :=
  if truthy v then has_response v else Return false.

End Ollama.

Import Ollama.

Notation "x <~ m ;; k" := (Ollama.bind m (fun x => k))
  (at level 61, m at next level, right associativity).

(** ** The enhanced agent ([enhanced_agent.py], class [EnhancedAIAgent]) *)

Module EnhancedAIAgent.

Record agent : Type := {
  model : value;
  available : bool;
  client : bool        (* [self.client] is not [None] *)
}.

Definition unavailable_message : pystr :=
  str "AI service is currently unavailable.".

(** "Handle different response formats" *)
Definition models_of_response (models_response : value) : value :=
  match models_response with
  | VObj attrs => dict_get_default (str "models") (VList []) attrs
  | VDict d => dict_get_default (str "models") (VList []) d
  | VList _ => models_response
  | _ => VList []
  end.

(** One iteration of "Extract model names": what the model contributes
    to [available_models]. *)
Definition model_names (m : value) : list value :=
  if hasattr m (str "model") && truthy (getattr m (str "model"))
  then [getattr m (str "model")]
  else if hasattr m (str "name") && truthy (getattr m (str "name"))
  then [getattr m (str "name")]
  else match m with
       | VDict d =>
           let a := dict_get_default (str "model") VNone d in
           [if truthy a then a
            else dict_get_default (str "name") (VStr (str "unknown")) d]
       | _ => []
       end.

(** The names [test_connection] extracts from the service's answer. *)
Definition available_models (models_response : value) : result (list value) :=
  models <- iterate (models_of_response models_response) ;;
  Return (flat_map model_names models).

(** [test_connection]: the new [self.model] and the returned flag. *)
Definition test_connection (svc : Service) (self_model : value)
  : IO (value * bool) :=
  try_io
    (models_response <~ call_list svc ;;
     names <~ lift (available_models models_response) ;;
     match names with
     | first :: _ =>
         fun t =>
           match call_generate svc first (str "Test connection") t with
           | (Return response, t') =>
               match nonempty_with_response response with
               | Return b => (Return (first, b), t')
               | Raise _ => (Return (first, false), t')
               end
           | (Raise _, t') => (Return (first, false), t')
           end
     | [] => ret (self_model, false)
     end)
    (fun _ => ret (self_model, false)).

(** [__init__] *)
Definition init (svc : Service) (model0 : value) : IO agent :=
  fun t =>
    match new_client svc with
    | Raise _ => (Return {| model := model0; available := false; client := false |}, t)
    | Return _ =>
        match test_connection svc model0 t with
        | (Return (m, ok), t') =>
            (Return {| model := m; available := ok; client := true |}, t')
        | (Raise _, t') =>
            (Return {| model := model0; available := false; client := true |}, t')
        end
    end.

(** [safe_generate] *)
Definition safe_generate (svc : Service) (self : agent) (prompt : pystr)
  : IO value :=
  if negb (available self) || negb (client self) then
    ret (VStr unavailable_message)
  else
    try_io
      (response <~ call_generate svc (model self) prompt ;;
       lift (response_get response (VStr (str "No response generated"))))
      (fun e => ret (VStr (str "Error generating response: " ++ str_exn e))).

(** The keyword sets of [analyze_query_type], in the order tested. *)
Definition planner_words : list pystr :=
  [str "plan"; str "strategy"; str "roadmap"; str "timeline";
   str "schedule"; str "develop"].
Definition analytics_words : list pystr :=
  [str "analyze"; str "analysis"; str "trend"; str "pattern";
   str "insight"; str "metric"; str "statistic"].
Definition rag_words : list pystr :=
  [str "show"; str "list"; str "get"; str "find"; str "retrieve";
   str "display"; str "what"].
Definition supervisor_words : list pystr :=
  [str "comprehensive"; str "complete"; str "overview"; str "assessment";
   str "report"; str "review"].
Definition react_words : list pystr :=
  [str "why"; str "how"; str "solve"; str "fix"; str "improve";
   str "problem"; str "issue"; str "trouble"].
Definition crag_words : list pystr :=
  [str "validate"; str "verify"; str "check"; str "review"; str "assess";
   str "correct"; str "validate"].

(** What [query.lower()] returns: text or bytes. *)
Inductive lowered : Type :=
| LStr (s : pystr)
| LBytes (b : list N).

(** What [word in query_lower] raises for a text word and lowered
    bytes. *)
Definition str_in_bytes : exn :=
  PyExc TypeError (str "a bytes-like object is required, not 'str'").

Section Classifier.

(** [str.lower()], which depends on the Unicode case tables. *)
Variable lower : pystr -> pystr.

(** [query.lower()] on whatever the request carried: text is lowered
    through the Unicode tables, bytes through the ASCII ones, and no other
    value has the method. *)
Definition py_lower (query : value) : result lowered :=
  match query with
  | VStr s => Return (LStr (lower s))
  | VBytes b => Return (LBytes (ascii_lower b))
  | _ => Raise (PyExc AttributeError (str "object has no attribute 'lower'"))
  end.

(** [analyze_query_type] on a string. *)
Definition analyze_query_type (query : pystr) : pystr :=
  let query_lower := lower query in
  if any_in planner_words query_lower then str "planner"
  else if any_in analytics_words query_lower then str "analytics"
  else if any_in rag_words query_lower then str "rag"
  else if any_in supervisor_words query_lower then str "supervisor"
  else if any_in react_words query_lower then str "react"
  else if any_in crag_words query_lower then str "crag"
  else str "supervisor".

(** On bytes the first keyword test raises. *)
Definition analyze_query_type_v (query : value) : result pystr :=
  match query with
  | VStr s => Return (analyze_query_type s)
  | VBytes _ => Raise str_in_bytes
  | _ => Raise (PyExc AttributeError (str "object has no attribute 'lower'"))
  end.

(** [analyze_query_context] *)
Definition analyze_query_context (query_lower : pystr) : value :=
  let flag words := VBool (any_in (List.map str words) query_lower) in
  VDict
    [(str "is_financial",
      flag ["financial"; "revenue"; "cost"; "profit"; "money"; "price";
            "budget"]%string);
     (str "is_inventory",
      flag ["inventory"; "stock"; "product"; "item"; "quantity"]%string);
     (str "is_user_related",
      flag ["user"; "team"; "employee"; "staff"; "role";
            "performance"]%string);
     (str "is_system_related",
      flag ["system"; "health"; "performance"; "database";
            "technical"]%string);
     (str "is_strategic",
      flag ["strategy"; "plan"; "roadmap"; "future"; "growth"]%string);
     (str "is_analytical",
      flag ["analyze"; "analysis"; "trend"; "pattern"; "insight"]%string)].

End Classifier.

End EnhancedAIAgent.

(** ** The basic agent ([ai_agent.py], class [AIAgent]) *)

Module AIAgent.

Record agent : Type := {
  model : pystr;
  available : bool;
  client : bool        (* [self.client] is not [None] *)
}.

Definition unavailable_message : pystr :=
  str "AI service is currently unavailable. Please check if Ollama is running.".

Definition apology : pystr :=
  str "I apologize, but I'm having trouble generating a response right now. Please try again later or check the Ollama service.".

Definition test_prompt : pystr :=
  str "Hello, please respond with 'AI Agent is working' to confirm everything is working.".

Definition quote : N := 39%N.
Definition dquote : N := 34%N.

(** [s.strip().strip(chars)] with the two quote characters *)
Definition clean (s : pystr) : pystr := strip_chars [quote; dquote] (strip s).

(** The text after the first occurrence of [needle], if any. *)
Fixpoint after_first (needle hay : pystr) : option pystr :=
  if startswith needle hay then Some (skipn (List.length needle) hay)
  else match hay with
       | [] => None
       | _ :: t => after_first needle t
       end.

(** The text before the first quote, if there is a quote. *)
Fixpoint until_quote (s : pystr) : option pystr :=
  match s with
  | [] => None
  | c :: t =>
      if N.eqb c quote then Some []
      else option_map (cons c) (until_quote t)
  end.

(** [s.split()[0]] *)
Fixpoint take_word (s : pystr) : pystr :=
  match s with
  | [] => []
  | c :: t => if isspace c then [] else c :: take_word t
  end.

Definition first_word (s : pystr) : result pystr :=
  match lstrip_by isspace s with
  | [] => Raise (PyExc IndexError (str "list index out of range"))
  | s' => Return (take_word s')
  end.

Section WithBuiltins.

Variable lower : pystr -> pystr.
(** [str(model)] of an entry of the service's model list *)
Variable py_str : value -> pystr.

(** "Handle ListResponse object" *)
Definition models_of_response (models_response : value) : value :=
  match models_response with
  | VObj attrs => dict_get_default (str "models") (VList []) attrs
  | VList _ => models_response
  | VDict d => dict_get_default (str "models") (VList []) d
  | _ => VList []
  end.

(** Methods 1 to 3 of the name extraction. *)
Definition declared_name (m : value) : value :=
  if hasattr m (str "model") && truthy (getattr m (str "model"))
  then getattr m (str "model")
  else if hasattr m (str "name") && truthy (getattr m (str "name"))
  then getattr m (str "name")
  else match m with
       | VDict d =>
           let a := dict_get_default (str "model") VNone d in
           if truthy a then a else dict_get_default (str "name") VNone d
       | _ => VNone
       end.

(** Method 4, the string representation: what the regular expression
    captures between the quotes that follow [model=], or the first
    word. *)
Definition name_from_string (i : nat) (m : value) : result value :=
  let model_str := py_str m in
  match after_first (str "model='") model_str with
  | Some rest =>
      match until_quote rest with
      | Some name => Return (VStr name)
      | None => Return VNone
      end
  | None =>
      match model_str with
      | [] => Return (VStr (str "unknown_" ++
                            str (NilZero.string_of_uint (Nat.to_uint i))))
      | _ => w <- first_word model_str ;; Return (VStr w)
      end
  end.

(** One iteration of the extraction loop, with its own
    [try]/[except ... continue]. *)
Definition model_names (i : nat) (m : value) : list value :=
  let model_name :=
    let n := declared_name m in
    if truthy n then Return n else name_from_string i m in
  match model_name with
  | Return n => if truthy n then [n] else []
  | Raise _ => []
  end.

Fixpoint extract_names (i : nat) (models : list value) : list value :=
  match models with
  | [] => []
  | m :: t => model_names i m ++ extract_names (S i) t
  end.

(** The names [test_ollama_connection] extracts from the service's
    answer. *)
Definition available_models (models_response : value)
  : result (list value) :=
  models <- iterate (models_of_response models_response) ;;
  Return (extract_names 0 models).

(** [model_name.strip().strip(chars)] *)
Definition clean_name (n : value) : result pystr :=
  match n with
  | VStr s => Return (clean s)
  | _ => Raise (PyExc AttributeError (str "object has no attribute 'strip'"))
  end.

(** "Check if our target model exists" *)
Fixpoint find_target (self_model : pystr) (names : list value)
  : result (option pystr) :=
  match names with
  | [] => Return None
  | n :: t =>
      clean_model_name <- clean_name n ;;
      if PyStr.eqb (lower self_model) (lower clean_model_name) ||
         contains (lower self_model) (lower clean_model_name)
      then Return (Some clean_model_name)
      else find_target self_model t
  end.

(** [v.strip()] without argument, for its exception only: text and bytes
    have the method. *)
Definition strips (v : value) : result unit :=
  match v with
  | VStr _ | VBytes _ => Return tt
  | _ => Raise (PyExc AttributeError (str "object has no attribute 'strip'"))
  end.

(** [test_model_generation]: the new value of [self.available]. *)
Definition test_model_generation (svc : Service) (self_model : pystr)
  : IO bool :=
  try_io
    (test_response <~ call_generate svc (VStr (clean self_model))
                                    test_prompt ;;
     ok <~ lift (nonempty_with_response test_response) ;;
     if (ok : bool) then
       r <~ lift (response_item test_response) ;;
       _ <~ lift (strips r) ;;
       ret true
     else ret false)
    (fun _ => ret false).

(** [test_ollama_connection]: the new [self.model] and
    [self.available]. *)
Definition test_ollama_connection (svc : Service) (self_model : pystr)
  : IO (pystr * bool) :=
  try_io
    (models_response <~ call_list svc ;;
     names <~ lift (available_models models_response) ;;
     match names with
     | [] => ret (self_model, false)
     | first :: _ =>
         target <~ lift (find_target self_model names) ;;
         match target with
         | Some ((_ :: _) as actual_model_name) =>
             ok <~ test_model_generation svc actual_model_name ;;
             ret (actual_model_name, ok)
         | _ =>
             m <~ lift (clean_name first) ;;
             ok <~ test_model_generation svc m ;;
             ret (m, ok)
         end
     end)
    (fun _ => ret (self_model, false)).

(** [__init__] *)
Definition init (svc : Service) (model0 : pystr) : IO agent :=
  fun t =>
    match new_client svc with
    | Raise _ =>
        (Return {| model := model0; available := false; client := false |}, t)
    | Return _ =>
        match test_ollama_connection svc model0 t with
        | (Return (m, ok), t') =>
            (Return {| model := m; available := ok; client := true |}, t')
        | (Raise _, t') =>
            (Return {| model := model0; available := false; client := true |}, t')
        end
    end.

(** One attempt of [safe_generate]: the text to return, or [None] when
    the loop goes on; the flag tells whether the attempt raised. *)
Definition attempt_once (svc : Service) (self : agent) (prompt : pystr)
  : IO (option value * bool) :=
  try_io
    (response <~ call_generate svc (VStr (clean (model self))) prompt ;;
     ok <~ lift (nonempty_with_response response) ;;
     if (ok : bool) then
       r <~ lift (response_item response) ;;
       ret (Some r, false)
     else ret (None, false))
    (fun _ => ret (None, true)).

(** The retry loop of [safe_generate]: [attempt] counts from 0,
    [remaining] iterations are left. *)
Fixpoint generate_loop (svc : Service) (self : agent) (prompt : pystr)
         (max_retries : Z) (attempt : Z) (remaining : nat) : IO value :=
  match remaining with
  | O => ret (VStr apology)
  | S remaining' =>
      outcome <~ attempt_once svc self prompt ;;
      match outcome with
      | (Some r, _) => ret r
      | (None, raised) =>
          _ <~ (if raised && (attempt <? max_retries - 1)%Z
                then sleep ((attempt + 1) * 5)
                else ret tt) ;;
          generate_loop svc self prompt max_retries (attempt + 1) remaining'
      end
  end.

(** [safe_generate] *)
Definition safe_generate (svc : Service) (self : agent) (prompt : pystr)
           (max_retries : Z) : IO value :=
  if negb (available self) || negb (client self) then
    ret (VStr unavailable_message)
  else
    generate_loop svc self prompt max_retries 0 (Z.to_nat max_retries).

End WithBuiltins.

End AIAgent.

(** ** The supervisor pipeline ([enhanced_agent.py]) and its endpoint
       ([main.py]) *)

Module Pipeline.

Import EnhancedAIAgent.

(** Python's built-ins and the repository's pure text templates that the
    pipeline calls; the theorems hold for every choice of them. *)
Record Env : Type := {
  parse_int : pystr -> option Z;
  parse_float : pystr -> option pyfloat;
  title : pystr -> pystr;
  lower : pystr -> pystr;
  (** [str(v)] / [format(v)] of a value that is not a string *)
  py_str : value -> pystr;
  (** [create_data_summary]: total, it has its own [try]/[except] *)
  create_data_summary : dict -> value;
  (** [create_data_rich_prompt(query, user_role, agent_type, real_data)]:
      string templates; formatting may raise *)
  create_data_rich_prompt : value -> pystr -> pystr -> dict -> result pystr
}.

Section WithEnv.

Variable env : Env.
Variable st : Storage.

(** The assignments [data[k] = ...] of [get_comprehensive_business_data],
    in order; each sees the dictionary built so far.  The first six call
    the aggregator and do not look at the query. *)
Definition aggregator_steps : list (pystr * (dict -> result value)) :=
  let pi := parse_int env in
  let pf := parse_float env in
  [(str "system_health", fun _ => AICRUDTools.get_system_health pi pf st);
   (str "user_analytics", fun _ => AICRUDTools.analyze_user_behavior pi st);
   (str "sales_trends", fun _ => AICRUDTools.get_sales_trends pi pf st);
   (str "category_insights",
    fun _ => AICRUDTools.get_category_insights pi pf st);
   (str "products",
    fun _ => AICRUDTools.search_products pi pf (title env) st [] None);
   (str "low_stock", fun _ => AICRUDTools.get_low_stock_products pi pf st 10)].

(** On a lowered text the three keyword tests that follow do nothing
    (their bodies are [pass]) and the last two assignments are made. *)
Definition data_steps (query_lower : pystr)
  : list (pystr * (dict -> result value)) :=
  aggregator_steps ++
  [(str "summary", fun data => Return (create_data_summary env data));
   (str "query_context",
    fun _ => Return (analyze_query_context query_lower))].

(** On lowered bytes the first keyword test raises, before the summary is
    assigned. *)
Definition bytes_steps : list (pystr * (dict -> result value)) :=
  aggregator_steps ++ [(str "summary", fun _ => Raise str_in_bytes)].

(** Runs the assignments until one raises; the dictionary keeps what
    was stored before. *)
Fixpoint fill (steps : list (pystr * (dict -> result value))) (data : dict)
  : dict * option exn :=
  match steps with
  | [] => (data, None)
  | (k, f) :: t =>
      match f data with
      | Return v => fill t (dict_set k v data)
      | Raise e => (data, Some e)
      end
  end.

Definition get_comprehensive_business_data (query : value) : result dict :=
  query_lower <- py_lower (lower env) query ;;
  match fill (match query_lower with
              | LStr l => data_steps l
              | LBytes _ => bytes_steps
              end) [] with
  | (data, None) => Return data
  | (data, Some e) =>
      Return (dict_set (str "summary")
                       (VDict [(str "error", VStr (str_exn e))])
                       (dict_set (str "error") (VStr (str_exn e)) data))
  end.

(** [supervisor_agent] *)
Definition supervisor_agent (svc : Service) (self : agent)
           (query : value) (user_role : pystr) : IO value :=
  try_io
    (real_data <~ lift (get_comprehensive_business_data query) ;;
     agent_type <~ lift (analyze_query_type_v (lower env) query) ;;
     prompt <~ lift (create_data_rich_prompt env query user_role
                                             agent_type real_data) ;;
     response <~ safe_generate svc self prompt ;;
     ret (VDict
            [(str "response", response);
             (str "type", VStr agent_type);
             (str "data", VDict real_data);
             (str "reasoning",
              VStr (str "Used " ++ agent_type ++
                    str " approach with comprehensive business data"));
             (str "needs_human_review", VBool false)]))
    (fun e =>
       ret (VDict
              [(str "response",
                VStr (str "Error processing request: " ++ str_exn e));
               (str "type", VStr (str "error"));
               (str "data", VDict []);
               (str "reasoning", VStr (str "Error: " ++ str_exn e));
               (str "needs_human_review", VBool true)])).

(** The module-level instance: [EnhancedAIAgent()] or, if constructing
    it raises, the fallback class. *)
Inductive instance : Type :=
| Enhanced (a : agent)
| FallbackEnhancedAgent.

Definition default_model : value := VStr (str "llama3.1:latest").

Definition enhanced_ai_agent (svc : Service) : IO instance :=
  try_io (a <~ init svc default_model ;; ret (Enhanced a))
         (fun _ => ret FallbackEnhancedAgent).

Definition fallback_response : value :=
  VDict
    [(str "response",
      VStr (str "Enhanced AI service is currently unavailable. Please check:"
            ++ [newline] ++ str "1. Ollama is installed and running"
            ++ [newline] ++ str "2. llama3.1:latest model is available"
            ++ [newline] ++ str "3. Backend services are running"));
     (str "type", VStr (str "error"));
     (str "data", VDict []);
     (str "reasoning",
      VStr (str "Fallback mode - agent initialization failed"));
     (str "needs_human_review", VBool true)].

Definition instance_supervisor_agent (svc : Service) (i : instance)
           (query : value) (user_role : pystr) : IO value :=
  match i with
  | Enhanced a => supervisor_agent svc a query user_role
  | FallbackEnhancedAgent => ret fallback_response
  end.

(** [format(v)] inside an f-string. *)
Definition format_value (v : value) : pystr :=
  match v with
  | VStr s => s
  | _ => py_str env v
  end.

(** [apply_response_style] of [main.py] *)
Definition apply_response_style (response style : value) : value :=
  if eq_str style (str "Formal") then
    VStr (str "**Formal Analysis:**" ++ [newline; newline] ++
          format_value response)
  else if eq_str style (str "Technical") then
    VStr (str "**Technical Assessment:**" ++ [newline; newline] ++
          format_value response)
  else if eq_str style (str "Storytelling") then
    VStr (str "**Narrative Insights:**" ++ [newline; newline] ++
          format_value response)
  else response.

(** [extract_actions_from_response] applied to whatever the response
    is. *)
Definition extract_actions (response : value) : result value :=
  match response with
  | VStr s =>
      Return (VList (List.map VStr
                       (Main_post.extract_actions_from_response s)))
  | VBytes _ => Raise EnhancedAIAgent.str_in_bytes
  | _ => Raise (PyExc AttributeError (str "object has no attribute 'split'"))
  end.

(** [result.get(k, default)] / [result[k]] on the supervisor's answer. *)
Definition as_dict (v : value) : dict :=
  match v with VDict d => d | _ => [] end.

(** The body of the [try] block of [enhanced_ai_query]. *)
Definition enhanced_ai_query_body (svc : Service) (i : instance)
           (query_data : dict) (role_name : pystr) : IO value :=
  let user_input := dict_get_default (str "query") (VStr []) query_data in
  let response_style :=
    dict_get_default (str "response_style") (VStr (str "Conversational"))
                     query_data in
  if negb (truthy user_input) then
    raise (HTTPException 400 (str "Query is required"))
  else
    result <~ instance_supervisor_agent svc i user_input role_name ;;
    response <~ lift (dict_item (str "response") (as_dict result)) ;;
    let enhanced_response := apply_response_style response response_style in
    actions <~ lift (extract_actions enhanced_response) ;;
    ret (VDict
           [(str "response", enhanced_response);
            (str "agent_type",
             dict_get_default (str "type") (VStr (str "supervisor"))
                              (as_dict result));
            (str "data",
             dict_get_default (str "data") (VDict []) (as_dict result));
            (str "reasoning",
             dict_get_default (str "reasoning") (VStr []) (as_dict result));
            (str "actions", actions);
            (str "needs_human_review",
             dict_get_default (str "needs_human_review") (VBool false)
                              (as_dict result))]).

(** [enhanced_ai_query]: a returned dictionary is the 200 response; a
    raised [HTTPException] is the error response with its status. *)
Definition enhanced_ai_query (svc : Service) (i : instance)
           (query_data : dict) (role_name : pystr) : IO value :=
  try_io (enhanced_ai_query_body svc i query_data role_name)
         (fun e =>
            raise (HTTPException 500
                     (str "AI processing error: " ++ str_exn e))).

End WithEnv.

End Pipeline.

(** ** Concrete inputs used by the examples *)

Module Examples.

Definition nl : string := String (ascii_of_nat 10) EmptyString.
Definition tab : string := String (ascii_of_nat 9) EmptyString.

(** The four-line response of the specification's example. *)
Definition four_lines : pystr :=
  str ("- Do X immediately" ++ nl ++ "**Header**" ++ nl ++
       "Not a bullet" ++ nl ++ "1. Do Y now").

(** A bullet, a tab, and a second bullet. *)
Definition tabbed_line : pystr :=
  str ("-" ++ tab ++ "- check the stock levels").

Definition restock_line : pystr :=
  str "- 5 products need restocking immediately".

(** A storage whose connection cannot be opened. *)
Definition locked : exn :=
  PyExc DatabaseError (str "unable to open database file").

Definition failing_storage : Storage :=
  {| connect := Raise locked;
     execute := fun _ => Raise locked;
     rollback := Return tt;
     close := Return tt |}.

(** A storage that connects and answers every statement with no rows. *)
Definition empty_storage : Storage :=
  {| connect := Return tt;
     execute := fun _ => Return [];
     rollback := Return tt;
     close := Return tt |}.

(** A storage with two categories, three products, no active user and
    a sound file. *)
Definition count_row (n : Z) : list row := [[(str "count", VInt n)]].

Definition small_storage : Storage :=
  {| connect := Return tt;
     execute := fun s =>
       match s with
       | CountCategories => Return (count_row 2)
       | CountProducts => Return (count_row 3)
       | CountActiveUsers => Return (count_row 0)
       | CountRoles => Return (count_row 3)
       | IntegrityCheck =>
           Return [[(str "integrity_check", VStr (str "ok"))]]
       | TableNames => Return [[(str "name", VStr (str "product"))]]
       | CountTable _ => Return (count_row 3)
       | _ => Return []
       end;
     rollback := Return tt;
     close := Return tt |}.

(** The same database without its [roles] table: counting the roles
    fails. *)
Definition no_roles : exn := PyExc DatabaseError (str "no such table: roles").

Definition missing_table_storage : Storage :=
  {| connect := Return tt;
     execute := fun s =>
       match s with
       | CountRoles => Raise no_roles
       | _ => execute small_storage s
       end;
     rollback := Return tt;
     close := Return tt |}.

(** Two categories and four products, one of them in no category. *)
Definition shop : Sqlite.database :=
  {| Sqlite.products :=
       [ {| Sqlite.product_id := 1; Sqlite.p_category_id := 1;
            Sqlite.p_subcategory_id := 1; Sqlite.product_name := str "Lamp";
            Sqlite.price := float_of_Z 20; Sqlite.stock_quantity := 7 |};
         {| Sqlite.product_id := 2; Sqlite.p_category_id := 1;
            Sqlite.p_subcategory_id := 2; Sqlite.product_name := str "Desk";
            Sqlite.price := float_of_Z 150; Sqlite.stock_quantity := 42 |};
         {| Sqlite.product_id := 3; Sqlite.p_category_id := 1;
            Sqlite.p_subcategory_id := 1; Sqlite.product_name := str "Bulb";
            Sqlite.price := float_of_Z 2; Sqlite.stock_quantity := 0 |};
         {| Sqlite.product_id := 4; Sqlite.p_category_id := 9;
            Sqlite.p_subcategory_id := 9; Sqlite.product_name := str "Ghost";
            Sqlite.price := float_of_Z 1; Sqlite.stock_quantity := 1 |} ];
     Sqlite.categories :=
       [ {| Sqlite.category_id := 1; Sqlite.subcategory_id := 1;
            Sqlite.category_name := str "Lighting";
            Sqlite.description := None |};
         {| Sqlite.category_id := 1; Sqlite.subcategory_id := 2;
            Sqlite.category_name := str "Furniture";
            Sqlite.description := None |} ] |}.

(** A model service that is reachable and has no model registered. *)
Definition no_models_service : Service :=
  {| new_client := Return tt;
     list_response := fun _ => Return (VDict [(str "models", VList [])]);
     generate_response :=
       fun _ _ _ => Return (VDict [(str "response", VStr (str "ok"))]) |}.

(** A model service with one model that answers every prompt. *)
Definition healthy_service : Service :=
  {| new_client := Return tt;
     list_response :=
       fun _ => Return (VDict [(str "models",
                                VList [VDict [(str "model",
                                               VStr (str "llama3.1:latest"))]])]);
     generate_response :=
       fun _ _ _ =>
         Return (VDict [(str "response",
                         VStr (str "- Restock the lighting category now"))]) |}.

(** Built-ins restricted to ASCII and trivial templates. *)
Definition plain_env : Pipeline.Env :=
  {| Pipeline.parse_int := fun _ => None;
     Pipeline.parse_float := fun _ => None;
     Pipeline.title := fun s => s;
     Pipeline.lower := ascii_lower;
     Pipeline.py_str := fun _ => str "<object>";
     Pipeline.create_data_summary := fun _ => VDict [];
     Pipeline.create_data_rich_prompt :=
       fun _ _ agent_type _ => Return (str "AGENT TYPE: " ++ agent_type) |}.

Definition low_stock_question : value :=
  VStr (str "show me products with low stock").

End Examples.

(** ** Observations on results, and the properties as the specification
       states them *)

(** What a line contributes to the action list in [main.py] ... *)
Definition main_actions_of (line : pystr) : list pystr :=
  Main_post.step [] line.

(** ... and in [enhanced_streamlit.py]. *)
Definition streamlit_actions_of (line : pystr) : list pystr :=
  Streamlit_post.step [] line.

Definition claimed_actions : list pystr :=
  [str "Do X immediately"; str "Do Y now"].

(** The second sentence of C10, read on one response: no returned action
    begins with a character of the stripped set. *)
Definition no_action_starts_with_marker
           (extract : pystr -> list pystr) (response : pystr) : Prop :=
  forall a c, In a (extract response) -> hd_error a = Some c ->
              mem c Main_post.strip_set = false.

(** The whole run of the failing input of C2: the service has no model,
    the module-level agent is created, and the endpoint answers the
    question "show me products with low stock". *)
Definition unavailable_run : result value * trace :=
  match Pipeline.enhanced_ai_agent Examples.no_models_service [] with
  | (Return i, t) =>
      Pipeline.enhanced_ai_query Examples.plain_env Examples.empty_storage
        Examples.no_models_service i
        [(str "query", Examples.low_stock_question)] (str "admin") t
  | (Raise e, t) => (Raise e, t)
  end.

Definition response_field (k : pystr) (r : result value * trace) : option value :=
  match fst r with
  | Return (VDict d) => dict_get k d
  | _ => None
  end.

(** The error annotation of an aggregator result: the ["error"] entry of
    the returned dictionary or of the dictionary nested in its single
    entry (where [analyze_user_behavior] and [get_system_health] put it). *)
Definition error_field (v : value) : option value :=
  match v with
  | VDict d =>
      match dict_get (str "error") d with
      | Some e => Some e
      | None =>
          match d with
          | [(_, VDict inner)] => dict_get (str "error") inner
          | _ => None
          end
      end
  | _ => None
  end.


(** The stock quantity of a returned product dictionary. *)
Definition stock_of (v : value) : option Z :=
  match v with
  | VDict d =>
      match dict_get (str "stock_quantity") d with
      | Some (VInt z) => Some z
      | _ => None
      end
  | _ => None
  end.

(** The products selected by the low-stock statement. *)
Definition low_stock_selection (db : Sqlite.database) (T : Z)
  : list (Sqlite.product * Sqlite.product_category) :=
  Sqlite.order_by (fun ppc => Sqlite.stock_quantity (fst ppc))
    (filter (fun ppc => (Sqlite.stock_quantity (fst ppc) <? T)%Z)
            (Sqlite.join db)).

(** [v["system_metrics"][name]] *)
Definition metric (name : pystr) (v : value) : option value :=
  match v with
  | VDict d =>
      match dict_get (str "system_metrics") d with
      | Some (VDict m) => dict_get name m
      | _ => None
      end
  | _ => None
  end.

(** [v["health_indicators"]] *)
Definition indicators (v : value) : option value :=
  match v with
  | VDict d => dict_get (str "health_indicators") d
  | _ => None
  end.

(** The bucket of a score, as the specification words it. *)
Definition bucket (score : Z) : pystr :=
  if (80 <=? score)%Z then str "excellent"
  else if (60 <=? score)%Z then str "good"
  else str "needs_attention".

(** The number a score field holds, when it is integral. *)
Definition score_number (v : value) : option Z :=
  match v with
  | VInt z => Some z
  | VFloat f =>
      match py_int (fun _ => None) (VFloat f) with
      | Return z => if SFeqb f (float_of_Z z) then Some z else None
      | Raise _ => None
      end
  | _ => None
  end.

(** C8 read on one result: the score is a number of [0,100] and the
    status is the bucket of the score. *)
Definition score_bucketed (v : value) : Prop :=
  exists score,
    option_map score_number (metric (str "health_score") v) = Some (Some score) /\
    (0 <= score <= 100)%Z /\
    metric (str "health_status") v = Some (VStr (bucket score)).

(** Initialization of the enhanced client finds no model: the client
    cannot be created, the model listing fails, or no name can be
    extracted from it. *)
Definition enhanced_init_finds_no_model (svc : Service) (t : trace) : Prop :=
  (exists e, new_client svc = Raise e) \/
  (exists e, list_response svc t = Raise e) \/
  (exists r, list_response svc t = Return r /\
             (EnhancedAIAgent.available_models r = Return [] \/
              exists e, EnhancedAIAgent.available_models r = Raise e)).

(** The same for the basic client, whose name extraction differs. *)
Definition basic_init_finds_no_model (py_str : value -> pystr)
           (svc : Service) (t : trace) : Prop :=
  (exists e, new_client svc = Raise e) \/
  (exists e, list_response svc t = Raise e) \/
  (exists r, list_response svc t = Return r /\
             (AIAgent.available_models py_str r = Return [] \/
              exists e, AIAgent.available_models py_str r = Raise e)).

(** ** Further code of the cited files *)

(** *** The presentation helpers of [enhanced_streamlit.py] *)

Module Streamlit_ui.

(** [apply_response_style]: the headers carry no colon here. *)
Definition apply_response_style (response style : pystr) : pystr :=
  if PyStr.eqb style (str "Formal") then
    str "**Formal Analysis**" ++ [newline; newline] ++ response
  else if PyStr.eqb style (str "Technical") then
    str "**Technical Assessment**" ++ [newline; newline] ++ response
  else if PyStr.eqb style (str "Storytelling") then
    str "**Narrative Insights**" ++ [newline; newline] ++ response
  else response.

(** The emoji of [get_agent_emoji], as code points. *)
Definition thinking_face : pystr := [129300%N].
Definition clipboard : pystr := [128203%N].
Definition office_worker : pystr := [128104%N; 8205%N; 128188%N].
Definition magnifier : pystr := [128269%N].
Definition arrows : pystr := [128260%N].
Definition bar_chart : pystr := [128202%N].
Definition cross_mark : pystr := [10060%N].
Definition robot : pystr := [129302%N].

Definition emoji_map : list (pystr * pystr) :=
  [(str "react", thinking_face);
   (str "planner", clipboard);
   (str "supervisor", office_worker);
   (str "rag", magnifier);
   (str "crag", arrows);
   (str "analytics", bar_chart);
   (str "error", cross_mark)].

Fixpoint lookup (k : pystr) (m : list (pystr * pystr)) : option pystr :=
  match m with
  | [] => None
  | (k', v) :: t => if PyStr.eqb k k' then Some v else lookup k t
  end.

(** [get_agent_emoji]: [emoji_map.get(agent_type, robot)] *)
Definition get_agent_emoji (agent_type : pystr) : pystr :=
  match lookup agent_type emoji_map with
  | Some e => e
  | None => robot
  end.

End Streamlit_ui.

(** *** Observations on the post-processor and the classifier *)

(** The qualifying actions of a whole response, before the cut at five. *)
Definition main_candidates (response : pystr) : list pystr :=
  flat_map main_actions_of (split newline response).

Definition streamlit_candidates (response : pystr) : list pystr :=
  flat_map streamlit_actions_of (split newline response).

(** The six intents. *)
Definition intents : list pystr :=
  [str "planner"; str "analytics"; str "rag"; str "supervisor"; str "react";
   str "crag"].

(** The validation keywords that can decide a classification. *)
Definition deciding_crag_words : list pystr :=
  [str "validate"; str "verify"; str "check"; str "assess"; str "correct"].

(** The keywords behind the [is_analytical] context flag. *)
Definition analytical_flag_words : list pystr :=
  [str "analyze"; str "analysis"; str "trend"; str "pattern"; str "insight"].

(** *** Observations on the aggregator's results *)

(** The entry [k] of [d], when there is one, satisfies [Q]. *)
Definition holds_at (Q : value -> Prop) (k : pystr) (d : dict) : Prop :=
  forall x, dict_get k d = Some x -> Q x.

Definition is_int (v : value) : Prop := exists z, v = VInt z.
Definition is_float (v : value) : Prop := exists f, v = VFloat f.

(** A product dictionary whose numeric fields have their concrete types. *)
Definition coerced_product (v : value) : Prop :=
  exists d, v = VDict d /\
            holds_at is_float (str "price") d /\
            holds_at is_int (str "stock_quantity") d.

(** *** Observations on traces *)

(** The completion calls of a trace. *)
Definition generate_calls (t : trace) : list (value * pystr) :=
  flat_map (fun ev => match ev with
                      | EvGenerate m p => [(m, p)]
                      | _ => []
                      end) t.

(** The pauses of a trace, in seconds. *)
Definition sleeps_of (t : trace) : list Z :=
  flat_map (fun ev => match ev with
                      | EvSleep s => [s]
                      | _ => []
                      end) t.

(** A service whose completion call fails every time. *)
Definition generation_always_fails (svc : Service) : Prop :=
  forall t m p, exists e, generate_response svc t m p = Raise e.

(** *** The basic pipeline ([ai_agent.py]) and its endpoint ([main.py]) *)

Module BasicPipeline.

(** Lines joined by newlines. *)
Fixpoint unlines (l : list string) : pystr :=
  match l with
  | [] => []
  | [s] => str s
  | s :: t => str s ++ newline :: unlines t
  end.

(** The three pieces of the f-string of [process_query], around the role
    and the query. *)
Definition prompt_head : pystr :=
  unlines
    ["";
     "            You are a helpful AI assistant for a business inventory management system.";
     "            ";
     "            User Role: "]%string.

Definition prompt_middle : pystr :=
  unlines
    ["";
     "            User Query: "]%string.

Definition prompt_tail : pystr :=
  unlines
    ["";
     "            ";
     "            Available data and functions:";
     "            - Product inventory and categories";
     "            - Sales trends and analytics";
     "            - User management (if admin/manager)";
     "            - System health monitoring";
     "            ";
     "            Please provide a helpful, concise response. If the user is asking about data you can't access,";
     "            suggest what they can do with their current permissions.";
     "            ";
     "            Response:";
     "            "]%string.

Definition wrench : pystr := [128295%N].

(** The text of [get_unavailable_response]. *)
Definition unavailable_text : pystr :=
  wrench ++
  unlines
    [" AI Assistant is currently unavailable.";
     "";
     "Please ensure:";
     "1. Ollama is running: `ollama serve`";
     "2. Models are available: `ollama list`";
     "3. Restart the application";
     "";
     "If issues persist, check the server logs for detailed error information."]%string.

(** [get_unavailable_response] *)
Definition get_unavailable_response : value :=
  VDict [(str "response", VStr unavailable_text);
         (str "data", VDict []);
         (str "reasoning", VStr (str "AI service not available"));
         (str "action_taken", VStr (str "unavailable"));
         (str "needs_human_review", VBool true)].

(** The answer of the [FallbackAgent] class. *)
Definition fallback_response : value :=
  VDict [(str "response",
          VStr (wrench ++
                unlines
                  [" AI Assistant is currently unavailable. Please check:";
                   "1. Ollama service is running";
                   "2. Models are available via `ollama list`";
                   "3. Restart the application"]%string));
         (str "data", VDict []);
         (str "reasoning", VStr (str "Fallback agent - initialization failed"));
         (str "action_taken", VStr (str "fallback"));
         (str "needs_human_review", VBool true)].

Section WithEnv.

Variable env : Pipeline.Env.
Variable st : Storage.

(** The branch of [get_relevant_data] a query takes: the assignments
    [data[k] = ...] it performs, in order. *)
Definition relevant_steps (user_input user_input_lower user_role : pystr)
  : list (pystr * (dict -> result value)) :=
  let pi := Pipeline.parse_int env in
  let pf := Pipeline.parse_float env in
  let mentions words := any_in (List.map str words) user_input_lower in
  if mentions ["product"; "inventory"; "stock"]%string then
    if contains (str "low") user_input_lower ||
       contains (str "out of stock") user_input_lower
    then [(str "low_stock",
           fun _ => AICRUDTools.get_low_stock_products pi pf st 10)]
    else [(str "products",
           fun _ => AICRUDTools.search_products pi pf (Pipeline.title env) st
                      user_input None)]
  else if mentions ["category"; "categories"]%string then
    [(str "categories", fun _ => AICRUDTools.get_category_insights pi pf st)]
  else if mentions ["analytics"; "trend"; "report"; "statistics"]%string then
    [(str "trends", fun _ => AICRUDTools.get_sales_trends pi pf st);
     (str "system_health", fun _ => AICRUDTools.get_system_health pi pf st)]
  else if mentions ["user"; "users"]%string &&
          (PyStr.eqb user_role (str "admin") ||
           PyStr.eqb user_role (str "manager")) then
    [(str "user_analytics", fun _ => AICRUDTools.analyze_user_behavior pi st)]
  else if mentions ["health"; "status"; "system"]%string then
    [(str "system_health", fun _ => AICRUDTools.get_system_health pi pf st)]
  else [].

(** [get_relevant_data]; on bytes the first keyword test raises inside the
    [try] block, with nothing stored yet. *)
Definition get_relevant_data (user_input : value) (user_role : pystr)
  : result dict :=
  user_input_lower <- EnhancedAIAgent.py_lower (Pipeline.lower env) user_input ;;
  match user_input, user_input_lower with
  | VStr s, EnhancedAIAgent.LStr l =>
      match Pipeline.fill (relevant_steps s l user_role) [] with
      | (data, None) => Return data
      | (data, Some e) => Return (dict_set (str "error") (VStr (str_exn e)) data)
      end
  | _, _ =>
      Return (dict_set (str "error")
                       (VStr (str_exn EnhancedAIAgent.str_in_bytes)) [])
  end.

(** [process_query] *)
Definition process_query (svc : Service) (self : AIAgent.agent)
           (user_input : value) (user_role : pystr) : IO value :=
  if negb (AIAgent.available self) then ret get_unavailable_response
  else
    try_io
      (let prompt :=
         prompt_head ++ user_role ++ prompt_middle ++
         Pipeline.format_value env user_input ++ prompt_tail in
       response_text <~ AIAgent.safe_generate svc self prompt 2 ;;
       data <~ lift (get_relevant_data user_input user_role) ;;
       ret (VDict
              [(str "response", response_text);
               (str "data", VDict data);
               (str "reasoning", VStr (str "Processed using direct LLM call"));
               (str "action_taken", VStr (str "llm_generation"));
               (str "needs_human_review", VBool false)]))
      (fun e =>
         ret (VDict
                [(str "response",
                  VStr (str "I encountered an error while processing your request. Please try again."));
                 (str "data", VDict []);
                 (str "reasoning", VStr (str "Processing error: " ++ str_exn e));
                 (str "action_taken", VStr (str "error"));
                 (str "needs_human_review", VBool true)])).

(** The module-level instance: [AIAgent(...)] or, if constructing it
    raises, the fallback class. *)
Inductive instance : Type :=
| Basic (a : AIAgent.agent)
| FallbackAgent.

Definition ai_agent (svc : Service) : IO instance :=
  try_io (a <~ AIAgent.init (Pipeline.lower env) (Pipeline.py_str env) svc
                            (str "llama3.1:latest") ;;
          ret (Basic a))
         (fun _ => ret FallbackAgent).

Definition instance_process_query (svc : Service) (i : instance)
           (user_input : value) (user_role : pystr) : IO value :=
  match i with
  | Basic a => process_query svc a user_input user_role
  | FallbackAgent => ret fallback_response
  end.

(** The body of the [try] block of [query_ai_agent]. *)
Definition query_ai_agent_body (svc : Service) (i : instance)
           (query_data : dict) (role_name : pystr) : IO value :=
  let user_input := dict_get_default (str "query") (VStr []) query_data in
  if negb (truthy user_input) then
    raise (HTTPException 400 (str "Query is required"))
  else
    result <~ instance_process_query svc i user_input role_name ;;
    response <~ lift (dict_item (str "response") (Pipeline.as_dict result)) ;;
    ret (VDict
           [(str "response", response);
            (str "data",
             dict_get_default (str "data") (VDict []) (Pipeline.as_dict result));
            (str "action_taken",
             dict_get_default (str "action_taken") (VStr [])
                              (Pipeline.as_dict result));
            (str "needs_human_review",
             dict_get_default (str "needs_human_review") (VBool false)
                              (Pipeline.as_dict result))]).

(** [query_ai_agent], the [/ai/query] endpoint. *)
Definition query_ai_agent (svc : Service) (i : instance)
           (query_data : dict) (role_name : pystr) : IO value :=
  try_io (query_ai_agent_body svc i query_data role_name)
         (fun e =>
            raise (HTTPException 500
                     (str "AI processing error: " ++ str_exn e))).

End WithEnv.

End BasicPipeline.

(** *** More concrete inputs *)

Module MoreExamples.

(** A model service that lists one model and fails every completion. *)
Definition failing_generation_service : Service :=
  {| new_client := Return tt;
     list_response :=
       fun _ => Return (VDict [(str "models",
                                VList [VDict [(str "model",
                                               VStr (str "llama3.1:latest"))]])]);
     generate_response :=
       fun _ _ _ => Raise (PyExc ServiceError (str "connection refused")) |}.

(** A basic client that believes itself available. *)
Definition ready_agent : AIAgent.agent :=
  {| AIAgent.model := str "llama3.1:latest";
     AIAgent.available := true;
     AIAgent.client := true |}.

End MoreExamples.

(** *** The direct agents of [enhanced_agent.py] *)

Module DirectAgents.

Section WithEnv.

Variable env : Pipeline.Env.
Variable st : Storage.

(** The common body of [react_agent], [planner_agent], [analytics_agent],
    [rag_agent] and [crag_agent]; there is no [try] block here. *)
Definition direct_agent (agent_type reasoning : pystr)
           (svc : Service) (self : EnhancedAIAgent.agent)
           (query : value) (user_role : pystr) (data : option dict)
  : IO value :=
  data <~ match data with
          | Some d => ret d
          | None => lift (Pipeline.get_comprehensive_business_data env st query)
          end ;;
  prompt <~ lift (Pipeline.create_data_rich_prompt env query user_role
                                                   agent_type data) ;;
  response <~ EnhancedAIAgent.safe_generate svc self prompt ;;
  ret (VDict [(str "response", response);
              (str "type", VStr agent_type);
              (str "data", VDict data);
              (str "reasoning", VStr reasoning);
              (str "needs_human_review", VBool false)]).

Definition react_agent :=
  direct_agent (str "react") (str "REACT pattern with step-by-step reasoning").
Definition planner_agent :=
  direct_agent (str "planner") (str "Strategic planning with phased approach").
Definition analytics_agent :=
  direct_agent (str "analytics") (str "Data-driven analytical insights").
Definition rag_agent :=
  direct_agent (str "rag") (str "Data retrieval and presentation").
Definition crag_agent :=
  direct_agent (str "crag") (str "Self-validating analysis with correction").

End WithEnv.

End DirectAgents.

(** The five direct agents with the type each reports. *)
Definition direct_agents (env : Pipeline.Env) (st : Storage)
  : list (pystr *
          (Service -> EnhancedAIAgent.agent -> value -> pystr ->
           option dict -> IO value)) :=
  [(str "react", DirectAgents.react_agent env st);
   (str "planner", DirectAgents.planner_agent env st);
   (str "analytics", DirectAgents.analytics_agent env st);
   (str "rag", DirectAgents.rag_agent env st);
   (str "crag", DirectAgents.crag_agent env st)].

(** What initialization may add to the trace: nothing, the model listing,
    or the listing followed by one probing completion. *)
Definition init_events (probe : pystr) (evs : trace) : Prop :=
  evs = [] \/ evs = [EvList] \/ exists m, evs = [EvList; EvGenerate m probe].

(** What the loop adds to the trace: completion calls with the client's
    model and the prompt, and pauses of at least 5 seconds. *)
Definition retry_event (self : AIAgent.agent) (prompt : pystr) (max_retries : Z)
           (ev : event) : Prop :=
  ev = EvGenerate (VStr (AIAgent.clean (AIAgent.model self))) prompt \/
  exists s, ev = EvSleep s /\ (5 <= s <= 5 * (max_retries - 1))%Z.

(** The pauses of a run against a failing service: 5 seconds after the
    attempt numbered [attempt], and so on. *)
Definition backoff (attempt : Z) (pauses : nat) : list Z :=
  List.map (fun i => (5 * (attempt + Z.of_nat (S i)))%Z) (seq 0 pauses).

(** *** [create_product_suggestion] of [agent_tools.py] *)

Module ProductSuggestion.

(** The storage as [create_product_suggestion] sees it: the connection of
    the aggregator's storage and its two statements, with their bound
    parameters; each gives the rows the cursor would fetch. *)
Record Catalog : Type := {
  storage : Storage;
  (** the category name of the pair [(category_id, subcategory_id)] *)
  select_category : value -> value -> result (list row);
  (** the first ten distinct categories *)
  select_available_categories : result (list row)
}.

Definition required_fields : list pystr :=
  [str "product_name"; str "category_id"; str "subcategory_id";
   str "price"; str "stock_quantity"].

(** [field not in product_data or product_data[field] is None] *)
Definition is_missing (product_data : dict) (field : pystr) : bool :=
  match dict_get field product_data with
  | None | Some VNone => true
  | Some _ => false
  end.

Definition missing_fields (product_data : dict) : list pystr :=
  filter (is_missing product_data) required_fields.

(** [sep.join(l)] *)
Fixpoint join (sep : pystr) (l : list pystr) : pystr :=
  match l with
  | [] => []
  | [s] => s
  | s :: t => s ++ sep ++ join sep t
  end.

Definition strings (l : list pystr) : value := VList (List.map VStr l).

(** [not isinstance(v, str) or len(v.strip()) == 0] *)
Definition name_errors (v : value) : list pystr :=
  match v with
  | VStr s =>
      if (List.length (strip s) =? 0)%nat
      then [str "product_name must be a non-empty string"]
      else []
  | _ => [str "product_name must be a non-empty string"]
  end.

(** [not isinstance(v, int) or v <= 0] *)
Definition positive_int_errors (message : pystr) (v : value) : list pystr :=
  if negb (isinstance_int v) || (AICRUDTools.int_of_value v <=? 0)%Z
  then [message] else [].

(** [not isinstance(v, int) or v < 0] *)
Definition stock_errors (v : value) : list pystr :=
  if negb (isinstance_int v) || (AICRUDTools.int_of_value v <? 0)%Z
  then [str "stock_quantity must be a non-negative integer"] else [].

(** [bool(category)] for the result of [fetchone()]: a row is true when
    it has a column. *)
Definition found (category : option row) : bool :=
  match category with
  | Some (_ :: _) => true
  | _ => false
  end.

(** [v.strip()] *)
Definition py_strip (v : value) : result value :=
  match v with
  | VStr s => Return (VStr (strip s))
  | _ => Raise (PyExc AttributeError (str "object has no attribute 'strip'"))
  end.

Section Validation.

Variable parse_float : pystr -> option pyfloat.
(** [str(v)] of a value that is neither an integer nor a boolean *)
Variable py_str : value -> pystr.

(** The inner [try] block around [float(product_data['price'])]. *)
Definition price_errors (v : value) : result (list pystr) :=
  try_except_only [ValueError; TypeError]
    (price <- py_float parse_float v ;;
     Return (if SFleb price AICRUDTools.fzero
             then [str "price must be positive"] else []))
    (Return [str "price must be a valid number"]).

Definition validation_errors (product_data : dict) : result (list pystr) :=
  product_name <- dict_item (str "product_name") product_data ;;
  category_id <- dict_item (str "category_id") product_data ;;
  subcategory_id <- dict_item (str "subcategory_id") product_data ;;
  price <- dict_item (str "price") product_data ;;
  price_errs <- price_errors price ;;
  stock_quantity <- dict_item (str "stock_quantity") product_data ;;
  Return (name_errors product_name ++
          positive_int_errors (str "category_id must be a positive integer")
                              category_id ++
          positive_int_errors (str "subcategory_id must be a positive integer")
                              subcategory_id ++
          price_errs ++
          stock_errors stock_quantity).

(** An identifier inside an f-string. *)
Definition format_id (v : value) : pystr :=
  match v with
  | VInt z => str (NilZero.string_of_int (Z.to_int z))
  | VBool true => str "True"
  | VBool false => str "False"
  | _ => py_str v
  end.

(** The [with get_db_connection()] block: it either returns the
    "category not found" answer or leaves the category row. *)
Definition check_category (c : Catalog) (product_data : dict)
  : result (value + option row) :=
  get_db_connection (storage c)
    (category_id <- dict_item (str "category_id") product_data ;;
     subcategory_id <- dict_item (str "subcategory_id") product_data ;;
     rows <- select_category c category_id subcategory_id ;;
     let category := fetchone rows in
     if negb (found category) then
       available <- select_available_categories c ;;
       Return (inl (VDict
                      [(str "status", VStr (str "error"));
                       (str "message",
                        VStr (str "Category not found: ID " ++
                              format_id category_id ++ str "-" ++
                              format_id subcategory_id));
                       (str "suggestion",
                        VStr (str "Check available categories first"));
                       (str "available_categories",
                        VList (List.map (fun r => VDict (dict_of_row r))
                                        available))]))
     else Return (inr category)).

(** The body of the outer [try] block. *)
Definition create_product_suggestion_body (c : Catalog) (product_data : dict)
  : result value :=
  match missing_fields product_data with
  | _ :: _ =>
      Return (VDict
                [(str "status", VStr (str "error"));
                 (str "message",
                  VStr (str "Missing required fields: " ++
                        join (str ", ") (missing_fields product_data)));
                 (str "suggested_fields", strings required_fields);
                 (str "provided_data", VDict product_data)])
  | [] =>
      errors <- validation_errors product_data ;;
      match errors with
      | _ :: _ =>
          Return (VDict
                    [(str "status", VStr (str "error"));
                     (str "message",
                      VStr (str "Validation errors: " ++
                            join (str "; ") errors));
                     (str "validation_errors", strings errors)])
      | [] =>
          outcome <- check_category c product_data ;;
          match outcome with
          | inl answer => Return answer
          | inr category =>
              product_name <- dict_item (str "product_name") product_data ;;
              stripped <- py_strip product_name ;;
              category_id <- dict_item (str "category_id") product_data ;;
              subcategory_id <- dict_item (str "subcategory_id") product_data ;;
              price_value <- dict_item (str "price") product_data ;;
              price <- py_float parse_float price_value ;;
              stock_quantity <- dict_item (str "stock_quantity") product_data ;;
              Return (VDict
                        [(str "status", VStr (str "success"));
                         (str "message",
                          VStr (str "Product data is valid and ready for creation"));
                         (str "suggested_action", VStr (str "create_product"));
                         (str "validated_data",
                          VDict [(str "product_name", stripped);
                                 (str "category_id", category_id);
                                 (str "subcategory_id", subcategory_id);
                                 (str "price", VFloat price);
                                 (str "stock_quantity", stock_quantity)]);
                         (str "category_info",
                          match category with
                          | Some ((_ :: _) as r) => VDict (dict_of_row r)
                          | _ => VNone
                          end)])
          end
      end
  end.

(** [create_product_suggestion] *)
Definition create_product_suggestion (c : Catalog) (product_data : dict)
  : result value :=
  try_except (create_product_suggestion_body c product_data)
    (fun e =>
       Return (VDict
                 [(str "status", VStr (str "error"));
                  (str "message",
                   VStr (str "Error validating product data: " ++
                         str_exn e))])).

(** What the validation demands of the five fields. *)
Definition valid_fields (product_data : dict)
           (name : pystr) (category_id subcategory_id : value)
           (price_value : value) (price : pyfloat) (stock_quantity : value)
  : Prop :=
  dict_get (str "product_name") product_data = Some (VStr name) /\
  strip name <> [] /\
  dict_get (str "category_id") product_data = Some category_id /\
  isinstance_int category_id = true /\
  (0 < AICRUDTools.int_of_value category_id)%Z /\
  dict_get (str "subcategory_id") product_data = Some subcategory_id /\
  isinstance_int subcategory_id = true /\
  (0 < AICRUDTools.int_of_value subcategory_id)%Z /\
  dict_get (str "price") product_data = Some price_value /\
  py_float parse_float price_value = Return price /\
  SFleb price AICRUDTools.fzero = false /\
  dict_get (str "stock_quantity") product_data = Some stock_quantity /\
  isinstance_int stock_quantity = true /\
  (0 <= AICRUDTools.int_of_value stock_quantity)%Z.

End Validation.

End ProductSuggestion.

Module SuggestionExamples.

(** A catalog whose only category pair is (1, 1). *)
Definition laptops : ProductSuggestion.Catalog :=
  {| ProductSuggestion.storage := Examples.empty_storage;
     ProductSuggestion.select_category :=
       fun category_id subcategory_id =>
         match category_id, subcategory_id with
         | VInt 1, VInt 1 =>
             Return [[(str "category_name", VStr (str "Laptops"))]]
         | _, _ => Return []
         end;
     ProductSuggestion.select_available_categories :=
       Return [[(str "category_id", VInt 1);
                (str "subcategory_id", VInt 1);
                (str "category_name", VStr (str "Laptops"))]] |}.

(** A catalog whose database cannot be opened. *)
Definition unreachable : ProductSuggestion.Catalog :=
  {| ProductSuggestion.storage := Examples.failing_storage;
     ProductSuggestion.select_category := fun _ _ => Raise Examples.locked;
     ProductSuggestion.select_available_categories := Raise Examples.locked |}.

Definition product (price : value) : dict :=
  [(str "product_name", VStr (str " Notebook 14 "));
   (str "category_id", VInt 1);
   (str "subcategory_id", VInt 1);
   (str "price", price);
   (str "stock_quantity", VInt 0)].

(** The float 999.5 = 1999 * 2^-1. *)
Definition price_999_5 : pyfloat := S754_finite false 1999 (-1).

Definition suggest (c : ProductSuggestion.Catalog) (product_data : dict)
  : result value :=
  ProductSuggestion.create_product_suggestion
    (Pipeline.parse_float Examples.plain_env)
    (Pipeline.py_str Examples.plain_env) c product_data.

Definition status_of (r : result value) : option value :=
  match r with
  | Return (VDict d) => dict_get (str "status") d
  | _ => None
  end.

End SuggestionExamples.

Module SelectionExamples.

(** A model service that lists two models, the second between quotes, and
    answers every completion. *)
Definition two_models_service : Service :=
  {| new_client := Return tt;
     list_response :=
       fun _ => Return (VDict [(str "models",
                                VList [VDict [(str "model",
                                               VStr (str "mistral:7b"))];
                                       VDict [(str "name",
                                               VStr (str " 'Llama3.1:latest' "))]])]);
     generate_response :=
       fun _ _ _ => Return (VDict [(str "response", VStr (str "ready"))]) |}.

End SelectionExamples.

(** *** The [/ai/status] endpoint of [main.py] *)

Module StatusEndpoint.

(** "Handle different response formats": only dictionaries and lists. *)
Definition listed_models (models_response : value) : result value :=
  match models_response with
  | VDict d =>
      if dict_mem (str "models") d then dict_item (str "models") d
      else Return (VList [])
  | VList _ => Return models_response
  | _ => Return (VList [])
  end.

(** [ai_agent.is_available()] *)
Definition is_available (i : BasicPipeline.instance) : bool :=
  match i with
  | BasicPipeline.Basic a => AIAgent.available a
  | BasicPipeline.FallbackAgent => false
  end.

(** [ai_agent.model]; both classes have the attribute. *)
Definition current_model (i : BasicPipeline.instance) : value :=
  match i with
  | BasicPipeline.Basic a => VStr (AIAgent.model a)
  | BasicPipeline.FallbackAgent => VStr (str "none")
  end.

Section WithEnv.

Variable env : Pipeline.Env.

(** One iteration of the loop that fills [model_names]. *)
Definition model_name (model : value) : value :=
  match model with
  | VDict d => dict_get_default (str "name") (VStr (str "unknown")) d
  | _ => VStr (Pipeline.format_value env model)
  end.

Definition inactive (e : exn) (message : pystr) : value :=
  VDict [(str "status", VStr (str "inactive"));
         (str "error", VStr (str_exn e));
         (str "agent_ready", VBool false);
         (str "ollama_connected", VBool false);
         (str "message", VStr message)].

(** [ai_status] *)
Definition ai_status (svc : Service) (i : BasicPipeline.instance) : IO value :=
  try_io
    (_ <~ lift (new_client svc) ;;
     try_io
       (models_response <~ call_list svc ;;
        models <~ lift (listed_models models_response) ;;
        entries <~ lift (iterate models) ;;
        let model_names := List.map model_name entries in
        let agent_ready := is_available i in
        ret (VDict
               [(str "status",
                 VStr (if agent_ready then str "active" else str "inactive"));
                (str "model", current_model i);
                (str "available_models", VList model_names);
                (str "agent_ready", VBool agent_ready);
                (str "ollama_connected", VBool true);
                (str "message", VStr (str "AI status check completed"))]))
       (fun e => ret (inactive e (str "Ollama connection error"))))
    (fun e => ret (inactive e (str "Ollama not installed or not running"))).

End WithEnv.

End StatusEndpoint.

(** The entries of a model listing that carry their name under "model"
    only, as the service's own listing does. *)
Definition named_by_model_only (entry : value) : Prop :=
  exists d name,
    entry = VDict d /\
    dict_get (str "model") d = Some (VStr name) /\ name <> [] /\
    dict_get (str "name") d = None.

(** The three styles that put a header before the response. *)
Definition header_styles : list value :=
  [VStr (str "Formal"); VStr (str "Technical"); VStr (str "Storytelling")].

Module EndpointExamples.

(** A model service whose completions carry [None] as their text. *)
Definition null_response_service : Service :=
  {| new_client := Return tt;
     list_response :=
       fun _ => Return (VDict [(str "models",
                                VList [VDict [(str "model",
                                               VStr (str "llama3.1:latest"))]])]);
     generate_response :=
       fun _ _ _ => Return (VDict [(str "response", VNone)]) |}.

Definition ready_enhanced_agent : Pipeline.instance :=
  Pipeline.Enhanced {| EnhancedAIAgent.model := VStr (str "llama3.1:latest");
                       EnhancedAIAgent.available := true;
                       EnhancedAIAgent.client := true |}.

(** The outcome of [/ai/enhanced-query] for the low-stock question with
    the given style. *)
Definition ask (style : list (pystr * value)) : result value :=
  fst (Pipeline.enhanced_ai_query Examples.plain_env Examples.empty_storage
         null_response_service ready_enhanced_agent
         ((str "query", Examples.low_stock_question) :: style)
         (str "user") []).

Definition is_500 (r : result value) : bool :=
  match r with
  | Raise (HTTPException 500 _) => true
  | _ => false
  end.

Definition is_answer (r : result value) : bool :=
  match r with
  | Return (VDict _) => true
  | _ => false
  end.

End EndpointExamples.

(** The keys of the dictionaries the two data gatherers build. *)
Definition comprehensive_keys : list pystr :=
  [str "system_health"; str "user_analytics"; str "sales_trends";
   str "category_insights"; str "products"; str "low_stock";
   str "summary"; str "query_context"].

Definition relevant_keys : list pystr :=
  [str "low_stock"; str "products"; str "categories"; str "trends";
   str "system_health"; str "user_analytics"].

(** Where a name extracted from the listing comes from: the entry
    numbered [i] declares it (methods 1 to 3), or the entry declares none
    and the name is what method 4 makes of the entry's string form. *)
Definition name_origin (py_str : value -> pystr) (i : nat) (entry n : value)
  : Prop :=
  truthy n = true /\
  (AIAgent.declared_name entry = n \/
   (truthy (AIAgent.declared_name entry) = false /\
    AIAgent.name_from_string py_str i entry = Return n)).

Module ExtractionExamples.

(** A model service whose listing holds one empty text. *)
Definition nameless_service : Service :=
  {| new_client := Return tt;
     list_response := fun _ => Return (VList [VStr []]);
     generate_response :=
       fun _ _ _ => Return (VDict [(str "response", VStr (str "ready"))]) |}.

Definition model_of (r : result AIAgent.agent * trace) : option pystr :=
  match r with
  | (Return a, _) => if AIAgent.available a then Some (AIAgent.model a) else None
  | _ => None
  end.

End ExtractionExamples.

(** The values a SQLite column or a JSON body holds: [None], booleans,
    integers, floats, text, bytes, lists and dictionaries.  Objects of
    other classes convert as their own [__int__] and [__float__] say. *)
Definition builtin_value (v : value) : bool :=
  match v with
  | VObj _ => false
  | _ => true
  end.

(** *** Storage failures, operation by operation *)

Definition system_health_reads : list statement :=
  [CountCategories; CountProducts; CountActiveUsers; CountRoles;
   IntegrityCheck; TableNames].


(** The storage fails an operation that executes [reads]: the connection
    cannot be opened, or one of the statements raises. *)
Definition storage_fails (st : Storage) (reads : list statement) : Prop :=
  (exists e, connect st = Raise e) \/
  (exists s e, In s reads /\ execute st s = Raise e).

(** A counting statement answers with a row whose first column is an
    integer. *)
Definition counts (st : Storage) (s : statement) : Prop :=
  exists k n cols rest, execute st s = Return (((k, VInt n) :: cols) :: rest).

(** The reads [get_system_health] makes itself succeed: the connection
    opens and closes, the four counts are answered, the integrity check
    and the table list are read, and every listed table is named by a text
    and counted.  Nothing is asked of the low-stock statement. *)
Definition system_health_reads_succeed (st : Storage) : Prop :=
  connect st = Return tt /\
  close st = Return tt /\
  Forall (counts st)
         [CountCategories; CountProducts; CountActiveUsers; CountRoles] /\
  (exists rows, execute st IntegrityCheck = Return rows) /\
  (exists rows,
      execute st TableNames = Return rows /\
      Forall (fun r => exists k table cols,
                  r = (k, VStr table) :: cols /\
                  counts st (CountTable table)) rows).

Module NestedExamples.

(** The small database with a low-stock statement that fails. *)
Definition low_stock_unreadable : Storage :=
  {| connect := Return tt;
     execute := fun s =>
       match s with
       | LowStock _ => Raise Examples.locked
       | _ => execute Examples.small_storage s
       end;
     rollback := Return tt;
     close := Return tt |}.

End NestedExamples.

(* ================================================================== *)
(** * Part II.  Theorems                                               *)
(* ================================================================== *)

Unset Implicit Arguments.

(** ** Strings *)

Section StripFacts.

Variable f : N -> bool.

Lemma lstrip_by_head (s : pystr) (c : N) :
  hd_error (lstrip_by f s) = Some c -> f c = false.
Proof.
  induction s as [|x s IH]; simpl; [discriminate|].
  destruct (f x) eqn:Hx; [exact IH|].
  simpl. intros H. inversion H. subst. exact Hx.
Qed.

Lemma lstrip_by_snoc (l : pystr) (c : N) :
  lstrip_by f (l ++ [c]) =
  match lstrip_by f l with
  | [] => if f c then [] else [c]
  | r => r ++ [c]
  end.
Proof.
  induction l as [|x l IH]; simpl; [reflexivity|].
  destruct (f x); [exact IH|reflexivity].
Qed.

Lemma rstrip_by_cons (c : N) (t : pystr) :
  rstrip_by f (c :: t) =
  match rstrip_by f t with
  | [] => if f c then [] else [c]
  | r => c :: r
  end.
Proof.
  unfold rstrip_by. simpl. rewrite lstrip_by_snoc.
  destruct (lstrip_by f (rev t)) as [|x r]; simpl.
  - destruct (f c); reflexivity.
  - rewrite rev_app_distr. simpl.
    destruct (rev r ++ [x]) eqn:E; [|reflexivity].
    destruct (rev r); discriminate.
Qed.

(** Stripping on the right keeps a head that is not stripped. *)
Lemma rstrip_by_keeps_head (c : N) (t : pystr) :
  f c = false -> hd_error (rstrip_by f (c :: t)) = Some c.
Proof.
  intros Hc. rewrite rstrip_by_cons, Hc.
  destruct (rstrip_by f t); reflexivity.
Qed.

End StripFacts.

(** The first character of [s.strip()] is the first character of [s] that
    is not white space. *)
Lemma strip_head (s : pystr) (c : N) :
  hd_error (strip s) = Some c ->
  hd_error (lstrip_by isspace s) = Some c /\ isspace c = false.
Proof.
  unfold strip. intros H.
  destruct (lstrip_by isspace s) as [|w t] eqn:E.
  - discriminate.
  - assert (Hw : isspace w = false)
      by (apply (lstrip_by_head isspace s); rewrite E; reflexivity).
    rewrite (rstrip_by_keeps_head isspace w t Hw) in H.
    inversion H. subst. split; [reflexivity|exact Hw].
Qed.

(** ** The response post-processor *)

Lemma fold_left_step_flat_map (step : list pystr -> pystr -> list pystr)
      (g : pystr -> list pystr) :
  (forall acc line, step acc line = acc ++ g line) ->
  forall lines acc, fold_left step lines acc = acc ++ flat_map g lines.
Proof.
  intros Hstep lines. induction lines as [|l lines IH]; intros acc; simpl.
  - now rewrite app_nil_r.
  - rewrite IH, Hstep, <- app_assoc. reflexivity.
Qed.

Lemma In_firstn {A} (n : nat) (l : list A) (x : A) :
  In x (firstn n l) -> In x l.
Proof.
  revert l. induction n as [|n IH]; intros [|y l]; simpl; try tauto.
  intros [H|H]; [now left|right; now apply IH].
Qed.

Lemma main_step_app acc line :
  Main_post.step acc line = acc ++ main_actions_of line.
Proof.
  unfold main_actions_of, Main_post.step.
  destruct (startswith_any _ _); [|now rewrite app_nil_r].
  destruct (_ && _); [reflexivity|now rewrite app_nil_r].
Qed.

Lemma streamlit_step_app acc line :
  Streamlit_post.step acc line = acc ++ streamlit_actions_of line.
Proof.
  unfold streamlit_actions_of, Streamlit_post.step.
  destruct (_ && _); [|now rewrite app_nil_r].
  destruct (_ && _); [reflexivity|now rewrite app_nil_r].
Qed.

(** Every action is a line of the response, trimmed, with its leading
    marker characters removed, and trimmed again. *)
Lemma main_action_origin (response a : pystr) :
  In a (Main_post.extract_actions_from_response response) ->
  exists line, In line (split newline response) /\
               a = strip (lstrip Main_post.strip_set (strip line)).
Proof.
  unfold Main_post.extract_actions_from_response. intros H.
  apply In_firstn in H.
  rewrite (fold_left_step_flat_map Main_post.step main_actions_of main_step_app) in H.
  simpl in H. apply in_flat_map in H. destruct H as [line [Hl Ha]].
  exists line. split; [exact Hl|].
  unfold main_actions_of, Main_post.step in Ha.
  destruct (startswith_any _ _); [|destruct Ha].
  destruct (_ && _); simpl in Ha; [|destruct Ha].
  destruct Ha as [Ha|[]]. now symmetry.
Qed.

Lemma streamlit_action_origin (response a : pystr) :
  In a (Streamlit_post.extract_actions_from_response response) ->
  exists line, In line (split newline response) /\
               a = strip (lstrip Streamlit_post.strip_set (strip line)).
Proof.
  unfold Streamlit_post.extract_actions_from_response. intros H.
  apply In_firstn in H.
  rewrite (fold_left_step_flat_map Streamlit_post.step streamlit_actions_of
             streamlit_step_app) in H.
  simpl in H. apply in_flat_map in H. destruct H as [line [Hl Ha]].
  exists line. split; [exact Hl|].
  unfold streamlit_actions_of, Streamlit_post.step in Ha.
  destruct (_ && _); [|destruct Ha].
  destruct (_ && _); simpl in Ha; [|destruct Ha].
  destruct Ha as [Ha|[]]. now symmetry.
Qed.

(** An action [strip (lstrip set x)] can begin with a character of the set
    only when [lstrip set x] begins with white space outside the set. *)
Lemma action_head (x : pystr) (c : N) :
  hd_error (strip (lstrip Main_post.strip_set x)) = Some c ->
  mem c Main_post.strip_set = true ->
  exists w, hd_error (lstrip Main_post.strip_set x) = Some w /\
            isspace w = true /\ mem w Main_post.strip_set = false.
Proof.
  intros Hc Hm. apply strip_head in Hc. destruct Hc as [Hc Hsp].
  destruct (lstrip Main_post.strip_set x) as [|w t] eqn:E; [discriminate|].
  assert (Hw : mem w Main_post.strip_set = false).
  { apply (lstrip_by_head (fun c => mem c Main_post.strip_set) x).
    unfold lstrip in E. rewrite E. reflexivity. }
  exists w. split; [reflexivity|]. split; [|exact Hw].
  simpl in Hc. destruct (isspace w) eqn:Ew; [reflexivity|].
  inversion Hc. subst. congruence.
Qed.

(** C1, as stated, fails: on the four-line example neither copy of the
    post-processor returns the two-element list. *)
Lemma extract_actions_four_lines_not_two :
  Main_post.extract_actions_from_response Examples.four_lines <> claimed_actions /\
  Streamlit_post.extract_actions_from_response Examples.four_lines <> claimed_actions.
Proof. split; vm_compute; discriminate. Qed.

(** C1 (amended): on the four-line example both copies of the
    post-processor return exactly ["Do X immediately"]: the heading and the
    plain line start with no marker, and "1. Do Y now" fails the length
    guards (its text has 8 characters, not more than 10; the line has 11,
    not more than 15). *)
Theorem extract_actions_four_lines :
  Main_post.extract_actions_from_response Examples.four_lines
    = [str "Do X immediately"] /\
  Streamlit_post.extract_actions_from_response Examples.four_lines
    = [str "Do X immediately"] /\
  split newline Examples.four_lines
    = [str "- Do X immediately"; str "**Header**"; str "Not a bullet";
       str "1. Do Y now"] /\
  startswith_any Streamlit_post.markers (str "**Header**") = false /\
  startswith_any Streamlit_post.markers (str "Not a bullet") = false /\
  strip (lstrip Main_post.strip_set (str "1. Do Y now")) = str "Do Y now" /\
  List.length (str "Do Y now") = 8%nat /\
  List.length (str "1. Do Y now") = 11%nat.
Proof. repeat split; vm_compute; reflexivity. Qed.

(** C10, as stated, fails: a tab stops the marker stripping and is then
    trimmed away, so the action begins with the second bullet. *)
Lemma action_may_start_with_marker :
  ~ no_action_starts_with_marker Main_post.extract_actions_from_response
      Examples.tabbed_line /\
  ~ no_action_starts_with_marker Streamlit_post.extract_actions_from_response
      Examples.tabbed_line.
Proof.
  split; intros H;
    specialize (H (str "- check the stock levels") 45%N);
    assert (E : true = false) by (apply H; vm_compute; auto);
    discriminate.
Qed.

(** C10 (amended): marker stripping removes every leading character of
    the set ['-•12345. '], so the text left by it never begins with one;
    each action is that text with white space trimmed, hence it begins with
    a character of the set only if white space outside the set (a tab, for
    one) followed the stripped prefix; and digits of the action itself are
    lost, as in "- 5 products need restocking immediately". *)
Theorem marker_stripping_is_greedy :
  (forall s c, hd_error (lstrip Main_post.strip_set s) = Some c ->
               mem c Main_post.strip_set = false) /\
  (forall response a,
      In a (Main_post.extract_actions_from_response response) \/
      In a (Streamlit_post.extract_actions_from_response response) ->
      exists line,
        In line (split newline response) /\
        a = strip (lstrip Main_post.strip_set (strip line)) /\
        forall c, hd_error a = Some c -> mem c Main_post.strip_set = true ->
                  exists w,
                    hd_error (lstrip Main_post.strip_set (strip line)) = Some w /\
                    isspace w = true /\ mem w Main_post.strip_set = false) /\
  Main_post.extract_actions_from_response Examples.restock_line
    = [str "products need restocking immediately"] /\
  Streamlit_post.extract_actions_from_response Examples.restock_line
    = [str "products need restocking immediately"].
Proof.
  split; [|split; [|split; vm_compute; reflexivity]].
  - intros s c H.
    exact (lstrip_by_head (fun c => mem c Main_post.strip_set) s c H).
  - intros response a [H|H].
    + destruct (main_action_origin response a H) as [line [Hl Ha]].
      exists line. split; [exact Hl|]. split; [exact Ha|].
      intros c Hc Hm. subst a. now apply action_head with (c := c).
    + destruct (streamlit_action_origin response a H) as [line [Hl Ha]].
      exists line. split; [exact Hl|]. split; [exact Ha|].
      intros c Hc Hm. subst a. now apply action_head with (c := c).
Qed.

Lemma marker_stripping_is_greedy_witness :
  In (str "- check the stock levels")
     (Main_post.extract_actions_from_response Examples.tabbed_line) /\
  exists line,
    In line (split newline Examples.tabbed_line) /\
    str "- check the stock levels"
      = strip (lstrip Main_post.strip_set (strip line)).
Proof.
  assert (H : In (str "- check the stock levels")
                 (Main_post.extract_actions_from_response Examples.tabbed_line))
    by (vm_compute; auto).
  split; [exact H|].
  destruct (proj1 (proj2 marker_stripping_is_greedy)
                  Examples.tabbed_line (str "- check the stock levels")
                  (or_introl H)) as [line [Hl [Ha _]]].
  exists line. split; assumption.
Defined.

(** ** The query classifier *)

Lemma any_in_intro (words : list pystr) (w s : pystr) :
  In w words -> contains w s = true -> any_in words s = true.
Proof.
  intros Hin Hc. unfold any_in. apply existsb_exists. exists w. now split.
Qed.

Lemma supervisor_is_not_crag : str "supervisor" <> str "crag".
Proof. vm_compute. discriminate. Qed.

(** C3: a query that contains "review" and none of the planner, analytics
    or retrieval keywords (containment is tested on the lower-cased query,
    as the classifier does) is classified "supervisor", not "crag". *)
Theorem review_resolves_to_supervisor
        (lower : pystr -> pystr) (query : pystr) :
  contains (str "review") (lower query) = true ->
  any_in EnhancedAIAgent.planner_words (lower query) = false ->
  any_in EnhancedAIAgent.analytics_words (lower query) = false ->
  any_in EnhancedAIAgent.rag_words (lower query) = false ->
  EnhancedAIAgent.analyze_query_type lower query = str "supervisor" /\
  EnhancedAIAgent.analyze_query_type lower query <> str "crag".
Proof.
  intros Hreview Hplan Hana Hrag.
  assert (E : EnhancedAIAgent.analyze_query_type lower query = str "supervisor").
  { unfold EnhancedAIAgent.analyze_query_type.
    rewrite Hplan, Hana, Hrag.
    rewrite (any_in_intro EnhancedAIAgent.supervisor_words (str "review")
                          (lower query)); [reflexivity| |exact Hreview].
    unfold EnhancedAIAgent.supervisor_words. simpl. tauto. }
  split; [exact E|]. rewrite E. exact supervisor_is_not_crag.
Qed.

Lemma review_resolves_to_supervisor_witness :
  EnhancedAIAgent.analyze_query_type ascii_lower
    (str "Please REVIEW our operations") = str "supervisor" /\
  EnhancedAIAgent.analyze_query_type ascii_lower
    (str "Please REVIEW our operations") <> str "crag".
Proof.
  apply (review_resolves_to_supervisor ascii_lower
           (str "Please REVIEW our operations")); vm_compute; reflexivity.
Defined.

(** ** The safe coercion helpers *)

(** What the helpers do on the inputs the specification names. *)
Lemma safe_coercions_on_none_and_rejected_text
      (parse_int : pystr -> option Z) (parse_float : pystr -> option pyfloat)
      (s : pystr) :
  AICRUDTools.safe_int parse_int VNone = Return 0%Z /\
  AICRUDTools.safe_float parse_float VNone = Return AICRUDTools.fzero /\
  (parse_int s = None -> AICRUDTools.safe_int parse_int (VStr s) = Return 0%Z) /\
  (parse_float s = None ->
   AICRUDTools.safe_float parse_float (VStr s) = Return AICRUDTools.fzero).
Proof.
  repeat split.
  - intros H. unfold AICRUDTools.safe_int. simpl. rewrite H. reflexivity.
  - intros H. unfold AICRUDTools.safe_float. simpl. rewrite H. reflexivity.
Qed.

Lemma safe_int_of_int parse_int (z : Z) :
  AICRUDTools.safe_int parse_int (VInt z) = Return z.
Proof. reflexivity. Qed.

Lemma safe_float_of_float parse_float (f : pyfloat) :
  AICRUDTools.safe_float parse_float (VFloat f) = Return f.
Proof. reflexivity. Qed.

(** C9 (the code departs from it): the helpers catch [ValueError] and
    [TypeError] only, so [safe_int] of an infinite float and [safe_float]
    of an integer beyond the float range raise [OverflowError] instead of
    returning zero. *)
Theorem safe_coercions_raise_overflow :
  forall (parse_int : pystr -> option Z) (parse_float : pystr -> option pyfloat),
    AICRUDTools.safe_int parse_int (VFloat (S754_infinity false))
      = Raise (PyExc OverflowError
                     (str "cannot convert float infinity to integer")) /\
    AICRUDTools.safe_float parse_float (VInt (10 ^ 400))
      = Raise (PyExc OverflowError (str "int too large to convert to float")).
Proof.
  intros parse_int parse_float. split.
  - reflexivity.
  - unfold AICRUDTools.safe_float, py_float.
    replace (float_of_Z (10 ^ 400)) with (S754_infinity false)
      by (vm_compute; reflexivity).
    reflexivity.
Qed.

(** ** The endpoint *)

(** C4 (the code departs from it): a request without a query, or with an
    empty one, raises the 400 inside the [try] block, whose handler turns
    every exception into a 500; no call to the model service is made. *)
Theorem missing_query_is_answered_with_500 :
  forall env st svc i role_name t,
    Pipeline.enhanced_ai_query env st svc i [] role_name t
      = (Raise (HTTPException 500
                  (str "AI processing error: 400: Query is required")), t) /\
    Pipeline.enhanced_ai_query env st svc i [(str "query", VStr [])] role_name t
      = (Raise (HTTPException 500
                  (str "AI processing error: 400: Query is required")), t).
Proof. intros. split; reflexivity. Qed.

(** ** The supervisor pipeline *)

(** Gathering the business data never raises on a string query. *)
Lemma business_data_returns env st (q : pystr) :
  exists data, Pipeline.get_comprehensive_business_data env st (VStr q) = Return data.
Proof.
  unfold Pipeline.get_comprehensive_business_data, EnhancedAIAgent.py_lower,
    Py.bind.
  destruct (Pipeline.fill _ _) as [data [e|]]; eexists; reflexivity.
Qed.

(** With an unavailable client the supervisor takes its normal path: the
    answer carries the unavailable message and [needs_human_review] is
    [False]; nothing is sent to the service. *)
Lemma supervisor_agent_when_unavailable env st svc self (q role_name : pystr) t :
  EnhancedAIAgent.available self = false ->
  (forall agent_type data,
      exists p, Pipeline.create_data_rich_prompt env (VStr q) role_name
                                                  agent_type data = Return p) ->
  exists d,
    Pipeline.supervisor_agent env st svc self (VStr q) role_name t
      = (Return (VDict d), t) /\
    dict_get (str "response") d
      = Some (VStr EnhancedAIAgent.unavailable_message) /\
    dict_get (str "needs_human_review") d = Some (VBool false).
Proof.
  intros Hav Hprompt.
  destruct (business_data_returns env st q) as [data Hdata].
  destruct (Hprompt (EnhancedAIAgent.analyze_query_type (Pipeline.lower env) q) data)
    as [p Hp].
  unfold Pipeline.supervisor_agent, try_io, Ollama.bind, lift.
  rewrite Hdata. simpl. rewrite Hp.
  unfold EnhancedAIAgent.safe_generate. rewrite Hav. simpl.
  eexists. split; [reflexivity|]. split; reflexivity.
Qed.

(** C2 (the code departs from it): with no model registered the endpoint
    answers with the fixed unavailable message and
    [needs_human_review = False]; the only call to the service is the
    model listing of the initialization. *)
Theorem unavailable_client_is_not_flagged :
  response_field (str "response") unavailable_run
    = Some (VStr EnhancedAIAgent.unavailable_message) /\
  response_field (str "needs_human_review") unavailable_run
    = Some (VBool false) /\
  response_field (str "agent_type") unavailable_run = Some (VStr (str "rag")) /\
  snd unavailable_run = [EvList].
Proof. repeat split; vm_compute; reflexivity. Qed.

(** The flag is [True] exactly on the handler's path, for instance when the
    request carries a number in place of the query text. *)
Lemma supervisor_flags_exceptions env st svc self role_name t :
  exists d,
    Pipeline.supervisor_agent env st svc self (VInt 5) role_name t
      = (Return (VDict d), t) /\
    dict_get (str "needs_human_review") d = Some (VBool true) /\
    dict_get (str "type") d = Some (VStr (str "error")).
Proof. eexists. split; [reflexivity|]. split; reflexivity. Qed.

(** ** The Metrics Aggregator: error absorption *)


Lemma connection_error_reaches_caller {A} (st : Storage) (body : result A) e :
  connect st = Raise e -> get_db_connection st body = Raise e.
Proof. intros H. unfold get_db_connection. rewrite H. reflexivity. Qed.


Lemma bind_Return_inv {A B} (m : result A) (k : A -> result B) (b : B) :
  Py.bind m k = Return b -> exists a, m = Return a /\ k a = Return b.
Proof. destruct m; simpl; intros H; [eauto|discriminate]. Qed.

Lemma get_db_connection_Return_inv {A} (st : Storage) (body : result A) (a : A) :
  get_db_connection st body = Return a -> body = Return a.
Proof.
  unfold get_db_connection.
  destruct (connect st); simpl; [|discriminate].
  destruct body; simpl.
  - destruct (close st); simpl; congruence.
  - destruct (rollback st), (close st); simpl; discriminate.
Qed.

Lemma get_db_connection_raises {A} (st : Storage) (body : result A) (e : exn) :
  body = Raise e -> exists e', get_db_connection st body = Raise e'.
Proof.
  intros ->. unfold get_db_connection.
  destruct (connect st); simpl; [|eauto].
  destruct (rollback st), (close st); simpl; eauto.
Qed.

Lemma count_of_raises parse_int (st : Storage) (s : statement) (e : exn) :
  execute st s = Raise e -> AICRUDTools.count_of parse_int st s = Raise e.
Proof. intros H. unfold AICRUDTools.count_of. now rewrite H. Qed.

(** Runs a chain of binds up to the statement that raises. *)
Ltac reach_raise :=
  repeat match goal with
         | H : ?m = Raise _ |- exists e', Py.bind ?m _ = Raise e' =>
             rewrite H; eexists; reflexivity
         | H : execute ?st ?s = Raise _
           |- exists e', Py.bind (AICRUDTools.count_of ?pi ?st ?s) _ = Raise e' =>
             rewrite (count_of_raises pi st s _ H); eexists; reflexivity
         | |- exists e', Py.bind ?m _ = Raise e' =>
             destruct m; cbn [Py.bind]; [|eexists; reflexivity]
         end.

Ltac storage_failure Hf :=
  let e := fresh "e" in
  let s := fresh "s" in
  let Hin := fresh "Hin" in
  let Hr := fresh "Hr" in
  let Hbody := fresh "Hbody" in
  let e' := fresh "e'" in
  destruct Hf as [[e Hr]|[s [e [Hin Hr]]]];
  [ exists e; apply connection_error_reaches_caller; exact Hr
  | simpl in Hin;
    match goal with
    | |- exists _, get_db_connection ?st ?body = Raise _ =>
        assert (Hbody : exists x, body = Raise x);
        [ cbv zeta;
          repeat (destruct Hin as [<-|Hin]; [reach_raise|]); destruct Hin
        | destruct Hbody as [e' Hbody];
          exact (get_db_connection_raises st _ e' Hbody) ]
    end ].


Lemma low_stock_storage_fails parse_int parse_float st T :
  storage_fails st [LowStock T] ->
  exists e,
    AICRUDTools.get_low_stock_products_body parse_int parse_float st T = Raise e.
Proof.
  intros H. unfold AICRUDTools.get_low_stock_products_body.
  storage_failure H.
Qed.




Lemma system_health_storage_fails parse_int parse_float st :
  storage_fails st system_health_reads ->
  exists e, AICRUDTools.get_system_health_body parse_int parse_float st = Raise e.
Proof.
  intros H.
  unfold AICRUDTools.get_system_health_body, system_health_reads in *.
  storage_failure H.
Qed.

(** The nested low-stock read of [get_system_health]: when the statement
    raises, [get_low_stock_products] returns the empty list. *)
Lemma nested_low_stock_is_absorbed parse_int parse_float st T e :
  execute st (LowStock T) = Raise e ->
  AICRUDTools.get_low_stock_products parse_int parse_float st T
  = Return (VList []).
Proof.
  intros H.
  destruct (low_stock_storage_fails parse_int parse_float st T) as [e' He'].
  { right. exists (LowStock T), e. split; [now left|exact H]. }
  unfold AICRUDTools.get_low_stock_products. now rewrite He'.
Qed.

Lemma system_health_without_low_stock parse_int parse_float st e v :
  execute st (LowStock 10) = Raise e ->
  AICRUDTools.get_system_health_body parse_int parse_float st = Return v ->
  error_field v = None /\
  metric (str "low_stock_alerts") v = Some (VInt 0) /\
  exists ind,
    indicators v = Some (VDict ind) /\
    dict_get (str "low_stock") ind = Some (VBool true).
Proof.
  intros Hlow H.
  unfold AICRUDTools.get_system_health_body in H.
  apply get_db_connection_Return_inv in H.
  do 4 (apply bind_Return_inv in H; destruct H as [? [_ H]]).
  apply bind_Return_inv in H. destruct H as [products [Hp H]].
  rewrite (nested_low_stock_is_absorbed parse_int parse_float st 10 e Hlow)
    in Hp.
  injection Hp as <-.
  repeat (apply bind_Return_inv in H; destruct H as [? [_ H]]).
  cbv zeta in H. inversion H. subst v.
  repeat split. eexists. split; reflexivity.
Qed.



(** ** The low-stock query *)

Section OrderByFacts.

Variable A : Type.
Variable key : A -> Z.

Lemma insert_by_Forall (P : A -> Prop) (x : A) (l : list A) :
  P x -> Forall P l -> Forall P (Sqlite.insert_by key x l).
Proof.
  intros Hx Hl. induction Hl as [|y t Hy Ht IH]; simpl.
  - constructor; [exact Hx|constructor].
  - destruct (key x <=? key y)%Z.
    + constructor; [exact Hx|]. constructor; assumption.
    + constructor; assumption.
Qed.

Lemma order_by_Forall (P : A -> Prop) (l : list A) :
  Forall P l -> Forall P (Sqlite.order_by key l).
Proof.
  intros H. induction H as [|x t Hx Ht IH]; simpl; [constructor|].
  apply insert_by_Forall; assumption.
Qed.

Lemma insert_by_sorted (x : A) (l : list A) :
  StronglySorted (Sqlite.key_le key) l -> StronglySorted (Sqlite.key_le key) (Sqlite.insert_by key x l).
Proof.
  intros Hs. induction Hs as [|y t Hs IH Hy]; simpl.
  - constructor; constructor.
  - destruct (key x <=? key y)%Z eqn:E.
    + apply Z.leb_le in E. constructor.
      * constructor; assumption.
      * constructor; [exact E|].
        eapply Forall_impl; [|exact Hy].
        intros a Ha. unfold Sqlite.key_le in *. lia.
    + apply Z.leb_gt in E. constructor; [exact IH|].
      apply insert_by_Forall; [unfold Sqlite.key_le; lia|exact Hy].
Qed.

Lemma order_by_sorted (l : list A) :
  StronglySorted (Sqlite.key_le key) (Sqlite.order_by key l).
Proof.
  induction l as [|x t IH]; simpl; [constructor|].
  apply insert_by_sorted. exact IH.
Qed.

Lemma sorted_map_key (l : list A) :
  StronglySorted (Sqlite.key_le key) l -> StronglySorted Z.le (List.map key l).
Proof.
  intros H. induction H as [|x t Hs IH Hx]; simpl; constructor.
  - exact IH.
  - apply Forall_map. exact Hx.
Qed.

End OrderByFacts.

Lemma mapM_pointwise {A B C} (f : B -> result C) (h : A -> B) (g : A -> C)
      (l : list A) :
  (forall x, f (h x) = Return (g x)) ->
  mapM f (List.map h l) = Return (List.map g l).
Proof.
  intros H. induction l as [|x t IH]; simpl; [reflexivity|].
  rewrite H, IH. reflexivity.
Qed.

(** On a row of the typed schema the coercions change nothing. *)
Lemma product_dict_select_row parse_int parse_float ppc :
  AICRUDTools.product_dict parse_int parse_float (Sqlite.select_row ppc)
    = Return (VDict (Sqlite.select_row ppc)).
Proof. destruct ppc as [p pc]. reflexivity. Qed.

Lemma stock_of_select_row ppc :
  stock_of (VDict (Sqlite.select_row ppc)) = Some (Sqlite.stock_quantity (fst ppc)).
Proof. destruct ppc as [p pc]. reflexivity. Qed.

Lemma low_stock_selection_spec db T :
  Forall (fun z => (z < T)%Z)
         (List.map (fun ppc => Sqlite.stock_quantity (fst ppc))
                   (low_stock_selection db T)) /\
  StronglySorted Z.le
         (List.map (fun ppc => Sqlite.stock_quantity (fst ppc))
                   (low_stock_selection db T)).
Proof.
  split.
  - apply Forall_map. unfold low_stock_selection. apply order_by_Forall.
    apply Forall_forall. intros ppc Hin. apply filter_In in Hin.
    destruct Hin as [_ H]. now apply Z.ltb_lt.
  - apply sorted_map_key. apply order_by_sorted.
Qed.

(** What [get_low_stock_products] returns on a database: the selection, or
    the empty list when a storage call raises. *)
Lemma get_low_stock_products_cases parse_int parse_float db base T :
  AICRUDTools.get_low_stock_products parse_int parse_float
    (Sqlite.storage_of db base) T
  = Return (VList (List.map (fun ppc => VDict (Sqlite.select_row ppc))
                            (low_stock_selection db T)))
  \/
  AICRUDTools.get_low_stock_products parse_int parse_float
    (Sqlite.storage_of db base) T
  = Return (VList []).
Proof.
  unfold AICRUDTools.get_low_stock_products,
    AICRUDTools.get_low_stock_products_body, get_db_connection.
  cbn [connect execute rollback close Sqlite.storage_of].
  destruct (connect base); cbn [Py.bind try_except]; [|now right].
  unfold Sqlite.low_stock_query.
  destruct (Sqlite.fits_int64 T); cbn [Py.bind try_except].
  - rewrite (mapM_pointwise _ Sqlite.select_row
               (fun ppc => VDict (Sqlite.select_row ppc)))
      by (intros; apply product_dict_select_row).
    cbn [Py.bind]. destruct (close base); cbn [Py.bind try_except];
      [left|right]; reflexivity.
  - destruct (rollback base), (close base); cbn [Py.bind try_except];
      now right.
Qed.

(** C7: for every threshold [T], every product returned by
    [get_low_stock_products] has a stock quantity strictly below [T], and
    the list is in ascending order of stock quantity. *)
Theorem low_stock_below_threshold_and_sorted
        (parse_int : pystr -> option Z) (parse_float : pystr -> option pyfloat)
        (db : Sqlite.database) (base : Storage) (T : Z) :
  exists rows stocks,
    AICRUDTools.get_low_stock_products parse_int parse_float
      (Sqlite.storage_of db base) T = Return (VList rows) /\
    List.map stock_of rows = List.map Some stocks /\
    Forall (fun z => (z < T)%Z) stocks /\
    StronglySorted Z.le stocks.
Proof.
  destruct (get_low_stock_products_cases parse_int parse_float db base T)
    as [H|H]; rewrite H.
  - exists (List.map (fun ppc => VDict (Sqlite.select_row ppc))
                     (low_stock_selection db T)),
           (List.map (fun ppc => Sqlite.stock_quantity (fst ppc))
                     (low_stock_selection db T)).
    split; [reflexivity|]. split.
    + rewrite !map_map. apply map_ext. intros ppc. apply stock_of_select_row.
    + apply low_stock_selection_spec.
  - exists [], []. repeat split; constructor.
Qed.

(** On a reachable storage the list is the whole selection, for instance
    the two shelved products of the example shop below the default
    threshold, the empty one first; the product without category is not
    joined. *)
Lemma low_stock_of_the_shop :
  exists rows,
    AICRUDTools.get_low_stock_products (fun _ => None) (fun _ => None)
      (Sqlite.storage_of Examples.shop Examples.empty_storage) 10
    = Return (VList rows) /\
    List.map stock_of rows = [Some 0%Z; Some 7%Z].
Proof. eexists. split; vm_compute; reflexivity. Qed.

(** ** The system health score *)

(** With five indicators the float computation is exact: the score is
    twenty times the number of true indicators, rounding leaves it alone,
    and the status is the bucket of that number. *)
Lemma score_of_five_indicators (k1 k2 k3 k4 k5 : pystr) (b1 b2 b3 b4 b5 : bool) :
  let ind := [(k1, b1); (k2, b2); (k3, b3); (k4, b4); (k5, b5)] in
  let k := AICRUDTools.count_true ind in
  (0 <= k <= 5)%Z /\
  AICRUDTools.health_score_of ind = float_of_Z (20 * k) /\
  py_round1 (AICRUDTools.health_score_of ind) = float_of_Z (20 * k) /\
  score_number (VFloat (float_of_Z (20 * k))) = Some (20 * k)%Z /\
  AICRUDTools.health_status_of (AICRUDTools.health_score_of ind) = bucket (20 * k).
Proof.
  destruct b1, b2, b3, b4, b5; vm_compute; intuition discriminate.
Qed.

Lemma health_report_fields cc pc uc rc lsc dbh ts :
  let v := AICRUDTools.health_report cc pc uc rc lsc dbh ts in
  let ind := AICRUDTools.health_indicators cc pc uc lsc dbh in
  let k := AICRUDTools.count_true ind in
  List.length ind = 5%nat /\
  (0 <= k <= 5)%Z /\
  indicators v
    = Some (VDict (List.map (fun kv => (fst kv, VBool (snd kv))) ind)) /\
  metric (str "health_score") v = Some (VFloat (float_of_Z (20 * k))) /\
  metric (str "health_status") v = Some (VStr (bucket (20 * k))) /\
  score_bucketed v.
Proof.
  intros v ind k.
  pose proof (score_of_five_indicators
                (str "categories") (str "products") (str "users")
                (str "low_stock") (str "database")
                (0 <? cc)%Z (0 <? pc)%Z (0 <? uc)%Z (lsc <? 10)%nat
                (eq_str dbh (str "ok"))) as H.
  cbv zeta in H. fold (AICRUDTools.health_indicators cc pc uc lsc dbh) in H.
  fold ind in H. fold k in H.
  destruct H as [Hk [Hscore [Hround [Hnum Hstatus]]]].
  assert (Hs : metric (str "health_score") v = Some (VFloat (float_of_Z (20 * k)))).
  { unfold v, AICRUDTools.health_report. cbv zeta. fold ind.
    rewrite Hround. reflexivity. }
  assert (Ht : metric (str "health_status") v = Some (VStr (bucket (20 * k)))).
  { unfold v, AICRUDTools.health_report. cbv zeta. fold ind.
    rewrite Hstatus. reflexivity. }
  repeat split; try assumption; try lia; try reflexivity.
  exists (20 * k)%Z. rewrite Hs, Ht. cbn [option_map]. rewrite Hnum.
  repeat split; lia.
Qed.

(** On its success path [get_system_health] returns a health report. *)
Lemma get_system_health_body_Return parse_int parse_float st v :
  AICRUDTools.get_system_health_body parse_int parse_float st = Return v ->
  exists cc pc uc rc lsc dbh ts,
    v = AICRUDTools.health_report cc pc uc rc lsc dbh ts.
Proof.
  unfold AICRUDTools.get_system_health_body. intros H.
  apply get_db_connection_Return_inv in H.
  repeat (apply bind_Return_inv in H; destruct H as [? [_ H]]).
  inversion H. eauto 10.
Qed.

(** C8, as stated, fails: on a database whose [roles] table is missing the
    result has score 0 and status "error", which is not the bucket of 0. *)
Lemma system_health_error_is_not_bucketed :
  exists v,
    AICRUDTools.get_system_health (fun _ => None) (fun _ => None)
      Examples.missing_table_storage = Return v /\
    metric (str "health_score") v = Some (VInt 0) /\
    metric (str "health_status") v = Some (VStr (str "error")) /\
    ~ score_bucketed v.
Proof.
  exists (AICRUDTools.system_health_error (str "no such table: roles")).
  split; [vm_compute; reflexivity|].
  split; [reflexivity|]. split; [reflexivity|].
  intros [score [Hs [_ Hb]]]. vm_compute in Hs. inversion Hs. subst score.
  vm_compute in Hb. discriminate.
Qed.

Lemma count_of_counts parse_int (st : Storage) (s : statement) :
  counts st s -> exists n, AICRUDTools.count_of parse_int st s = Return n.
Proof.
  intros (k & n & cols & rest & H). exists n.
  unfold AICRUDTools.count_of. rewrite H. reflexivity.
Qed.

Lemma table_names_are_read (st : Storage) (rows : list row) :
  Forall (fun r => exists k table cols,
              r = (k, VStr table) :: cols /\ counts st (CountTable table)) rows ->
  exists tables,
    mapM (fun r => first_column (Some r)) rows = Return (List.map VStr tables) /\
    Forall (fun table => counts st (CountTable table)) tables.
Proof.
  induction 1 as [|r rows (k & table & cols & -> & Hc) _ IH].
  - exists []. split; [reflexivity|constructor].
  - destruct IH as [tables [Hm Ht]].
    exists (table :: tables). cbn [mapM List.map].
    rewrite Hm. split; [reflexivity|now constructor].
Qed.

Lemma table_sizes_loop_returns parse_int (st : Storage) (tables : list pystr) :
  Forall (fun table => counts st (CountTable table)) tables ->
  forall sizes,
  exists sizes',
    AICRUDTools.table_sizes_loop parse_int st (List.map VStr tables) sizes
    = Return sizes'.
Proof.
  induction 1 as [|table tables Hc _ IH]; intros sizes; simpl.
  - now exists sizes.
  - destruct (count_of_counts parse_int st _ Hc) as [n ->]. cbn [Py.bind].
    apply IH.
Qed.

Lemma low_stock_products_return parse_int parse_float st T :
  exists v,
    AICRUDTools.get_low_stock_products parse_int parse_float st T = Return v.
Proof.
  unfold AICRUDTools.get_low_stock_products.
  destruct (AICRUDTools.get_low_stock_products_body parse_int parse_float st T);
    eexists; reflexivity.
Qed.

Lemma system_health_reads_give_report parse_int parse_float st :
  system_health_reads_succeed st ->
  exists v,
    AICRUDTools.get_system_health_body parse_int parse_float st = Return v.
Proof.
  intros (Hconn & Hclose & Hcounts & [irows Hi] & [trows [Ht Htables]]).
  inversion Hcounts as [|? ? H1 Hcounts1]; subst.
  inversion Hcounts1 as [|? ? H2 Hcounts2]; subst.
  inversion Hcounts2 as [|? ? H3 Hcounts3]; subst.
  inversion Hcounts3 as [|? ? H4 _]; subst.
  destruct (count_of_counts parse_int st _ H1) as [cc Hcc].
  destruct (count_of_counts parse_int st _ H2) as [pc Hpc].
  destruct (count_of_counts parse_int st _ H3) as [uc Huc].
  destruct (count_of_counts parse_int st _ H4) as [rc Hrc].
  destruct (low_stock_products_return parse_int parse_float st 10) as [lsp Hl].
  destruct (table_names_are_read st trows Htables) as [tables [Hm Hall]].
  destruct (table_sizes_loop_returns parse_int st tables Hall []) as [sizes Hs].
  unfold AICRUDTools.get_system_health_body, get_db_connection.
  rewrite Hconn, Hcc, Hpc, Huc, Hrc, Hl, Hi. cbn [Py.bind].
  assert (Hdb : exists db_health,
             match fetchone irows with
             | Some ((_ :: _) as r) => first_column (Some r)
             | _ => Return (VStr (str "unknown"))
             end = Return db_health).
  { destruct (fetchone irows) as [[|[k v] cols]|]; eexists; reflexivity. }
  destruct Hdb as [db_health ->]. cbn [Py.bind].
  rewrite Ht. cbn [Py.bind]. rewrite Hm. cbn [Py.bind]. rewrite Hs.
  cbn [Py.bind]. rewrite Hclose. eexists. reflexivity.
Qed.

(** C8 (amended): [get_system_health] always returns, and what it returns
    is decided by whether an exception reaches its handler.  Every report
    of its success path has a score that is 100 times the fraction of the
    five boolean indicators that are true (a multiple of 20 in [0,100],
    computed exactly by the float arithmetic) and a status that is
    "excellent" from 80, "good" from 60 and "needs_attention" below; the
    success path is taken whenever the operation's own reads succeed.
    When an exception reaches the handler, as it does when the connection
    cannot be opened or one of the operation's own statements raises, the
    result is the error default, with score 0 and status "error".  A
    failure of the nested low-stock read is no such case: it is absorbed by
    [get_low_stock_products], and a report made then counts no low-stock
    alert and has its low-stock indicator true. *)
Theorem system_health_score_and_status
        (parse_int : pystr -> option Z) (parse_float : pystr -> option pyfloat)
        (st : Storage) :
  exists v,
    AICRUDTools.get_system_health parse_int parse_float st = Return v /\
    (forall r,
        AICRUDTools.get_system_health_body parse_int parse_float st = Return r ->
        v = r /\
        exists ind k,
          List.length ind = 5%nat /\
          k = AICRUDTools.count_true ind /\
          indicators v
            = Some (VDict (List.map (fun kv => (fst kv, VBool (snd kv))) ind)) /\
          metric (str "health_score") v = Some (VFloat (float_of_Z (20 * k))) /\
          (0 <= 20 * k <= 100)%Z /\
          metric (str "health_status") v = Some (VStr (bucket (20 * k))) /\
          score_bucketed v) /\
    (forall e,
        AICRUDTools.get_system_health_body parse_int parse_float st = Raise e ->
        v = AICRUDTools.system_health_error (str_exn e) /\
        metric (str "health_score") v = Some (VInt 0) /\
        metric (str "health_status") v = Some (VStr (str "error"))) /\
    (system_health_reads_succeed st ->
     exists r,
       AICRUDTools.get_system_health_body parse_int parse_float st = Return r) /\
    (storage_fails st system_health_reads ->
     exists e,
       AICRUDTools.get_system_health_body parse_int parse_float st = Raise e) /\
    (forall e r,
        execute st (LowStock 10) = Raise e ->
        AICRUDTools.get_system_health_body parse_int parse_float st = Return r ->
        metric (str "low_stock_alerts") r = Some (VInt 0) /\
        exists ind,
          indicators r = Some (VDict ind) /\
          dict_get (str "low_stock") ind = Some (VBool true)).
Proof.
  assert (Hrest :
            (system_health_reads_succeed st ->
             exists r,
               AICRUDTools.get_system_health_body parse_int parse_float st
               = Return r) /\
            (storage_fails st system_health_reads ->
             exists e,
               AICRUDTools.get_system_health_body parse_int parse_float st
               = Raise e) /\
            (forall e r,
                execute st (LowStock 10) = Raise e ->
                AICRUDTools.get_system_health_body parse_int parse_float st
                = Return r ->
                metric (str "low_stock_alerts") r = Some (VInt 0) /\
                exists ind,
                  indicators r = Some (VDict ind) /\
                  dict_get (str "low_stock") ind = Some (VBool true))).
  { split; [apply system_health_reads_give_report|].
    split; [apply system_health_storage_fails|].
    intros e r Hlow Hr.
    destruct (system_health_without_low_stock parse_int parse_float st e r
                Hlow Hr) as [_ H]. exact H. }
  unfold AICRUDTools.get_system_health.
  destruct (AICRUDTools.get_system_health_body parse_int parse_float st)
    as [v|e] eqn:E.
  - exists v. split; [reflexivity|].
    split; [|split; [intros e He; discriminate He|exact Hrest]].
    intros r Hr. injection Hr as <-. split; [reflexivity|].
    apply get_system_health_body_Return in E.
    destruct E as [cc [pc [uc [rc [lsc [dbh [ts Hv]]]]]]]. subst v.
    destruct (health_report_fields cc pc uc rc lsc dbh ts)
      as [Hlen [Hk [Hind [Hs [Ht Hb]]]]].
    exists (AICRUDTools.health_indicators cc pc uc lsc dbh),
           (AICRUDTools.count_true
              (AICRUDTools.health_indicators cc pc uc lsc dbh)).
    repeat split; try assumption; lia.
  - exists (AICRUDTools.system_health_error (str_exn e)).
    split; [reflexivity|].
    split; [intros r Hr; discriminate Hr|].
    split; [|exact Hrest].
    intros e' He'. injection He' as <-. repeat split; reflexivity.
Qed.

(** The low-stock statement alone fails: the report is the one of the
    small database, four indicators of five, and no error is reported. *)
Lemma system_health_with_unreadable_low_stock :
  system_health_reads_succeed NestedExamples.low_stock_unreadable /\
  system_health_reads_succeed Examples.small_storage /\
  exists v,
    AICRUDTools.get_system_health (fun _ => None) (fun _ => None)
      NestedExamples.low_stock_unreadable = Return v /\
    metric (str "health_score") v = Some (VFloat (float_of_Z 80)) /\
    metric (str "health_status") v = Some (VStr (str "excellent")) /\
    error_field v = None.
Proof.
  assert (H : forall st,
             connect st = Return tt -> close st = Return tt ->
             (forall s, match s with LowStock _ => True | _ =>
                          execute st s = execute Examples.small_storage s end) ->
             system_health_reads_succeed st).
  { intros st Hc Hcl He. split; [exact Hc|]. split; [exact Hcl|].
    split.
    - repeat constructor; do 4 eexists;
        match goal with |- execute _ ?s = _ => rewrite (He s) end; reflexivity.
    - split.
      + eexists. rewrite (He IntegrityCheck). reflexivity.
      + eexists. rewrite (He TableNames). split; [reflexivity|].
        repeat constructor. do 3 eexists. split; [reflexivity|].
        do 4 eexists. rewrite (He (CountTable _)). reflexivity. }
  split; [|split].
  - apply H; try reflexivity. intros []; try exact I; reflexivity.
  - apply H; try reflexivity. intros []; try exact I; reflexivity.
  - eexists. repeat split; vm_compute; reflexivity.
Qed.

(** The success path is taken, for instance on a small sound database
    without users: four of the five indicators hold. *)
Lemma system_health_of_small_storage :
  exists v,
    AICRUDTools.get_system_health (fun _ => None) (fun _ => None)
      Examples.small_storage = Return v /\
    metric (str "health_score") v = Some (VFloat (float_of_Z 80)) /\
    metric (str "health_status") v = Some (VStr (str "excellent")).
Proof. eexists. repeat split; vm_compute; reflexivity. Qed.

(** ** The completion clients *)

Lemma enhanced_safe_generate_short_circuits svc self prompt t :
  EnhancedAIAgent.available self = false \/ EnhancedAIAgent.client self = false ->
  EnhancedAIAgent.safe_generate svc self prompt t
    = (Return (VStr EnhancedAIAgent.unavailable_message), t).
Proof.
  unfold EnhancedAIAgent.safe_generate.
  intros [H|H]; rewrite H; [|rewrite orb_true_r]; reflexivity.
Qed.

Lemma basic_safe_generate_short_circuits svc self prompt max_retries t :
  AIAgent.available self = false \/ AIAgent.client self = false ->
  AIAgent.safe_generate svc self prompt max_retries t
    = (Return (VStr AIAgent.unavailable_message), t).
Proof.
  unfold AIAgent.safe_generate.
  intros [H|H]; rewrite H; [|rewrite orb_true_r]; reflexivity.
Qed.

Lemma enhanced_init_unavailable svc model0 t :
  enhanced_init_finds_no_model svc t ->
  exists a t', EnhancedAIAgent.init svc model0 t = (Return a, t') /\
               EnhancedAIAgent.available a = false.
Proof.
  unfold EnhancedAIAgent.init.
  intros [[e H]|H].
  - rewrite H. eauto.
  - destruct (new_client svc); [|eauto].
    unfold EnhancedAIAgent.test_connection, try_io, Ollama.bind, call_list, lift.
    destruct H as [[e H]|[r [H [Hn|[e Hn]]]]]; rewrite H; try rewrite Hn;
      simpl; eauto.
Qed.

Lemma basic_init_unavailable lower py_str svc model0 t :
  basic_init_finds_no_model py_str svc t ->
  exists a t', AIAgent.init lower py_str svc model0 t = (Return a, t') /\
               AIAgent.available a = false.
Proof.
  unfold AIAgent.init.
  intros [[e H]|H].
  - rewrite H. eauto.
  - destruct (new_client svc); [|eauto].
    unfold AIAgent.test_ollama_connection, try_io, Ollama.bind, call_list, lift.
    destruct H as [[e H]|[r [H [Hn|[e Hn]]]]]; rewrite H; try rewrite Hn;
      simpl; eauto.
Qed.

(** C6: when initialization found no available model, or failed, the
    client is unavailable, and for every prompt every later completion call
    returns the fixed unavailable message and leaves the trace of service
    calls as it was; this holds for the enhanced client and for the basic
    one. *)
Theorem unavailable_client_short_circuits :
  (forall svc model0 t,
      enhanced_init_finds_no_model svc t ->
      exists a t',
        EnhancedAIAgent.init svc model0 t = (Return a, t') /\
        EnhancedAIAgent.available a = false /\
        forall prompt t2,
          EnhancedAIAgent.safe_generate svc a prompt t2
            = (Return (VStr EnhancedAIAgent.unavailable_message), t2)) /\
  (forall lower py_str svc model0 t,
      basic_init_finds_no_model py_str svc t ->
      exists a t',
        AIAgent.init lower py_str svc model0 t = (Return a, t') /\
        AIAgent.available a = false /\
        forall prompt max_retries t2,
          AIAgent.safe_generate svc a prompt max_retries t2
            = (Return (VStr AIAgent.unavailable_message), t2)).
Proof.
  split.
  - intros svc model0 t H.
    destruct (enhanced_init_unavailable svc model0 t H) as [a [t' [Hi Ha]]].
    exists a, t'. repeat split; try assumption.
    intros. apply enhanced_safe_generate_short_circuits. now left.
  - intros lower py_str svc model0 t H.
    destruct (basic_init_unavailable lower py_str svc model0 t H)
      as [a [t' [Hi Ha]]].
    exists a, t'. repeat split; try assumption.
    intros. apply basic_safe_generate_short_circuits. now left.
Qed.

Lemma no_models_service_finds_no_model :
  enhanced_init_finds_no_model Examples.no_models_service [] /\
  basic_init_finds_no_model (fun _ => str "<object>") Examples.no_models_service [].
Proof.
  split; right; right; eexists; (split; [reflexivity|left; reflexivity]).
Defined.

Lemma unavailable_client_short_circuits_witness :
  (exists a t',
      EnhancedAIAgent.init Examples.no_models_service
        Pipeline.default_model [] = (Return a, t') /\
      EnhancedAIAgent.available a = false /\
      forall prompt t2,
        EnhancedAIAgent.safe_generate Examples.no_models_service a prompt t2
          = (Return (VStr EnhancedAIAgent.unavailable_message), t2)) /\
  (exists a t',
      AIAgent.init ascii_lower (fun _ => str "<object>")
        Examples.no_models_service (str "llama3.1:latest") [] = (Return a, t') /\
      AIAgent.available a = false /\
      forall prompt max_retries t2,
        AIAgent.safe_generate Examples.no_models_service a prompt max_retries t2
          = (Return (VStr AIAgent.unavailable_message), t2)).
Proof.
  split.
  - apply (proj1 unavailable_client_short_circuits).
    exact (proj1 no_models_service_finds_no_model).
  - apply (proj2 unavailable_client_short_circuits).
    exact (proj2 no_models_service_finds_no_model).
Defined.

(** An available client does call the service. *)
Lemma healthy_service_is_called :
  exists a t,
    EnhancedAIAgent.init Examples.healthy_service Pipeline.default_model []
      = (Return a, t) /\
    EnhancedAIAgent.available a = true /\
    EnhancedAIAgent.safe_generate Examples.healthy_service a (str "hello") t
      = (Return (VStr (str "- Restock the lighting category now")),
         t ++ [EvGenerate (VStr (str "llama3.1:latest")) (str "hello")]).
Proof. eexists. eexists. repeat split; vm_compute; reflexivity. Qed.

(* ================================================================== *)
(** * Part III.  Further properties of the code                        *)
(* ================================================================== *)

(** ** More on strings *)

Lemma pystr_eqb_refl (a : pystr) : PyStr.eqb a a = true.
Proof. induction a as [|x a IH]; simpl; [reflexivity|]. now rewrite N.eqb_refl. Qed.

Lemma pystr_eqb_eq (a b : pystr) : PyStr.eqb a b = true <-> a = b.
Proof.
  split; [|intros ->; apply pystr_eqb_refl].
  revert b. induction a as [|x a IH]; intros [|y b]; simpl; try discriminate.
  - reflexivity.
  - intros H. apply andb_prop in H. destruct H as [Hx Hab].
    apply N.eqb_eq in Hx. subst. f_equal. now apply IH.
Qed.

Lemma pystr_eqb_neq (a b : pystr) : a <> b -> PyStr.eqb a b = false.
Proof.
  intros H. destruct (PyStr.eqb a b) eqn:E; [|reflexivity].
  apply pystr_eqb_eq in E. contradiction.
Qed.

Lemma split_not_nil (sep : N) (s : pystr) : split sep s <> [].
Proof.
  destruct s as [|c t]; simpl; [discriminate|].
  destruct (N.eqb c sep); [discriminate|].
  destruct (split sep t); discriminate.
Qed.

(** Splitting distributes over a separator. *)
Lemma split_app (sep : N) (a b : pystr) :
  split sep (a ++ sep :: b) = split sep a ++ split sep b.
Proof.
  induction a as [|c a IH]; simpl.
  - now rewrite N.eqb_refl.
  - destruct (N.eqb c sep); rewrite IH; [reflexivity|].
    destruct (split sep a) as [|w ws] eqn:E; [|reflexivity].
    now apply split_not_nil in E.
Qed.

(** No piece contains the separator. *)
Lemma split_no_sep (sep : N) (s l : pystr) :
  In l (split sep s) -> ~ In sep l.
Proof.
  revert l. induction s as [|c t IH]; simpl; intros l H.
  - destruct H as [<-|[]]. intros [].
  - destruct (N.eqb c sep) eqn:Ec.
    + destruct H as [<-|H]; [intros []|now apply IH].
    + apply N.eqb_neq in Ec.
      destruct (split sep t) as [|w ws] eqn:E.
      * destruct H as [<-|[]]. intros [H|[]]. congruence.
      * destruct H as [<-|H].
        -- intros [H|H]; [congruence|]. apply (IH w); [now left|exact H].
        -- apply IH. now right.
Qed.

Section MoreStripFacts.

Variable f : N -> bool.

Lemma lstrip_by_incl (s : pystr) (c : N) : In c (lstrip_by f s) -> In c s.
Proof.
  induction s as [|x s IH]; simpl; [tauto|].
  destruct (f x); [intros H; right; now apply IH|exact (fun H => H)].
Qed.

Lemma rstrip_by_incl (s : pystr) (c : N) : In c (rstrip_by f s) -> In c s.
Proof.
  unfold rstrip_by. intros H. apply in_rev in H.
  apply lstrip_by_incl in H. now apply in_rev.
Qed.

Lemma lstrip_by_fixed (s : pystr) :
  (forall c, hd_error s = Some c -> f c = false) -> lstrip_by f s = s.
Proof.
  destruct s as [|x s]; simpl; [reflexivity|].
  intros H. now rewrite (H x eq_refl).
Qed.

Lemma lstrip_by_idem (s : pystr) : lstrip_by f (lstrip_by f s) = lstrip_by f s.
Proof. apply lstrip_by_fixed. apply lstrip_by_head. Qed.

Lemma rstrip_by_idem (s : pystr) : rstrip_by f (rstrip_by f s) = rstrip_by f s.
Proof. unfold rstrip_by. now rewrite rev_involutive, lstrip_by_idem. Qed.

(** Stripping on the right keeps the head. *)
Lemma rstrip_by_head (s : pystr) (c : N) :
  hd_error (rstrip_by f s) = Some c -> hd_error s = Some c.
Proof.
  destruct s as [|x t]; [intros H; exact H|].
  rewrite rstrip_by_cons.
  destruct (rstrip_by f t); [destruct (f x)|]; simpl; congruence.
Qed.

End MoreStripFacts.

Lemma strip_idem (s : pystr) : strip (strip s) = strip s.
Proof.
  unfold strip at 1.
  rewrite (lstrip_by_fixed isspace (strip s)).
  - unfold strip. apply rstrip_by_idem.
  - intros c H. now apply strip_head in H.
Qed.

Lemma strip_incl (s : pystr) (c : N) : In c (strip s) -> In c s.
Proof.
  unfold strip. intros H. apply rstrip_by_incl in H. now apply lstrip_by_incl in H.
Qed.

Lemma lstrip_incl (chars s : pystr) (c : N) : In c (lstrip chars s) -> In c s.
Proof. apply lstrip_by_incl. Qed.

(** ** The post-processor: what an action looks like *)

Lemma main_extract_candidates (response : pystr) :
  Main_post.extract_actions_from_response response
    = firstn 5 (main_candidates response).
Proof.
  unfold Main_post.extract_actions_from_response, main_candidates.
  now rewrite (fold_left_step_flat_map Main_post.step main_actions_of main_step_app).
Qed.

Lemma streamlit_extract_candidates (response : pystr) :
  Streamlit_post.extract_actions_from_response response
    = firstn 5 (streamlit_candidates response).
Proof.
  unfold Streamlit_post.extract_actions_from_response, streamlit_candidates.
  now rewrite (fold_left_step_flat_map Streamlit_post.step streamlit_actions_of
                 streamlit_step_app).
Qed.

Lemma main_candidates_app (a b : pystr) :
  main_candidates (a ++ newline :: b) = main_candidates a ++ main_candidates b.
Proof. unfold main_candidates. now rewrite split_app, flat_map_app. Qed.

Lemma streamlit_candidates_app (a b : pystr) :
  streamlit_candidates (a ++ newline :: b)
    = streamlit_candidates a ++ streamlit_candidates b.
Proof. unfold streamlit_candidates. now rewrite split_app, flat_map_app. Qed.

Lemma firstn_app_full {A} (n : nat) (l1 l2 : list A) :
  List.length (firstn n l1) = n -> firstn n (l1 ++ l2) = firstn n l1.
Proof.
  revert l1. induction n as [|n IH]; intros [|x l1]; simpl; try reflexivity;
    try discriminate.
  intros H. f_equal. apply IH. now injection H.
Qed.

(** X1: in both copies the actions are the first five qualifying lines,
    taken line by line: the actions of two texts joined by a newline are
    the first five of the qualifying lines of the first followed by those
    of the second, and once a text yields five actions nothing appended
    after a newline changes the result. *)
Theorem extraction_is_linewise_and_capped :
  forall a b : pystr,
    (List.length (Main_post.extract_actions_from_response a) <= 5)%nat /\
    (List.length (Streamlit_post.extract_actions_from_response a) <= 5)%nat /\
    Main_post.extract_actions_from_response (a ++ newline :: b)
      = firstn 5 (main_candidates a ++ main_candidates b) /\
    Streamlit_post.extract_actions_from_response (a ++ newline :: b)
      = firstn 5 (streamlit_candidates a ++ streamlit_candidates b) /\
    (List.length (Main_post.extract_actions_from_response a) = 5%nat ->
     Main_post.extract_actions_from_response (a ++ newline :: b)
       = Main_post.extract_actions_from_response a) /\
    (List.length (Streamlit_post.extract_actions_from_response a) = 5%nat ->
     Streamlit_post.extract_actions_from_response (a ++ newline :: b)
       = Streamlit_post.extract_actions_from_response a).
Proof.
  intros a b.
  rewrite !main_extract_candidates, !streamlit_extract_candidates,
    main_candidates_app, streamlit_candidates_app.
  repeat split; try apply firstn_le_length; try reflexivity;
    intros H; now apply firstn_app_full.
Qed.

(** What makes a line an action in [main.py]. *)
Lemma main_actions_of_spec (line a : pystr) :
  In a (main_actions_of line) ->
  startswith_any Main_post.markers (strip line) = true /\
  a = strip (lstrip Main_post.strip_set (strip line)) /\
  (10 < List.length a)%nat.
Proof.
  unfold main_actions_of, Main_post.step.
  destruct (startswith_any _ _); [|intros []].
  destruct (negb _ && _) eqn:E; simpl; [|intros []].
  intros [<-|[]]. apply andb_prop in E. destruct E as [_ E].
  apply Nat.ltb_lt in E. now repeat split.
Qed.

Lemma streamlit_actions_of_spec (line a : pystr) :
  In a (streamlit_actions_of line) ->
  startswith_any Streamlit_post.markers (strip line) = true /\
  (15 < List.length (strip line))%nat /\
  a = strip (lstrip Streamlit_post.strip_set (strip line)) /\
  a <> [] /\ startswith (str "**") a = false.
Proof.
  unfold streamlit_actions_of, Streamlit_post.step.
  destruct (startswith_any _ _ && _) eqn:E1; [|intros []].
  destruct (negb _ && negb _) eqn:E2; simpl; [|intros []].
  intros [<-|[]].
  apply andb_prop in E1. destruct E1 as [Hm Hl]. apply Nat.ltb_lt in Hl.
  apply andb_prop in E2. destruct E2 as [Hn Hs].
  apply negb_true_iff in Hn, Hs.
  repeat split; try assumption.
  intros H. rewrite H in Hn. discriminate.
Qed.

Lemma action_has_no_newline (response line a : pystr) (set : pystr) :
  In line (split newline response) ->
  a = strip (lstrip set (strip line)) -> ~ In newline a.
Proof.
  intros Hl -> H.
  apply strip_incl, lstrip_incl, strip_incl in H.
  exact (split_no_sep newline response line Hl H).
Qed.

(** X2: every action returned by [main.py]'s extractor has more than ten
    characters, is trimmed (stripping it again changes nothing), holds no
    newline, and is the marker-stripped text of a line of the response that
    starts with one of the seven markers. *)
Theorem main_actions_are_meaningful (response a : pystr) :
  In a (Main_post.extract_actions_from_response response) ->
  (10 < List.length a)%nat /\
  strip a = a /\
  ~ In newline a /\
  exists line,
    In line (split newline response) /\
    startswith_any Main_post.markers (strip line) = true /\
    a = strip (lstrip Main_post.strip_set (strip line)).
Proof.
  rewrite main_extract_candidates. intros H. apply In_firstn in H.
  unfold main_candidates in H. apply in_flat_map in H.
  destruct H as [line [Hl Ha]].
  apply main_actions_of_spec in Ha. destruct Ha as [Hm [Ha Hlen]].
  split; [exact Hlen|]. split; [rewrite Ha; apply strip_idem|].
  split; [exact (action_has_no_newline response line a _ Hl Ha)|].
  exists line. now repeat split.
Qed.

Lemma main_actions_are_meaningful_witness :
  (10 < List.length (str "Do X immediately"))%nat /\
  strip (str "Do X immediately") = str "Do X immediately" /\
  ~ In newline (str "Do X immediately") /\
  exists line,
    In line (split newline Examples.four_lines) /\
    startswith_any Main_post.markers (strip line) = true /\
    str "Do X immediately" = strip (lstrip Main_post.strip_set (strip line)).
Proof.
  apply (main_actions_are_meaningful Examples.four_lines (str "Do X immediately")).
  vm_compute. now left.
Defined.

(** X3: every action returned by [enhanced_streamlit.py]'s extractor is
    non-empty, does not start with the bold marker, is trimmed, holds no
    newline, and comes from a line that starts with one of the ten markers
    and has more than fifteen characters once trimmed. *)
Theorem streamlit_actions_are_not_headers (response a : pystr) :
  In a (Streamlit_post.extract_actions_from_response response) ->
  a <> [] /\
  startswith (str "**") a = false /\
  strip a = a /\
  ~ In newline a /\
  exists line,
    In line (split newline response) /\
    startswith_any Streamlit_post.markers (strip line) = true /\
    (15 < List.length (strip line))%nat /\
    a = strip (lstrip Streamlit_post.strip_set (strip line)).
Proof.
  rewrite streamlit_extract_candidates. intros H. apply In_firstn in H.
  unfold streamlit_candidates in H. apply in_flat_map in H.
  destruct H as [line [Hl Ha]].
  apply streamlit_actions_of_spec in Ha.
  destruct Ha as [Hm [Hlen [Ha [Hne Hb]]]].
  split; [exact Hne|]. split; [exact Hb|].
  split; [rewrite Ha; apply strip_idem|].
  split; [exact (action_has_no_newline response line a _ Hl Ha)|].
  exists line. now repeat split.
Qed.

Lemma streamlit_actions_are_not_headers_witness :
  str "Do X immediately" <> [] /\
  startswith (str "**") (str "Do X immediately") = false /\
  strip (str "Do X immediately") = str "Do X immediately" /\
  ~ In newline (str "Do X immediately") /\
  exists line,
    In line (split newline Examples.four_lines) /\
    startswith_any Streamlit_post.markers (strip line) = true /\
    (15 < List.length (strip line))%nat /\
    str "Do X immediately" = strip (lstrip Streamlit_post.strip_set (strip line)).
Proof.
  apply (streamlit_actions_are_not_headers Examples.four_lines
           (str "Do X immediately")).
  vm_compute. now left.
Defined.

(** ** Styling and extraction *)

(** A header line followed by an empty line contributes no action. *)
Lemma main_candidates_under_header (header s : pystr) :
  split newline header = [header] ->
  main_actions_of header = [] ->
  main_candidates (header ++ [newline; newline] ++ s) = main_candidates s.
Proof.
  intros Hsplit Hnone. simpl app.
  rewrite main_candidates_app.
  change (newline :: s) with ([] ++ newline :: s).
  rewrite main_candidates_app.
  unfold main_candidates at 1 2. rewrite Hsplit. simpl. rewrite Hnone.
  reflexivity.
Qed.

Lemma streamlit_candidates_under_header (header s : pystr) :
  split newline header = [header] ->
  streamlit_actions_of header = [] ->
  streamlit_candidates (header ++ [newline; newline] ++ s)
    = streamlit_candidates s.
Proof.
  intros Hsplit Hnone. simpl app.
  rewrite streamlit_candidates_app.
  change (newline :: s) with ([] ++ newline :: s).
  rewrite streamlit_candidates_app.
  unfold streamlit_candidates at 1 2. rewrite Hsplit. simpl. rewrite Hnone.
  reflexivity.
Qed.

(** X4: styling a textual response never changes the actions extracted
    from it: whatever the style, the actions of the styled text are the
    actions of the text itself, in [main.py] and in
    [enhanced_streamlit.py]. *)
Theorem styling_preserves_actions :
  forall (env : Pipeline.Env) (response : pystr) (style : value) (style' : pystr),
    Pipeline.extract_actions
      (Pipeline.apply_response_style env (VStr response) style)
    = Pipeline.extract_actions (VStr response) /\
    Streamlit_post.extract_actions_from_response
      (Streamlit_ui.apply_response_style response style')
    = Streamlit_post.extract_actions_from_response response.
Proof.
  intros env response style style'. split.
  - unfold Pipeline.apply_response_style, Pipeline.format_value.
    destruct (eq_str style (str "Formal"));
      [|destruct (eq_str style (str "Technical"));
        [|destruct (eq_str style (str "Storytelling"))]];
      try reflexivity;
      unfold Pipeline.extract_actions;
      rewrite !main_extract_candidates, main_candidates_under_header;
      reflexivity.
  - unfold Streamlit_ui.apply_response_style.
    destruct (PyStr.eqb style' (str "Formal"));
      [|destruct (PyStr.eqb style' (str "Technical"));
        [|destruct (PyStr.eqb style' (str "Storytelling"))]];
      try reflexivity;
      rewrite !streamlit_extract_candidates, streamlit_candidates_under_header;
      reflexivity.
Qed.

(** ** More on the classifier *)

Lemma analyze_query_type_intent (lower : pystr -> pystr) (query : pystr) :
  In (EnhancedAIAgent.analyze_query_type lower query) intents.
Proof.
  unfold EnhancedAIAgent.analyze_query_type, intents.
  repeat match goal with
         | |- context [if ?b then _ else _] => destruct b
         end; simpl; tauto.
Qed.

Lemma any_in_incl (ws ws' : list pystr) (s : pystr) :
  incl ws ws' -> any_in ws s = true -> any_in ws' s = true.
Proof.
  unfold any_in. intros Hincl H. apply existsb_exists in H.
  destruct H as [w [Hin Hc]]. apply existsb_exists. exists w.
  split; [now apply Hincl|exact Hc].
Qed.

(** X5: the classifier always answers one of the six intents, and it
    answers "crag" only when the lower-cased query contains one of
    "validate", "verify", "check", "assess", "correct", does not contain
    "review", and contains no keyword of the five sets tested before: the
    entry "review" of the validation set never decides. *)
Theorem classifier_range_and_validation (lower : pystr -> pystr) (query : pystr) :
  In (EnhancedAIAgent.analyze_query_type lower query) intents /\
  (EnhancedAIAgent.analyze_query_type lower query = str "crag" <->
   any_in deciding_crag_words (lower query) = true /\
   any_in EnhancedAIAgent.planner_words (lower query) = false /\
   any_in EnhancedAIAgent.analytics_words (lower query) = false /\
   any_in EnhancedAIAgent.rag_words (lower query) = false /\
   any_in EnhancedAIAgent.supervisor_words (lower query) = false /\
   any_in EnhancedAIAgent.react_words (lower query) = false) /\
  (EnhancedAIAgent.analyze_query_type lower query = str "crag" ->
   contains (str "review") (lower query) = false).
Proof.
  split; [apply analyze_query_type_intent|].
  assert (Hcrag :
            any_in EnhancedAIAgent.supervisor_words (lower query) = false ->
            any_in EnhancedAIAgent.crag_words (lower query)
            = any_in deciding_crag_words (lower query)).
  { intros Hs. unfold any_in, EnhancedAIAgent.supervisor_words in Hs.
    simpl in Hs. repeat (apply orb_false_elim in Hs; destruct Hs as [? Hs]).
    unfold any_in, EnhancedAIAgent.crag_words, deciding_crag_words. simpl.
    match goal with H : contains (str "review") _ = false |- _ => rewrite H end.
    destruct (contains (str "validate") (lower query)),
             (contains (str "verify") (lower query)),
             (contains (str "check") (lower query)),
             (contains (str "assess") (lower query)),
             (contains (str "correct") (lower query)); reflexivity. }
  assert (Hreview :
            any_in EnhancedAIAgent.supervisor_words (lower query) = false ->
            contains (str "review") (lower query) = false).
  { intros Hs. unfold any_in, EnhancedAIAgent.supervisor_words in Hs.
    simpl in Hs. repeat (apply orb_false_elim in Hs; destruct Hs as [? Hs]).
    assumption. }
  unfold EnhancedAIAgent.analyze_query_type.
  destruct (any_in EnhancedAIAgent.planner_words (lower query));
    [split; [split; [vm_compute; discriminate|intuition discriminate]
            |vm_compute; discriminate]|].
  destruct (any_in EnhancedAIAgent.analytics_words (lower query));
    [split; [split; [vm_compute; discriminate|intuition discriminate]
            |vm_compute; discriminate]|].
  destruct (any_in EnhancedAIAgent.rag_words (lower query));
    [split; [split; [vm_compute; discriminate|intuition discriminate]
            |vm_compute; discriminate]|].
  destruct (any_in EnhancedAIAgent.supervisor_words (lower query)) eqn:Es;
    [split; [split; [vm_compute; discriminate|intuition discriminate]
            |vm_compute; discriminate]|].
  destruct (any_in EnhancedAIAgent.react_words (lower query));
    [split; [split; [vm_compute; discriminate|intuition discriminate]
            |vm_compute; discriminate]|].
  rewrite (Hcrag eq_refl).
  destruct (any_in deciding_crag_words (lower query)).
  - split; [split; [tauto|reflexivity]|]. intros _. now apply Hreview.
  - split; [split; [vm_compute; discriminate|intuition discriminate]
           |vm_compute; discriminate].
Qed.

Lemma analytical_flag (lower_query : pystr) :
  dict_get (str "is_analytical")
           (Pipeline.as_dict (EnhancedAIAgent.analyze_query_context lower_query))
  = Some (VBool (any_in analytical_flag_words lower_query)).
Proof. reflexivity. Qed.

(** X6: a query whose context is flagged analytical is routed to the
    planner or to the analytics agent, never to retrieval, supervisor,
    problem-solving or validation: every keyword behind the flag is an
    analytics keyword, and only the planner set is tested before. *)
Theorem analytical_queries_are_routed_to_analytics
        (lower : pystr -> pystr) (query : pystr) :
  dict_get (str "is_analytical")
           (Pipeline.as_dict
              (EnhancedAIAgent.analyze_query_context (lower query)))
  = Some (VBool true) ->
  EnhancedAIAgent.analyze_query_type lower query = str "planner" \/
  EnhancedAIAgent.analyze_query_type lower query = str "analytics".
Proof.
  rewrite analytical_flag. intros H. injection H as H.
  apply (any_in_incl analytical_flag_words EnhancedAIAgent.analytics_words) in H.
  - unfold EnhancedAIAgent.analyze_query_type. rewrite H.
    destruct (any_in EnhancedAIAgent.planner_words (lower query)); tauto.
  - unfold analytical_flag_words, EnhancedAIAgent.analytics_words.
    intros w Hw. simpl in *. tauto.
Qed.

Lemma analytical_queries_are_routed_to_analytics_witness :
  EnhancedAIAgent.analyze_query_type ascii_lower
    (str "Show me the TREND of our stock") = str "planner" \/
  EnhancedAIAgent.analyze_query_type ascii_lower
    (str "Show me the TREND of our stock") = str "analytics".
Proof.
  apply (analytical_queries_are_routed_to_analytics ascii_lower
           (str "Show me the TREND of our stock")).
  vm_compute. reflexivity.
Defined.

(** X7: every agent type the supervisor can report, the six intents and
    "error", has an emoji of its own in [get_agent_emoji]; the default
    robot is never shown for a classified query. *)
Theorem every_intent_has_an_emoji (lower : pystr -> pystr) (query : pystr) :
  Streamlit_ui.get_agent_emoji (EnhancedAIAgent.analyze_query_type lower query)
    <> Streamlit_ui.robot /\
  Streamlit_ui.get_agent_emoji (str "error") <> Streamlit_ui.robot /\
  NoDup (List.map Streamlit_ui.get_agent_emoji (str "error" :: intents)).
Proof.
  split; [|split].
  - pose proof (analyze_query_type_intent lower query) as H.
    unfold intents in H. simpl in H.
    repeat (destruct H as [<-|H]; [vm_compute; discriminate|]).
    destruct H.
  - vm_compute. discriminate.
  - vm_compute.
    repeat (constructor; [simpl; intuition discriminate|]). constructor.
Qed.

(** ** More on the safe coercion helpers *)

(** X8: on the values a SQLite column or a JSON body holds ([None],
    booleans, integers, floats, text, bytes, lists and dictionaries; objects
    of other classes are left out) [safe_int] raises exactly on the two
    infinite floats and [safe_float] exactly on the integers whose nearest
    float is infinite; on every other such value they return, and what they
    raise is an [OverflowError]. *)
Theorem safe_coercions_fail_only_on_overflow
        (parse_int : pystr -> option Z) (parse_float : pystr -> option pyfloat)
        (v : value) :
  builtin_value v = true ->
  ((exists e, AICRUDTools.safe_int parse_int v = Raise e) <->
   (exists s, v = VFloat (S754_infinity s))) /\
  ((exists e, AICRUDTools.safe_float parse_float v = Raise e) <->
   (exists z s, v = VInt z /\ float_of_Z z = S754_infinity s)) /\
  (forall e, AICRUDTools.safe_int parse_int v = Raise e \/
             AICRUDTools.safe_float parse_float v = Raise e ->
             exists text, e = PyExc OverflowError text).
Proof.
  intros _.
  unfold AICRUDTools.safe_int, AICRUDTools.safe_float.
  split; [|split].
  - split.
    + intros [e H]. destruct v as [| | |f| s| s| | |]; simpl in H;
        try discriminate;
        try (destruct (parse_int s); discriminate).
      destruct f; simpl in H; try discriminate. eauto.
    + intros [s ->]. simpl. eauto.
  - split.
    + intros [e H]. destruct v as [| | z|f| s| s| | |]; simpl in H;
        try discriminate;
        try (destruct (parse_float s); discriminate).
      destruct (float_of_Z z) eqn:E; simpl in H; try discriminate. eauto.
    + intros [z [s [-> E]]]. simpl. rewrite E. simpl. eauto.
  - intros e [H|H].
    + destruct v as [| | |f| s| s| | |]; simpl in H; try discriminate;
        try (destruct (parse_int s); discriminate).
      destruct f; simpl in H; try discriminate. injection H as <-. eauto.
    + destruct v as [| | z|f| s| s| | |]; simpl in H; try discriminate;
        try (destruct (parse_float s); discriminate).
      destruct (float_of_Z z) eqn:E; simpl in H; try discriminate.
      injection H as <-. eauto.
Qed.

Lemma safe_coercions_fail_only_on_overflow_witness :
  ((exists e,
       AICRUDTools.safe_int (fun _ => None) (VFloat (S754_infinity false))
       = Raise e) <->
   (exists s, VFloat (S754_infinity false) = VFloat (S754_infinity s))) /\
  ((exists e,
       AICRUDTools.safe_float (fun _ => None) (VFloat (S754_infinity false))
       = Raise e) <->
   (exists z s, VFloat (S754_infinity false) = VInt z /\
                float_of_Z z = S754_infinity s)) /\
  (forall e,
      AICRUDTools.safe_int (fun _ => None) (VFloat (S754_infinity false))
      = Raise e \/
      AICRUDTools.safe_float (fun _ => None) (VFloat (S754_infinity false))
      = Raise e ->
      exists text, e = PyExc OverflowError text).
Proof.
  apply (safe_coercions_fail_only_on_overflow
           (fun _ => None) (fun _ => None) (VFloat (S754_infinity false))).
  reflexivity.
Defined.

(** ** Dictionaries and coercions *)

Lemma dict_get_set_same (k : pystr) (v : value) (d : dict) :
  dict_get k (dict_set k v d) = Some v.
Proof.
  induction d as [|[k0 v0] t IH]; simpl.
  - now rewrite pystr_eqb_refl.
  - destruct (PyStr.eqb k k0) eqn:E; simpl.
    + now rewrite pystr_eqb_refl.
    + now rewrite E.
Qed.

Lemma dict_get_set_other (k k' : pystr) (v : value) (d : dict) :
  k' <> k -> dict_get k' (dict_set k v d) = dict_get k' d.
Proof.
  intros Hne. induction d as [|[k0 v0] t IH]; simpl.
  - now rewrite (pystr_eqb_neq k' k Hne).
  - destruct (PyStr.eqb k k0) eqn:E; simpl.
    + apply pystr_eqb_eq in E. subst k0.
      now rewrite (pystr_eqb_neq k' k Hne).
    + destruct (PyStr.eqb k' k0); [reflexivity|exact IH].
Qed.

Lemma holds_at_set (Q : value -> Prop) (k k' : pystr) (v : value) (d : dict) :
  Q v -> holds_at Q k' d -> holds_at Q k' (dict_set k v d).
Proof.
  intros Hv Hd x Hx. destruct (PyStr.eqb k' k) eqn:E.
  - apply pystr_eqb_eq in E. subst k'. rewrite dict_get_set_same in Hx.
    now injection Hx as <-.
  - rewrite dict_get_set_other in Hx; [now apply Hd|].
    intros ->. now rewrite pystr_eqb_refl in E.
Qed.

Lemma holds_at_set_other (Q : value -> Prop) (k k' : pystr) (v : value) (d : dict) :
  k' <> k -> holds_at Q k' d -> holds_at Q k' (dict_set k v d).
Proof.
  intros Hne Hd x Hx. rewrite dict_get_set_other in Hx by exact Hne.
  now apply Hd.
Qed.

Section CoerceFacts.

Variable conv : value -> result value.
Variable Q : value -> Prop.
Hypothesis conv_Q : forall v v', conv v = Return v' -> Q v'.

(** A coercion establishes [Q] at its key ... *)
Lemma coerce_establishes (k : pystr) (d d' : dict) :
  AICRUDTools.coerce conv k d = Return d' -> holds_at Q k d'.
Proof.
  unfold AICRUDTools.coerce. destruct (dict_get k d) as [v|] eqn:E.
  - destruct (conv v) as [v'|e] eqn:Ec; simpl; [|discriminate].
    intros H. injection H as <-. intros x Hx.
    rewrite dict_get_set_same in Hx. injection Hx as <-.
    now apply (conv_Q v).
  - intros H. injection H as <-. intros x Hx. congruence.
Qed.

(** ... and keeps it at every key where it held. *)
Lemma coerce_preserves (Q' : value -> Prop) (conv' : value -> result value)
      (k k' : pystr) (d d' : dict) :
  k' <> k ->
  AICRUDTools.coerce conv' k d = Return d' -> holds_at Q' k' d -> holds_at Q' k' d'.
Proof.
  unfold AICRUDTools.coerce. intros Hne.
  destruct (dict_get k d) as [v|].
  - destruct (conv' v) as [v'|e]; simpl; [|discriminate].
    intros H. injection H as <-. now apply holds_at_set_other.
  - intros H. now injection H as <-.
Qed.

Lemma coerce_all_holds (ks : list pystr) (k : pystr) (d d' : dict) :
  AICRUDTools.coerce_all conv ks d = Return d' ->
  In k ks \/ holds_at Q k d -> holds_at Q k d'.
Proof.
  revert d. induction ks as [|k0 t IH]; simpl; intros d H Hk.
  - injection H as <-. destruct Hk as [[]|Hk]. exact Hk.
  - apply bind_Return_inv in H. destruct H as [d1 [H1 H]].
    apply (IH d1 H).
    destruct (PyStr.eqb k k0) eqn:E.
    + apply pystr_eqb_eq in E. subst k0. right.
      exact (coerce_establishes k d d1 H1).
    + assert (Hne : k <> k0) by (intros ->; now rewrite pystr_eqb_refl in E).
      destruct Hk as [[Hk|Hk]|Hk].
      * congruence.
      * now left.
      * right. exact (coerce_preserves Q conv k0 k d d1 Hne H1 Hk).
Qed.

End CoerceFacts.

Lemma safe_int_v_is_int parse_int (v v' : value) :
  AICRUDTools.safe_int_v parse_int v = Return v' -> is_int v'.
Proof.
  unfold AICRUDTools.safe_int_v. intros H.
  apply bind_Return_inv in H. destruct H as [z [_ H]].
  injection H as <-. now exists z.
Qed.

Lemma safe_float_v_is_float parse_float (v v' : value) :
  AICRUDTools.safe_float_v parse_float v = Return v' -> is_float v'.
Proof.
  unfold AICRUDTools.safe_float_v. intros H.
  apply bind_Return_inv in H. destruct H as [f [_ H]].
  injection H as <-. now exists f.
Qed.

Lemma mapM_Forall {A B} (f : A -> result B) (P : B -> Prop) (l : list A)
      (ys : list B) :
  (forall x y, f x = Return y -> P y) -> mapM f l = Return ys -> Forall P ys.
Proof.
  intros Hf. revert ys. induction l as [|x t IH]; simpl; intros ys H.
  - injection H as <-. constructor.
  - apply bind_Return_inv in H. destruct H as [y [Hy H]].
    apply bind_Return_inv in H. destruct H as [ys' [Hys H]].
    injection H as <-. constructor; [now apply (Hf x)|now apply IH].
Qed.

Lemma mapM_length {A B} (f : A -> result B) (l : list A) (ys : list B) :
  mapM f l = Return ys -> List.length ys = List.length l.
Proof.
  revert ys. induction l as [|x t IH]; simpl; intros ys H.
  - now injection H as <-.
  - apply bind_Return_inv in H. destruct H as [y [Hy H]].
    apply bind_Return_inv in H. destruct H as [ys' [Hys H]].
    injection H as <-. simpl. f_equal. now apply IH.
Qed.

Lemma str_price_neq_stock : str "price" <> str "stock_quantity".
Proof. vm_compute. discriminate. Qed.

Lemma product_dict_coerced parse_int parse_float (r : row) (v : value) :
  AICRUDTools.product_dict parse_int parse_float r = Return v ->
  coerced_product v.
Proof.
  unfold AICRUDTools.product_dict. intros H.
  apply bind_Return_inv in H. destruct H as [d1 [H1 H]].
  apply bind_Return_inv in H. destruct H as [d2 [H2 H]].
  injection H as <-. exists d2. split; [reflexivity|]. split.
  - apply (coerce_preserves is_float (AICRUDTools.safe_int_v parse_int)
             (str "stock_quantity") (str "price") d1 d2
             str_price_neq_stock H2).
    exact (coerce_establishes (AICRUDTools.safe_float_v parse_float) is_float
             (safe_float_v_is_float parse_float) (str "price") _ d1 H1).
  - exact (coerce_establishes (AICRUDTools.safe_int_v parse_int) is_int
             (safe_int_v_is_int parse_int) (str "stock_quantity") d1 d2 H2).
Qed.

(** X9: whatever the storage returns, the products handed out by
    [search_products] and [get_low_stock_products] are dictionaries whose
    price, when present, is a float and whose stock quantity, when present,
    is an integer; and when no call raises there is one dictionary per row
    of the storage's answer. *)
Theorem product_lists_are_coerced
        (parse_int : pystr -> option Z) (parse_float : pystr -> option pyfloat)
        (title : pystr -> pystr) (st : Storage) :
  (forall query category_filter,
      exists products,
        AICRUDTools.search_products parse_int parse_float title st
          query category_filter = Return (VList products) /\
        Forall coerced_product products /\
        (forall v,
            AICRUDTools.search_products_body parse_int parse_float title st
              query category_filter = Return v ->
            exists s rows,
              execute st s = Return rows /\
              List.length products = List.length rows)) /\
  (forall threshold,
      exists products,
        AICRUDTools.get_low_stock_products parse_int parse_float st threshold
          = Return (VList products) /\
        Forall coerced_product products /\
        (forall v,
            AICRUDTools.get_low_stock_products_body parse_int parse_float st
              threshold = Return v ->
            exists rows,
              execute st (LowStock threshold) = Return rows /\
              List.length products = List.length rows)).
Proof.
  split.
  - intros query category_filter.
    unfold AICRUDTools.search_products.
    destruct (AICRUDTools.search_products_body parse_int parse_float title st
                query category_filter) as [v|e] eqn:E; simpl.
    + unfold AICRUDTools.search_products_body in E.
      apply get_db_connection_Return_inv in E.
      apply bind_Return_inv in E. destruct E as [rows [Hrows E]].
      apply bind_Return_inv in E. destruct E as [products [Hp E]].
      injection E as <-. exists products. split; [reflexivity|]. split.
      * apply (mapM_Forall _ _ _ _ (product_dict_coerced parse_int parse_float) Hp).
      * intros _ _. eexists. exists rows. split; [exact Hrows|].
        exact (mapM_length _ _ _ Hp).
    + exists []. split; [reflexivity|]. split; [constructor|]. discriminate.
  - intros threshold.
    unfold AICRUDTools.get_low_stock_products.
    destruct (AICRUDTools.get_low_stock_products_body parse_int parse_float st
                threshold) as [v|e] eqn:E; simpl.
    + unfold AICRUDTools.get_low_stock_products_body in E.
      apply get_db_connection_Return_inv in E.
      apply bind_Return_inv in E. destruct E as [rows [Hrows E]].
      apply bind_Return_inv in E. destruct E as [products [Hp E]].
      injection E as <-. exists products. split; [reflexivity|]. split.
      * apply (mapM_Forall _ _ _ _ (product_dict_coerced parse_int parse_float) Hp).
      * intros _ _. exists rows. split; [exact Hrows|].
        exact (mapM_length _ _ _ Hp).
    + exists []. split; [reflexivity|]. split; [constructor|]. discriminate.
Qed.

(** ** Sales trends and category insights *)

Lemma dict_if_row_holds (Q : value -> Prop) (k : pystr) (r : option row)
      (body : dict -> result dict) (d : dict) :
  (forall d0 d1, body d0 = Return d1 -> holds_at Q k d1) ->
  AICRUDTools.dict_if_row r body = Return d -> holds_at Q k d.
Proof.
  intros Hbody. unfold AICRUDTools.dict_if_row.
  destruct r as [[|c r']|].
  - intros H. injection H as <-. intros x Hx. discriminate.
  - apply Hbody.
  - intros H. injection H as <-. intros x Hx. discriminate.
Qed.

(** After the coercions of [get_sales_trends] the low-stock count of the
    totals, when present, is an integer. *)
Lemma total_stats_low_stock_is_int parse_int parse_float (r : option row)
      (total_stats : dict) :
  AICRUDTools.dict_if_row r
    (fun d =>
       d <- AICRUDTools.coerce (AICRUDTools.safe_float_v parse_float)
              (str "overall_avg_price") d ;;
       AICRUDTools.coerce_all (AICRUDTools.safe_int_v parse_int)
         [str "total_inventory"; str "low_stock_count"; str "total_products"] d)
  = Return total_stats ->
  holds_at is_int (str "low_stock_count") total_stats.
Proof.
  apply dict_if_row_holds. intros d0 d1 H.
  apply bind_Return_inv in H. destruct H as [d' [_ H]].
  apply (coerce_all_holds (AICRUDTools.safe_int_v parse_int) is_int
           (safe_int_v_is_int parse_int) _ (str "low_stock_count") d' d1 H).
  left. simpl. tauto.
Qed.

(** X10: [get_sales_trends] always returns a dictionary.  On its success
    path the number of low-stock alerts is an integer (a missing or NULL
    count is 0) and the health score is "healthy" exactly when that number
    is below 5, "needs_attention" otherwise, with no error field; on its
    error path the health score is "error". *)
Theorem sales_trends_health_follows_alerts
        (parse_int : pystr -> option Z) (parse_float : pystr -> option pyfloat)
        (st : Storage) :
  exists d,
    AICRUDTools.get_sales_trends parse_int parse_float st = Return (VDict d) /\
    ((exists n,
         dict_get (str "low_stock_alerts") d = Some (VInt n) /\
         dict_get (str "health_score") d
           = Some (VStr (if (n <? 5)%Z then str "healthy"
                         else str "needs_attention")) /\
         dict_get (str "error") d = None)
     \/
     (exists e,
         AICRUDTools.get_sales_trends_body parse_int parse_float st = Raise e /\
         dict_get (str "health_score") d = Some (VStr (str "error")) /\
         dict_get (str "low_stock_alerts") d = Some (VInt 0) /\
         dict_get (str "error") d = Some (VStr (str_exn e)))).
Proof.
  unfold AICRUDTools.get_sales_trends.
  destruct (AICRUDTools.get_sales_trends_body parse_int parse_float st)
    as [v|e] eqn:E; simpl.
  - unfold AICRUDTools.get_sales_trends_body in E.
    apply get_db_connection_Return_inv in E.
    apply bind_Return_inv in E. destruct E as [rows1 [_ E]].
    apply bind_Return_inv in E. destruct E as [category_stats [_ E]].
    apply bind_Return_inv in E. destruct E as [rows2 [_ E]].
    apply bind_Return_inv in E. destruct E as [total_stats [Ht E]].
    apply bind_Return_inv in E. destruct E as [rows3 [_ E]].
    apply bind_Return_inv in E. destruct E as [price_stats [_ E]].
    apply total_stats_low_stock_is_int in Ht.
    cbv zeta in E. injection E as <-.
    eexists. split; [reflexivity|]. left.
    unfold dict_get_default.
    destruct (dict_get (str "low_stock_count") total_stats) as [x|] eqn:Ex.
    + destruct (Ht x Ex) as [n ->]. exists n. repeat split.
    + exists 0%Z. repeat split.
  - eexists. split; [reflexivity|]. right. exists e. repeat split.
Qed.

Lemma count_insights_bounds parse_int (p : Z -> bool) (l : list dict) (k : Z) :
  AICRUDTools.count_insights parse_int p l = Return k ->
  (0 <= k <= Z.of_nat (List.length l))%Z.
Proof.
  revert k. induction l as [|c t IH]; simpl; intros k H.
  - injection H as <-. lia.
  - apply bind_Return_inv in H. destruct H as [n [_ H]].
    apply bind_Return_inv in H. destruct H as [k' [Hk H]].
    injection H as <-. specialize (IH k' Hk). destruct (p n); lia.
Qed.

Lemma count_insights_disjoint parse_int (p q : Z -> bool) (l : list dict)
      (kp kq : Z) :
  (forall n, p n = true -> q n = false) ->
  AICRUDTools.count_insights parse_int p l = Return kp ->
  AICRUDTools.count_insights parse_int q l = Return kq ->
  (kp + kq <= Z.of_nat (List.length l))%Z.
Proof.
  intros Hpq. revert kp kq. induction l as [|c t IH]; simpl; intros kp kq Hp Hq.
  - injection Hp as <-. injection Hq as <-. lia.
  - apply bind_Return_inv in Hp. destruct Hp as [n [Hn Hp]].
    apply bind_Return_inv in Hp. destruct Hp as [kp' [Hkp Hp]].
    apply bind_Return_inv in Hq. destruct Hq as [n' [Hn' Hq]].
    apply bind_Return_inv in Hq. destruct Hq as [kq' [Hkq Hq]].
    assert (n' = n) by congruence. subst n'.
    injection Hp as <-. injection Hq as <-.
    specialize (IH kp' kq' Hkp Hkq).
    destruct (p n) eqn:Ep; [rewrite (Hpq n Ep)|destruct (q n)]; lia.
Qed.

(** X11: [get_category_insights] always returns a dictionary.  On its
    success path [total_categories] is the number of insight rows, and the
    categories counted as having products and those counted as empty are
    disjoint: both counts are non-negative and their sum never exceeds the
    total. *)
Theorem category_insight_counts_are_consistent
        (parse_int : pystr -> option Z) (parse_float : pystr -> option pyfloat)
        (st : Storage) :
  exists d,
    AICRUDTools.get_category_insights parse_int parse_float st
      = Return (VDict d) /\
    ((exists insights total with_products empty,
         dict_get (str "category_insights") d = Some (VList insights) /\
         dict_get (str "total_categories") d = Some (VInt total) /\
         dict_get (str "categories_with_products") d = Some (VInt with_products) /\
         dict_get (str "empty_categories") d = Some (VInt empty) /\
         dict_get (str "error") d = None /\
         total = Z.of_nat (List.length insights) /\
         (0 <= with_products)%Z /\ (0 <= empty)%Z /\
         (with_products + empty <= total)%Z)
     \/
     (exists e,
         AICRUDTools.get_category_insights_body parse_int parse_float st
           = Raise e /\
         VDict d = AICRUDTools.category_insights_error (str_exn e))).
Proof.
  unfold AICRUDTools.get_category_insights.
  destruct (AICRUDTools.get_category_insights_body parse_int parse_float st)
    as [v|e] eqn:E; simpl.
  - unfold AICRUDTools.get_category_insights_body in E.
    apply get_db_connection_Return_inv in E.
    apply bind_Return_inv in E. destruct E as [rows1 [_ E]].
    apply bind_Return_inv in E. destruct E as [insights [_ E]].
    apply bind_Return_inv in E. destruct E as [rows2 [_ E]].
    apply bind_Return_inv in E. destruct E as [low_stock [_ E]].
    cbv zeta in E.
    apply bind_Return_inv in E. destruct E as [w [Hw E]].
    apply bind_Return_inv in E. destruct E as [em [He E]].
    injection E as <-.
    eexists. split; [reflexivity|]. left.
    exists (List.map VDict insights), (Z.of_nat (List.length insights)), w, em.
    pose proof (count_insights_bounds parse_int _ insights w Hw) as Bw.
    pose proof (count_insights_bounds parse_int _ insights em He) as Be.
    assert (Hd : (w + em <= Z.of_nat (List.length insights))%Z).
    { apply (count_insights_disjoint parse_int (fun n => (0 <? n)%Z)
               (fun n => (n =? 0)%Z) insights w em); try assumption.
      intros n Hn. apply Z.ltb_lt in Hn. apply Z.eqb_neq. lia. }
    rewrite length_map.
    repeat split; try reflexivity; lia.
  - eexists. split; [reflexivity|]. right. exists e. split; reflexivity.
Qed.

(** ** The retry loop of the basic client *)

Lemma generate_calls_app (t1 t2 : trace) :
  generate_calls (t1 ++ t2) = generate_calls t1 ++ generate_calls t2.
Proof. unfold generate_calls. apply flat_map_app. Qed.

Lemma sleeps_of_app (t1 t2 : trace) :
  sleeps_of (t1 ++ t2) = sleeps_of t1 ++ sleeps_of t2.
Proof. unfold sleeps_of. apply flat_map_app. Qed.

(** One attempt is one completion call, whatever comes back. *)
Lemma attempt_once_trace svc self prompt t :
  exists outcome,
    AIAgent.attempt_once svc self prompt t
    = (Return outcome,
       t ++ [EvGenerate (VStr (AIAgent.clean (AIAgent.model self))) prompt]).
Proof.
  unfold AIAgent.attempt_once, try_io, Ollama.bind, call_generate, lift, ret.
  destruct (generate_response svc t _ prompt) as [response|e]; [|eauto].
  destruct (nonempty_with_response response) as [[|]|e]; try eauto.
  destruct (response_item response); eauto.
Qed.

Lemma attempt_once_failing svc self prompt t :
  generation_always_fails svc ->
  AIAgent.attempt_once svc self prompt t
  = (Return (None, true),
     t ++ [EvGenerate (VStr (AIAgent.clean (AIAgent.model self))) prompt]).
Proof.
  intros Hf.
  unfold AIAgent.attempt_once, try_io, Ollama.bind, call_generate, lift, ret.
  destruct (Hf t (VStr (AIAgent.clean (AIAgent.model self))) prompt) as [e ->].
  reflexivity.
Qed.

Lemma generate_loop_bound svc self prompt max_retries :
  forall remaining attempt t,
    (0 <= attempt)%Z ->
    exists v evs,
      AIAgent.generate_loop svc self prompt max_retries attempt remaining t
      = (Return v, t ++ evs) /\
      (List.length (generate_calls evs) <= remaining)%nat /\
      (List.length (sleeps_of evs) <= List.length (generate_calls evs))%nat /\
      Forall (retry_event self prompt max_retries) evs.
Proof.
  induction remaining as [|r IH]; intros attempt t Ha; simpl.
  - exists (VStr AIAgent.apology), []. rewrite app_nil_r.
    repeat split; simpl; try lia. constructor.
  - unfold Ollama.bind at 1.
    destruct (attempt_once_trace svc self prompt t) as [[[r0|] raised] ->].
    + exists r0, [EvGenerate (VStr (AIAgent.clean (AIAgent.model self))) prompt].
      repeat split; simpl; try lia.
      constructor; [now left|constructor].
    + unfold Ollama.bind.
      destruct (raised && (attempt <? max_retries - 1)%Z) eqn:Es.
      * apply andb_prop in Es. destruct Es as [_ Es]. apply Z.ltb_lt in Es.
        unfold sleep at 1.
        destruct (IH (attempt + 1)%Z
                     ((t ++ [EvGenerate (VStr (AIAgent.clean (AIAgent.model self)))
                                        prompt])
                        ++ [EvSleep ((attempt + 1) * 5)]))
          as [v [evs [Hrun [Hg [Hs Hall]]]]]; [lia|].
        exists v,
          (EvGenerate (VStr (AIAgent.clean (AIAgent.model self))) prompt
             :: EvSleep ((attempt + 1) * 5) :: evs).
        rewrite Hrun. rewrite <- !app_assoc. simpl.
        repeat split; try lia.
        constructor; [now left|].
        constructor; [right; eexists; split; [reflexivity|lia]|exact Hall].
      * unfold ret at 1.
        destruct (IH (attempt + 1)%Z
                     (t ++ [EvGenerate (VStr (AIAgent.clean (AIAgent.model self)))
                                       prompt]))
          as [v [evs [Hrun [Hg [Hs Hall]]]]]; [lia|].
        exists v,
          (EvGenerate (VStr (AIAgent.clean (AIAgent.model self))) prompt :: evs).
        rewrite Hrun. rewrite <- !app_assoc. simpl.
        repeat split; try lia.
        constructor; [now left|exact Hall].
Qed.

Lemma basic_safe_generate_returns svc self prompt max_retries t :
  exists v evs,
    AIAgent.safe_generate svc self prompt max_retries t = (Return v, t ++ evs) /\
    (List.length (generate_calls evs) <= Z.to_nat max_retries)%nat /\
    (List.length (sleeps_of evs) <= List.length (generate_calls evs))%nat /\
    Forall (retry_event self prompt max_retries) evs.
Proof.
  unfold AIAgent.safe_generate.
  destruct (negb (AIAgent.available self) || negb (AIAgent.client self)).
  - exists (VStr AIAgent.unavailable_message), []. rewrite app_nil_r.
    repeat split; simpl; try lia. constructor.
  - apply generate_loop_bound. lia.
Qed.

(** X12: [AIAgent.safe_generate] never raises and is bounded: it makes at
    most [max_retries] completion calls, all with the client's cleaned
    model name and the given prompt, never more pauses than calls, and
    every pause lasts between 5 and 5 * (max_retries - 1) seconds; with
    [max_retries <= 0] it touches nothing. *)
Theorem basic_safe_generate_is_bounded :
  forall svc self prompt max_retries t,
  exists v evs,
    AIAgent.safe_generate svc self prompt max_retries t = (Return v, t ++ evs) /\
    (List.length (generate_calls evs) <= Z.to_nat max_retries)%nat /\
    (List.length (sleeps_of evs) <= List.length (generate_calls evs))%nat /\
    Forall (retry_event self prompt max_retries) evs /\
    ((max_retries <= 0)%Z -> evs = []).
Proof.
  intros svc self prompt max_retries t.
  destruct (basic_safe_generate_returns svc self prompt max_retries t)
    as [v [evs [Hrun [Hg [Hs Hall]]]]].
  exists v, evs. repeat split; try assumption.
  intros Hn. assert (Hz : Z.to_nat max_retries = 0%nat) by lia.
  rewrite Hz in Hg.
  destruct evs as [|ev evs']; [reflexivity|].
  inversion Hall as [|? ? Hev _]; subst.
  destruct Hev as [->|[s [-> Hb]]]; simpl in *; lia.
Qed.

Lemma backoff_S (attempt : Z) (pauses : nat) :
  backoff attempt (S pauses)
  = (5 * (attempt + 1))%Z :: backoff (attempt + 1) pauses.
Proof.
  unfold backoff. change (seq 0 (S pauses)) with (0%nat :: seq 1 pauses).
  cbn [List.map].
  replace (5 * (attempt + Z.of_nat 1))%Z with (5 * (attempt + 1))%Z by lia.
  f_equal. rewrite <- seq_shift, map_map. apply map_ext. intros i. lia.
Qed.

Lemma generate_loop_failing svc self prompt max_retries :
  generation_always_fails svc ->
  forall remaining attempt t,
    max_retries = (attempt + Z.of_nat remaining)%Z ->
    exists evs,
      AIAgent.generate_loop svc self prompt max_retries attempt remaining t
      = (Return (VStr AIAgent.apology), t ++ evs) /\
      generate_calls evs
      = repeat (VStr (AIAgent.clean (AIAgent.model self)), prompt) remaining /\
      sleeps_of evs = backoff attempt (remaining - 1).
Proof.
  intros Hf. induction remaining as [|r IH]; intros attempt t Hn; simpl.
  - exists []. rewrite app_nil_r. repeat split.
  - unfold Ollama.bind at 1. rewrite (attempt_once_failing svc self prompt t Hf).
    unfold Ollama.bind. simpl andb.
    destruct r as [|r'].
    + assert (E : (attempt <? max_retries - 1)%Z = false)
        by (apply Z.ltb_ge; lia).
      rewrite E. cbn [andb]. unfold ret at 1. cbv beta iota.
      destruct (IH (attempt + 1)%Z
                   (t ++ [EvGenerate (VStr (AIAgent.clean (AIAgent.model self)))
                                     prompt]))
        as [evs [Hrun [Hg Hs]]]; [lia|].
      exists (EvGenerate (VStr (AIAgent.clean (AIAgent.model self))) prompt :: evs).
      rewrite Hrun, <- app_assoc. simpl. rewrite Hg, Hs. repeat split.
    + assert (E : (attempt <? max_retries - 1)%Z = true)
        by (apply Z.ltb_lt; lia).
      rewrite E. cbn [andb]. unfold sleep at 1. cbv beta iota.
      destruct (IH (attempt + 1)%Z
                   ((t ++ [EvGenerate (VStr (AIAgent.clean (AIAgent.model self)))
                                      prompt])
                      ++ [EvSleep ((attempt + 1) * 5)]))
        as [evs [Hrun [Hg Hs]]]; [lia|].
      exists (EvGenerate (VStr (AIAgent.clean (AIAgent.model self))) prompt
                :: EvSleep ((attempt + 1) * 5) :: evs).
      rewrite Hrun, <- !app_assoc. simpl. rewrite Hg, Hs.
      repeat split.
      simpl Nat.sub. rewrite Nat.sub_0_r. rewrite backoff_S.
      f_equal. lia.
Qed.

(** X13: against a service whose completion call always fails, an
    available client makes exactly [max_retries] calls, pauses 5, 10, ...,
    5 * (max_retries - 1) seconds between them (no pause after the last
    attempt), and returns the fixed apology. *)
Theorem failing_service_backoff svc self prompt max_retries t :
  generation_always_fails svc ->
  AIAgent.available self = true ->
  AIAgent.client self = true ->
  exists evs,
    AIAgent.safe_generate svc self prompt max_retries t
    = (Return (VStr AIAgent.apology), t ++ evs) /\
    generate_calls evs
    = repeat (VStr (AIAgent.clean (AIAgent.model self)), prompt)
             (Z.to_nat max_retries) /\
    sleeps_of evs = backoff 0 (Z.to_nat max_retries - 1).
Proof.
  intros Hf Ha Hc. unfold AIAgent.safe_generate. rewrite Ha, Hc. simpl.
  destruct (Z.le_gt_cases 0 max_retries) as [Hn|Hn].
  - apply (generate_loop_failing svc self prompt max_retries Hf). lia.
  - assert (Hz : Z.to_nat max_retries = 0%nat) by lia. rewrite Hz. simpl.
    exists []. rewrite app_nil_r. repeat split.
Qed.

Lemma failing_service_backoff_witness :
  exists evs,
    AIAgent.safe_generate MoreExamples.failing_generation_service
      MoreExamples.ready_agent (str "hello") 3 []
    = (Return (VStr AIAgent.apology), [] ++ evs) /\
    generate_calls evs
    = repeat (VStr (AIAgent.clean (AIAgent.model MoreExamples.ready_agent)),
              str "hello") (Z.to_nat 3) /\
    sleeps_of evs = backoff 0 (Z.to_nat 3 - 1).
Proof.
  apply (failing_service_backoff MoreExamples.failing_generation_service
           MoreExamples.ready_agent (str "hello") 3 []).
  - intros t m p. eexists. reflexivity.
  - reflexivity.
  - reflexivity.
Defined.

Lemma backoff_of_three_attempts : backoff 0 (Z.to_nat 3 - 1) = [5; 10]%Z.
Proof. reflexivity. Qed.

(** ** The basic pipeline *)

(** Closes a branch of [relevant_steps] that stores no user analytics. *)
Ltac no_user_analytics :=
  simpl Pipeline.fill;
  repeat match goal with
         | |- context [match ?r with Return _ => _ | Raise _ => _ end] =>
             destruct r
         end;
  let H := fresh in
  intros H; injection H as <- <-; vm_compute; discriminate.

Section BasicPipelineFacts.

Variable env : Pipeline.Env.
Variable st : Storage.

(** The data of a query never holds user analytics unless the role is
    admin or manager and the query mentions users. *)
Lemma relevant_steps_user_analytics (user_input ql user_role : pystr)
      (data : dict) (err : option exn) :
  Pipeline.fill (BasicPipeline.relevant_steps env st user_input ql user_role) []
    = (data, err) ->
  dict_mem (str "user_analytics") data = true ->
  (user_role = str "admin" \/ user_role = str "manager") /\
  any_in [str "user"; str "users"] ql = true.
Proof.
  unfold BasicPipeline.relevant_steps. cbv zeta.
  destruct (any_in (List.map str ["product"; "inventory"; "stock"]%string) ql);
    [destruct (contains (str "low") ql || contains (str "out of stock") ql);
     no_user_analytics|].
  destruct (any_in (List.map str ["category"; "categories"]%string) ql);
    [no_user_analytics|].
  destruct (any_in (List.map str ["analytics"; "trend"; "report";
                                  "statistics"]%string) ql);
    [no_user_analytics|].
  destruct (any_in (List.map str ["user"; "users"]%string) ql) eqn:Eu;
    simpl andb.
  - destruct (PyStr.eqb user_role (str "admin")) eqn:Ea.
    + intros _ _. apply pystr_eqb_eq in Ea. split; [now left|exact Eu].
    + destruct (PyStr.eqb user_role (str "manager")) eqn:Em; simpl orb.
      * intros _ _. apply pystr_eqb_eq in Em. split; [now right|exact Eu].
      * destruct (any_in (List.map str ["health"; "status"; "system"]%string) ql);
          no_user_analytics.
  - destruct (any_in (List.map str ["health"; "status"; "system"]%string) ql);
      no_user_analytics.
Qed.

End BasicPipelineFacts.

Lemma dict_mem_set_other (k k' : pystr) (v : value) (d : dict) :
  k' <> k -> dict_mem k' (dict_set k v d) = dict_mem k' d.
Proof. intros H. unfold dict_mem. now rewrite dict_get_set_other. Qed.

Lemma user_analytics_neq_error : str "user_analytics" <> str "error".
Proof. vm_compute. discriminate. Qed.

(** X14: the data [get_relevant_data] gathers holds user analytics only
    for the roles admin and manager, and only for a textual query whose
    lower-cased form mentions "user": whatever a plain user asks, the user
    analytics are not read for the answer. *)
Theorem user_analytics_are_role_gated
        (env : Pipeline.Env) (st : Storage) (user_input : value)
        (user_role : pystr) (data : dict) :
  BasicPipeline.get_relevant_data env st user_input user_role = Return data ->
  dict_mem (str "user_analytics") data = true ->
  (user_role = str "admin" \/ user_role = str "manager") /\
  exists q, user_input = VStr q /\
            any_in [str "user"; str "users"] (Pipeline.lower env q) = true.
Proof.
  unfold BasicPipeline.get_relevant_data, EnhancedAIAgent.py_lower.
  destruct user_input as [| | | |q|b| | |]; simpl; try discriminate.
  2:{ intros H Hm. injection H as <-. vm_compute in Hm. discriminate. }
  destruct (Pipeline.fill _ _) as [data0 [e|]] eqn:E; intros H Hm;
    injection H as <-.
  - rewrite dict_mem_set_other in Hm by exact user_analytics_neq_error.
    destruct (relevant_steps_user_analytics env st q _ user_role data0 _ E Hm)
      as [Hr Hu].
    split; [exact Hr|]. exists q. now split.
  - destruct (relevant_steps_user_analytics env st q _ user_role data0 _ E Hm)
      as [Hr Hu].
    split; [exact Hr|]. exists q. now split.
Qed.

Lemma user_analytics_are_role_gated_witness :
  (str "manager" = str "admin" \/ str "manager" = str "manager") /\
  exists q, VStr (str "List all USERS") = VStr q /\
            any_in [str "user"; str "users"]
                   (Pipeline.lower Examples.plain_env q) = true.
Proof.
  eapply (user_analytics_are_role_gated Examples.plain_env
            Examples.failing_storage (VStr (str "List all USERS"))
            (str "manager")).
  - vm_compute. reflexivity.
  - vm_compute. reflexivity.
Defined.

Lemma get_relevant_data_returns env st (q user_role : pystr) :
  exists data,
    BasicPipeline.get_relevant_data env st (VStr q) user_role = Return data.
Proof.
  unfold BasicPipeline.get_relevant_data, EnhancedAIAgent.py_lower, Py.bind.
  destruct (Pipeline.fill _ _) as [data [e|]]; eexists; reflexivity.
Qed.

(** X15: [process_query] never raises and always answers with a
    dictionary.  An unavailable client gives the unavailable answer,
    flagged for human review, without any call to the service.  An
    available one gives an unflagged "llm_generation" answer for a query
    that is text or bytes (for bytes the data hold nothing but the text of
    the [TypeError] the keyword test raised) and the flagged "error" answer
    for every other query, which has no [lower] method. *)
Theorem process_query_outcomes
        (env : Pipeline.Env) (st : Storage) (svc : Service)
        (self : AIAgent.agent) (user_input : value) (user_role : pystr)
        (t : trace) :
  exists d t' b action,
    BasicPipeline.process_query env st svc self user_input user_role t
      = (Return (VDict d), t') /\
    dict_get (str "needs_human_review") d = Some (VBool b) /\
    dict_get (str "action_taken") d = Some (VStr action) /\
    ((AIAgent.available self = false /\
      VDict d = BasicPipeline.get_unavailable_response /\
      action = str "unavailable" /\ b = true /\ t' = t)
     \/
     (AIAgent.available self = true /\ (exists q, user_input = VStr q) /\
      action = str "llm_generation" /\ b = false)
     \/
     (AIAgent.available self = true /\ (exists bs, user_input = VBytes bs) /\
      action = str "llm_generation" /\ b = false /\
      dict_get (str "data") d
      = Some (VDict [(str "error",
                      VStr (str_exn EnhancedAIAgent.str_in_bytes))]))
     \/
     (AIAgent.available self = true /\
      (forall q, user_input <> VStr q) /\
      (forall bs, user_input <> VBytes bs) /\
      action = str "error" /\ b = true)).
Proof.
  unfold BasicPipeline.process_query.
  destruct (AIAgent.available self) eqn:Ha; cbn [negb]; cbv beta iota.
  - unfold try_io, Ollama.bind. cbv beta zeta.
    match goal with
    | |- context [AIAgent.safe_generate svc self ?p 2 t] =>
        destruct (basic_safe_generate_returns svc self p 2 t)
          as [v [evs [Hrun _]]]; rewrite Hrun
    end.
    unfold lift, ret.
    destruct user_input as [| | | |q|bs| | |];
      try (do 4 eexists; split; [reflexivity|];
           split; [reflexivity|]; split; [reflexivity|];
           right; right; right; repeat split; intros q; discriminate).
    + destruct (get_relevant_data_returns env st q user_role) as [data ->].
      do 4 eexists. split; [reflexivity|].
      split; [reflexivity|]. split; [reflexivity|].
      right; left. repeat split. now exists q.
    + do 4 eexists. split; [reflexivity|].
      split; [reflexivity|]. split; [reflexivity|].
      right; right; left. repeat split. now exists bs.
  - do 4 eexists. split; [reflexivity|].
    split; [reflexivity|]. split; [reflexivity|].
    left. repeat split.
Qed.

(** X16: when the basic client's initialization found no model, the
    [/ai/query] endpoint answers a non-empty query with the unavailable
    text, [action_taken = "unavailable"] and [needs_human_review = True],
    without calling the service. *)
Theorem basic_endpoint_flags_unavailability
        (env : Pipeline.Env) (st : Storage) (svc : Service) (t : trace)
        (query_data : dict) (role_name : pystr) :
  basic_init_finds_no_model (Pipeline.py_str env) svc t ->
  truthy (dict_get_default (str "query") (VStr []) query_data) = true ->
  exists i t' d,
    BasicPipeline.ai_agent env svc t = (Return i, t') /\
    BasicPipeline.query_ai_agent env st svc i query_data role_name t'
      = (Return (VDict d), t') /\
    dict_get (str "response") d = Some (VStr BasicPipeline.unavailable_text) /\
    dict_get (str "action_taken") d = Some (VStr (str "unavailable")) /\
    dict_get (str "needs_human_review") d = Some (VBool true).
Proof.
  intros Hinit Hq.
  destruct (basic_init_unavailable (Pipeline.lower env) (Pipeline.py_str env)
              svc (str "llama3.1:latest") t Hinit) as [a [t' [Hi Ha]]].
  exists (BasicPipeline.Basic a), t'.
  unfold BasicPipeline.ai_agent, try_io, Ollama.bind. rewrite Hi.
  unfold BasicPipeline.query_ai_agent, BasicPipeline.query_ai_agent_body,
    try_io, Ollama.bind.
  rewrite Hq. simpl negb. cbv iota.
  unfold BasicPipeline.instance_process_query, BasicPipeline.process_query.
  rewrite Ha. simpl.
  eexists. split; [reflexivity|]. split; [reflexivity|].
  repeat split.
Qed.

Lemma basic_endpoint_flags_unavailability_witness :
  exists i t' d,
    BasicPipeline.ai_agent Examples.plain_env Examples.no_models_service []
      = (Return i, t') /\
    BasicPipeline.query_ai_agent Examples.plain_env Examples.empty_storage
      Examples.no_models_service i
      [(str "query", Examples.low_stock_question)] (str "user") t'
      = (Return (VDict d), t') /\
    dict_get (str "response") d = Some (VStr BasicPipeline.unavailable_text) /\
    dict_get (str "action_taken") d = Some (VStr (str "unavailable")) /\
    dict_get (str "needs_human_review") d = Some (VBool true).
Proof.
  apply (basic_endpoint_flags_unavailability Examples.plain_env
           Examples.empty_storage Examples.no_models_service []
           [(str "query", Examples.low_stock_question)] (str "user")).
  - right; right. eexists. split; [reflexivity|left; reflexivity].
  - reflexivity.
Defined.

Lemma process_query_returns env st svc self user_input user_role t :
  exists d evs response b,
    BasicPipeline.process_query env st svc self user_input user_role t
      = (Return (VDict d), t ++ evs) /\
    List.map fst d = [str "response"; str "data"; str "reasoning";
                      str "action_taken"; str "needs_human_review"] /\
    dict_get (str "response") d = Some response /\
    dict_get (str "needs_human_review") d = Some (VBool b) /\
    (List.length (generate_calls evs) <= 2)%nat.
Proof.
  unfold BasicPipeline.process_query.
  destruct (AIAgent.available self) eqn:Ha; cbn [negb]; cbv beta iota.
  - unfold try_io, Ollama.bind. cbv beta zeta.
    match goal with
    | |- context [AIAgent.safe_generate svc self ?p 2 t] =>
        destruct (basic_safe_generate_returns svc self p 2 t)
          as [v [evs [Hrun [Hcalls _]]]]; rewrite Hrun
    end.
    unfold lift, ret.
    destruct user_input as [| | | |q| | | |];
      try (do 4 eexists; split; [reflexivity|];
           split; [reflexivity|]; split; [reflexivity|];
           split; [reflexivity|exact Hcalls]).
    destruct (get_relevant_data_returns env st q user_role) as [data ->].
    do 4 eexists. split; [reflexivity|].
    split; [reflexivity|]. split; [reflexivity|].
    split; [reflexivity|exact Hcalls].
  - exists (Pipeline.as_dict BasicPipeline.get_unavailable_response), [].
    do 2 eexists. rewrite app_nil_r. split; [reflexivity|].
    split; [reflexivity|]. split; [reflexivity|].
    split; [reflexivity|simpl; lia].
Qed.

(** X17: the [/ai/query] endpoint has two outcomes.  A request without a
    query, or with an empty one, raises its 400 inside the [try] block, so
    it is answered with a 500 carrying the text of the 400 and nothing is
    sent to the service; every other request is answered with a dictionary
    of exactly the four fields response, data, action_taken and
    needs_human_review, after at most two completion calls, whichever
    instance serves it. *)
Theorem basic_endpoint_outcomes :
  forall env st svc i query_data role_name t,
    (truthy (dict_get_default (str "query") (VStr []) query_data) = false /\
     BasicPipeline.query_ai_agent env st svc i query_data role_name t
     = (Raise (HTTPException 500
                 (str "AI processing error: 400: Query is required")), t))
    \/
    (truthy (dict_get_default (str "query") (VStr []) query_data) = true /\
     exists d evs b,
       BasicPipeline.query_ai_agent env st svc i query_data role_name t
       = (Return (VDict d), t ++ evs) /\
       List.map fst d = [str "response"; str "data"; str "action_taken";
                         str "needs_human_review"] /\
       dict_get (str "needs_human_review") d = Some (VBool b) /\
       (List.length (generate_calls evs) <= 2)%nat).
Proof.
  intros env st svc i query_data role_name t.
  unfold BasicPipeline.query_ai_agent, BasicPipeline.query_ai_agent_body.
  destruct (truthy (dict_get_default (str "query") (VStr []) query_data))
    eqn:Hq; cbn [negb]; cbv beta iota zeta.
  - right. split; [reflexivity|].
    unfold try_io, Ollama.bind, BasicPipeline.instance_process_query.
    destruct i as [a|].
    + destruct (process_query_returns env st svc a
                  (dict_get_default (str "query") (VStr []) query_data)
                  role_name t) as [d [evs [r [b [Hrun [_ [Hr [Hb Hc]]]]]]]].
      rewrite Hrun. unfold lift, dict_item. cbn [Pipeline.as_dict].
      rewrite Hr. unfold ret, dict_get_default. rewrite Hb.
      do 2 eexists. exists b. split; [reflexivity|].
      split; [reflexivity|]. split; [reflexivity|exact Hc].
    + exists (Pipeline.as_dict
                (VDict
                   [(str "response",
                     dict_get_default (str "response") VNone
                       (Pipeline.as_dict BasicPipeline.fallback_response));
                    (str "data", VDict []);
                    (str "action_taken", VStr (str "fallback"));
                    (str "needs_human_review", VBool true)])), [], true.
      rewrite app_nil_r. split; [reflexivity|].
      split; [reflexivity|]. split; [reflexivity|simpl; lia].
  - left. split; reflexivity.
Qed.

(** ** Initialization and the supervisor *)

Lemma enhanced_init_total svc model0 t :
  exists a evs,
    EnhancedAIAgent.init svc model0 t = (Return a, t ++ evs) /\
    init_events (str "Test connection") evs /\
    (EnhancedAIAgent.available a = true ->
     EnhancedAIAgent.client a = true /\
     evs = [EvList; EvGenerate (EnhancedAIAgent.model a) (str "Test connection")]).
Proof.
  unfold EnhancedAIAgent.init, init_events.
  destruct (new_client svc).
  - unfold EnhancedAIAgent.test_connection, try_io, Ollama.bind, call_list,
      call_generate, lift, ret.
    destruct (list_response svc t) as [r|e].
    + destruct (EnhancedAIAgent.available_models r) as [[|first names]|e].
      * do 2 eexists. split; [reflexivity|]. split; [tauto|]. discriminate.
      * destruct (generate_response svc _ first _) as [response|e].
        -- destruct (nonempty_with_response response) as [b|e];
             do 2 eexists;
             (split; [rewrite <- app_assoc; reflexivity|]);
             (split; [right; right; eexists; reflexivity|]);
             simpl; intros H; try discriminate; split; reflexivity.
        -- do 2 eexists. split; [rewrite <- app_assoc; reflexivity|].
           split; [right; right; eexists; reflexivity|]. discriminate.
      * do 2 eexists. split; [reflexivity|]. split; [tauto|]. discriminate.
    + do 2 eexists. split; [reflexivity|]. split; [tauto|]. discriminate.
  - exists {| EnhancedAIAgent.model := model0;
              EnhancedAIAgent.available := false;
              EnhancedAIAgent.client := false |}, [].
    rewrite app_nil_r. split; [reflexivity|]. split; [tauto|]. discriminate.
Qed.

Lemma test_model_generation_total svc (m : pystr) t :
  exists ok,
    AIAgent.test_model_generation svc m t
    = (Return ok, t ++ [EvGenerate (VStr (AIAgent.clean m)) AIAgent.test_prompt]).
Proof.
  unfold AIAgent.test_model_generation, try_io, Ollama.bind, call_generate,
    lift, ret.
  destruct (generate_response svc t _ _) as [response|e]; [|eauto].
  destruct (nonempty_with_response response) as [[|]|e]; try eauto.
  destruct (response_item response) as [r|e]; [|eauto].
  destruct (AIAgent.strips r); eauto.
Qed.

Lemma basic_init_total lower py_str svc model0 t :
  exists a evs,
    AIAgent.init lower py_str svc model0 t = (Return a, t ++ evs) /\
    init_events AIAgent.test_prompt evs /\
    (AIAgent.available a = true ->
     AIAgent.client a = true /\
     exists m, evs = [EvList; EvGenerate m AIAgent.test_prompt]).
Proof.
  unfold AIAgent.init, init_events.
  destruct (new_client svc).
  - unfold AIAgent.test_ollama_connection, try_io, Ollama.bind, call_list,
      lift, ret.
    destruct (list_response svc t) as [r|e].
    + destruct (AIAgent.available_models py_str r) as [[|first names]|e].
      * do 2 eexists. split; [reflexivity|]. split; [tauto|]. discriminate.
      * destruct (AIAgent.find_target lower model0 (first :: names))
          as [[[|c actual]|]|e].
        -- destruct (AIAgent.clean_name first) as [m|e].
           ++ destruct (test_model_generation_total svc m (t ++ [EvList]))
                as [ok ->].
              do 2 eexists. split; [rewrite <- app_assoc; reflexivity|].
              split; [right; right; eexists; reflexivity|].
              intros _. split; [reflexivity|eexists; reflexivity].
           ++ do 2 eexists. split; [reflexivity|]. split; [tauto|]. discriminate.
        -- destruct (test_model_generation_total svc (c :: actual) (t ++ [EvList]))
             as [ok ->].
           do 2 eexists. split; [rewrite <- app_assoc; reflexivity|].
           split; [right; right; eexists; reflexivity|].
           intros _. split; [reflexivity|eexists; reflexivity].
        -- destruct (AIAgent.clean_name first) as [m|e].
           ++ destruct (test_model_generation_total svc m (t ++ [EvList]))
                as [ok ->].
              do 2 eexists. split; [rewrite <- app_assoc; reflexivity|].
              split; [right; right; eexists; reflexivity|].
              intros _. split; [reflexivity|eexists; reflexivity].
           ++ do 2 eexists. split; [reflexivity|]. split; [tauto|]. discriminate.
        -- do 2 eexists. split; [reflexivity|]. split; [tauto|]. discriminate.
      * do 2 eexists. split; [reflexivity|]. split; [tauto|]. discriminate.
    + do 2 eexists. split; [reflexivity|]. split; [tauto|]. discriminate.
  - exists {| AIAgent.model := model0; AIAgent.available := false;
              AIAgent.client := false |}, [].
    rewrite app_nil_r. split; [reflexivity|]. split; [tauto|]. discriminate.
Qed.

(** X18: constructing either agent never raises, so the module-level
    instances are never the fallback classes; construction sends at most
    one model listing followed by at most one probing completion, and an
    agent that ends up available has sent both. *)
Theorem module_instances_are_never_fallbacks :
  forall (env : Pipeline.Env) (svc : Service) (t : trace),
    (exists a evs,
        Pipeline.enhanced_ai_agent svc t = (Return (Pipeline.Enhanced a), t ++ evs) /\
        init_events (str "Test connection") evs /\
        (EnhancedAIAgent.available a = true ->
         EnhancedAIAgent.client a = true /\
         evs = [EvList;
                EvGenerate (EnhancedAIAgent.model a) (str "Test connection")])) /\
    (exists a evs,
        BasicPipeline.ai_agent env svc t
          = (Return (BasicPipeline.Basic a), t ++ evs) /\
        init_events AIAgent.test_prompt evs /\
        (AIAgent.available a = true ->
         AIAgent.client a = true /\
         exists m, evs = [EvList; EvGenerate m AIAgent.test_prompt])).
Proof.
  intros env svc t. split.
  - destruct (enhanced_init_total svc Pipeline.default_model t)
      as [a [evs [Hi H]]].
    exists a, evs. split; [|exact H].
    unfold Pipeline.enhanced_ai_agent, try_io, Ollama.bind. now rewrite Hi.
  - destruct (basic_init_total (Pipeline.lower env) (Pipeline.py_str env) svc
                (str "llama3.1:latest") t) as [a [evs [Hi H]]].
    exists a, evs. split; [|exact H].
    unfold BasicPipeline.ai_agent, try_io, Ollama.bind. now rewrite Hi.
Qed.

Lemma enhanced_safe_generate_returns svc self prompt t :
  exists v evs,
    EnhancedAIAgent.safe_generate svc self prompt t = (Return v, t ++ evs) /\
    (evs = [] \/ evs = [EvGenerate (EnhancedAIAgent.model self) prompt]).
Proof.
  unfold EnhancedAIAgent.safe_generate.
  destruct (negb _ || negb _).
  - exists (VStr EnhancedAIAgent.unavailable_message), [].
    rewrite app_nil_r. split; [reflexivity|now left].
  - unfold try_io, Ollama.bind, call_generate, lift, ret.
    destruct (generate_response svc t _ prompt) as [response|e].
    + destruct (response_get response _); do 2 eexists;
        (split; [reflexivity|now right]).
    + do 2 eexists. split; [reflexivity|now right].
Qed.

Lemma intent_is_not_error (ty : pystr) : In ty intents -> ty <> str "error".
Proof.
  unfold intents. simpl.
  intros H; repeat (destruct H as [<-|H]; [vm_compute; discriminate|]).
  destruct H.
Qed.

(** X19: [supervisor_agent] never raises: for every query, textual or
    not, it returns a dictionary whose type is one of the six intents or
    "error" and whose [needs_human_review] flag is [True] exactly when the
    type is "error"; a query that is not text gets the error answer before
    anything is sent to the service, and at most one completion call is
    made in any case. *)
Theorem supervisor_agent_is_total
        (env : Pipeline.Env) (st : Storage) (svc : Service)
        (self : EnhancedAIAgent.agent) (query : value) (user_role : pystr)
        (t : trace) :
  exists d evs b ty,
    Pipeline.supervisor_agent env st svc self query user_role t
      = (Return (VDict d), t ++ evs) /\
    dict_get (str "needs_human_review") d = Some (VBool b) /\
    dict_get (str "type") d = Some (VStr ty) /\
    In ty (str "error" :: intents) /\
    (b = true <-> ty = str "error") /\
    (List.length evs <= 1)%nat /\
    ((forall q, query <> VStr q) -> b = true /\ evs = []).
Proof.
  assert (Herr : forall e,
             exists b ty,
               dict_get (str "needs_human_review")
                 [(str "response",
                   VStr (str "Error processing request: " ++ str_exn e));
                  (str "type", VStr (str "error"));
                  (str "data", VDict []);
                  (str "reasoning", VStr (str "Error: " ++ str_exn e));
                  (str "needs_human_review", VBool true)] = Some (VBool b) /\
               dict_get (str "type")
                 [(str "response",
                   VStr (str "Error processing request: " ++ str_exn e));
                  (str "type", VStr (str "error"));
                  (str "data", VDict []);
                  (str "reasoning", VStr (str "Error: " ++ str_exn e));
                  (str "needs_human_review", VBool true)] = Some (VStr ty) /\
               In ty (str "error" :: intents) /\
               (b = true <-> ty = str "error") /\ b = true).
  { intros e. exists true, (str "error").
    repeat split; try reflexivity. now left. }
  unfold Pipeline.supervisor_agent, try_io, Ollama.bind, lift, ret.
  destruct (Pipeline.get_comprehensive_business_data env st query)
    as [real_data|e] eqn:Hd.
  - destruct query as [| | | |q|bs| | |]; try discriminate Hd.
    2:{ cbn [EnhancedAIAgent.analyze_query_type_v].
        destruct (Herr EnhancedAIAgent.str_in_bytes)
          as [b [ty [H1 [H2 [H3 [H4 H5]]]]]].
        do 2 eexists. exists b, ty. rewrite app_nil_r.
        split; [reflexivity|]. repeat split; try assumption; try apply H4.
        simpl; lia. }
    cbn [EnhancedAIAgent.analyze_query_type_v].
    destruct (Pipeline.create_data_rich_prompt env (VStr q) user_role _ real_data)
      as [prompt|e].
    + destruct (enhanced_safe_generate_returns svc self prompt t)
        as [v [evs [-> Hevs]]].
      do 2 eexists.
      exists false, (EnhancedAIAgent.analyze_query_type (Pipeline.lower env) q).
      split; [reflexivity|].
      pose proof (analyze_query_type_intent (Pipeline.lower env) q) as Hin.
      split; [reflexivity|]. split; [reflexivity|].
      split; [now right|].
      split; [split; [discriminate|intros H; now apply intent_is_not_error in H]|].
      split; [destruct Hevs as [->| ->]; simpl; lia|].
      intros Hq. now destruct (Hq q).
    + destruct (Herr e) as [b [ty [H1 [H2 [H3 [H4 H5]]]]]].
      do 2 eexists. exists b, ty. rewrite app_nil_r.
      split; [reflexivity|]. repeat split; try assumption; try apply H4.
      simpl; lia.
  - destruct (Herr e) as [b [ty [H1 [H2 [H3 [H4 H5]]]]]].
    do 2 eexists. exists b, ty. rewrite app_nil_r.
    split; [reflexivity|]. repeat split; try assumption; try apply H4.
    simpl; lia.
Qed.

(** ** Product suggestions *)

Lemma missing_fields_nil (product_data : dict) :
  ProductSuggestion.missing_fields product_data = [] <->
  Forall (fun field => ProductSuggestion.is_missing product_data field = false)
         ProductSuggestion.required_fields.
Proof.
  unfold ProductSuggestion.missing_fields.
  induction ProductSuggestion.required_fields as [|f l IH]; simpl.
  - split; [constructor|reflexivity].
  - destruct (ProductSuggestion.is_missing product_data f) eqn:E.
    + split; [discriminate|]. intros H. inversion H; congruence.
    + rewrite IH. split; [now constructor|]. intros H. now inversion H.
Qed.

Lemma is_missing_false (product_data : dict) (field : pystr) :
  ProductSuggestion.is_missing product_data field = false <->
  exists v, dict_get field product_data = Some v /\ v <> VNone.
Proof.
  unfold ProductSuggestion.is_missing.
  destruct (dict_get field product_data) as [v|].
  - destruct v; split; intros H; try discriminate; try reflexivity;
      try (eexists; split; [reflexivity|discriminate]).
    destruct H as [v [H1 H2]]. now inversion H1; subst.
  - split; [discriminate|]. now intros [v [H _]].
Qed.

Lemma isinstance_int_not_none (v : value) : isinstance_int v = true -> v <> VNone.
Proof. destruct v; simpl; congruence. Qed.

Lemma py_float_not_none parse_float (v : value) (f : pyfloat) :
  py_float parse_float v = Return f -> v <> VNone.
Proof. destruct v; simpl; congruence. Qed.

Lemma valid_fields_pass parse_float product_data name category_id
      subcategory_id price_value price stock_quantity :
  ProductSuggestion.valid_fields parse_float product_data name category_id
    subcategory_id price_value price stock_quantity ->
  ProductSuggestion.missing_fields product_data = [] /\
  ProductSuggestion.validation_errors parse_float product_data = Return [].
Proof.
  intros (Hn & Hs & Hc & Hci & Hcp & Hsu & Hsi & Hsp & Hp & Hf & Hle &
          Hq & Hqi & Hqp).
  split.
  - apply missing_fields_nil. unfold ProductSuggestion.required_fields.
    repeat constructor; apply is_missing_false; eexists;
      (split; [eassumption|]);
      eauto using isinstance_int_not_none, py_float_not_none.
    discriminate.
  - unfold ProductSuggestion.validation_errors, dict_item.
    rewrite Hn, Hc, Hsu, Hp, Hq. cbn [Py.bind].
    unfold ProductSuggestion.price_errors. rewrite Hf. cbn [Py.bind].
    rewrite Hle. cbn [try_except_only Py.bind].
    unfold ProductSuggestion.name_errors,
      ProductSuggestion.positive_int_errors, ProductSuggestion.stock_errors.
    rewrite Hci, Hsi, Hqi. cbn [negb orb].
    destruct (Z.leb_spec (AICRUDTools.int_of_value category_id) 0); [lia|].
    destruct (Z.leb_spec (AICRUDTools.int_of_value subcategory_id) 0); [lia|].
    destruct (Z.ltb_spec (AICRUDTools.int_of_value stock_quantity) 0); [lia|].
    destruct (strip name) as [|c s]; [congruence|]. reflexivity.
Qed.

Lemma validation_errors_nil parse_float product_data :
  ProductSuggestion.validation_errors parse_float product_data = Return [] ->
  exists name category_id subcategory_id price_value price stock_quantity,
    ProductSuggestion.valid_fields parse_float product_data name category_id
      subcategory_id price_value price stock_quantity.
Proof.
  unfold ProductSuggestion.validation_errors, dict_item.
  destruct (dict_get (str "product_name") product_data) as [n|] eqn:Hn;
    [|discriminate].
  destruct (dict_get (str "category_id") product_data) as [c|] eqn:Hc;
    [|discriminate].
  destruct (dict_get (str "subcategory_id") product_data) as [s|] eqn:Hs;
    [|discriminate].
  destruct (dict_get (str "price") product_data) as [p|] eqn:Hp;
    [|discriminate].
  cbn [Py.bind].
  destruct (ProductSuggestion.price_errors parse_float p) as [pe|e] eqn:Hpe;
    [|discriminate].
  destruct (dict_get (str "stock_quantity") product_data) as [q|] eqn:Hq;
    [|discriminate].
  cbn [Py.bind]. intros H. injection H as H.
  apply app_eq_nil in H. destruct H as [H1 H].
  apply app_eq_nil in H. destruct H as [H2 H].
  apply app_eq_nil in H. destruct H as [H3 H].
  apply app_eq_nil in H. destruct H as [H4 H5]. subst pe.
  unfold ProductSuggestion.name_errors in H1.
  destruct n as [| | | |name| | | |]; try discriminate H1.
  destruct (Nat.eqb_spec (List.length (strip name)) 0) as [E|E];
    [discriminate H1|].
  unfold ProductSuggestion.positive_int_errors in H2, H3.
  destruct (isinstance_int c) eqn:Hci; [|discriminate H2].
  destruct (Z.leb_spec (AICRUDTools.int_of_value c) 0); [discriminate H2|].
  destruct (isinstance_int s) eqn:Hsi; [|discriminate H3].
  destruct (Z.leb_spec (AICRUDTools.int_of_value s) 0); [discriminate H3|].
  unfold ProductSuggestion.stock_errors in H5.
  destruct (isinstance_int q) eqn:Hqi; [|discriminate H5].
  destruct (Z.ltb_spec (AICRUDTools.int_of_value q) 0); [discriminate H5|].
  unfold ProductSuggestion.price_errors, try_except_only in Hpe.
  destruct (py_float parse_float p) as [price|e] eqn:Hf.
  - cbn [Py.bind] in Hpe.
    destruct (SFleb price AICRUDTools.fzero) eqn:Hle; [discriminate Hpe|].
    exists name, c, s, p, price, q. unfold ProductSuggestion.valid_fields.
    repeat split; try assumption; try lia.
    intros E'. apply E. now rewrite E'.
  - cbn [Py.bind] in Hpe. destruct (instance_of _ e); discriminate Hpe.
Qed.

Lemma valid_fields_functional parse_float product_data
      n c s p f q n' c' s' p' f' q' :
  ProductSuggestion.valid_fields parse_float product_data n c s p f q ->
  ProductSuggestion.valid_fields parse_float product_data n' c' s' p' f' q' ->
  n' = n /\ c' = c /\ s' = s /\ p' = p /\ f' = f /\ q' = q.
Proof.
  intros (Hn & _ & Hc & _ & _ & Hs & _ & _ & Hp & Hf & _ & Hq & _)
         (Hn' & _ & Hc' & _ & _ & Hs' & _ & _ & Hp' & Hf' & _ & Hq' & _).
  rewrite Hn in Hn'. rewrite Hc in Hc'. rewrite Hs in Hs'.
  rewrite Hp in Hp'. rewrite Hq in Hq'.
  injection Hn' as <-. injection Hc' as <-. injection Hs' as <-.
  injection Hp' as <-. injection Hq' as <-.
  rewrite Hf in Hf'. injection Hf' as <-. repeat split.
Qed.

Lemma success_is_not_error : str "error" <> str "success".
Proof. vm_compute. discriminate. Qed.

(** X21: [create_product_suggestion] never raises and answers with a
    dictionary whose status is "success" or "error".  The status is
    "success" exactly when the five fields pass the validation (a name that
    is text and not blank, category and subcategory identifiers that are
    integers above 0, a price that converts to a float not at or below 0,
    a stock quantity that is an integer not below 0), the connection opens
    and closes, and the storage has a row for the category pair; the
    validated data then hold the trimmed name, the price as a float and the
    other fields unchanged, and the category information is that row. *)
Theorem product_suggestion_accepts_exactly_valid_data
        (parse_float : pystr -> option pyfloat) (py_str : value -> pystr)
        (c : ProductSuggestion.Catalog) (product_data : dict) :
  exists d status,
    ProductSuggestion.create_product_suggestion parse_float py_str c
      product_data = Return (VDict d) /\
    dict_get (str "status") d = Some (VStr status) /\
    (status = str "success" \/ status = str "error") /\
    (status = str "success" ->
     exists name category_id subcategory_id price_value price stock_quantity
            category rest,
       ProductSuggestion.valid_fields parse_float product_data name
         category_id subcategory_id price_value price stock_quantity /\
       connect (ProductSuggestion.storage c) = Return tt /\
       ProductSuggestion.select_category c category_id subcategory_id
       = Return (category :: rest) /\
       category <> [] /\
       close (ProductSuggestion.storage c) = Return tt /\
       dict_get (str "validated_data") d
       = Some (VDict [(str "product_name", VStr (strip name));
                      (str "category_id", category_id);
                      (str "subcategory_id", subcategory_id);
                      (str "price", VFloat price);
                      (str "stock_quantity", stock_quantity)]) /\
       dict_get (str "category_info") d = Some (VDict (dict_of_row category))) /\
    (forall name category_id subcategory_id price_value price stock_quantity
            category rest,
        ProductSuggestion.valid_fields parse_float product_data name
          category_id subcategory_id price_value price stock_quantity ->
        connect (ProductSuggestion.storage c) = Return tt ->
        ProductSuggestion.select_category c category_id subcategory_id
        = Return (category :: rest) ->
        category <> [] ->
        close (ProductSuggestion.storage c) = Return tt ->
        status = str "success").
Proof.
  pose proof success_is_not_error as Hne.
  unfold ProductSuggestion.create_product_suggestion,
    ProductSuggestion.create_product_suggestion_body.
  destruct (ProductSuggestion.missing_fields product_data) as [|m ms] eqn:Hm.
  2:{ do 2 eexists. cbn [try_except]. split; [reflexivity|].
      split; [reflexivity|]. split; [now right|].
      split; [intros H; now destruct Hne|].
      intros n ci si p f q category rest Hv.
      apply valid_fields_pass in Hv. destruct Hv as [Hv _]. congruence. }
  destruct (ProductSuggestion.validation_errors parse_float product_data)
    as [[|e1 errors]|e] eqn:Hv; cbn [Py.bind].
  2:{ do 2 eexists. cbn [try_except]. split; [reflexivity|].
      split; [reflexivity|]. split; [now right|].
      split; [intros H; now destruct Hne|].
      intros n ci si p f q category rest Hv'.
      apply valid_fields_pass in Hv'. destruct Hv' as [_ Hv']. congruence. }
  2:{ do 2 eexists. cbn [try_except]. split; [reflexivity|].
      split; [reflexivity|]. split; [now right|].
      split; [intros H; now destruct Hne|].
      intros n ci si p f q category rest Hv'.
      apply valid_fields_pass in Hv'. destruct Hv' as [_ Hv']. congruence. }
  destruct (validation_errors_nil parse_float product_data Hv)
    as (n & ci & si & p & f & q & Hvalid).
  pose proof Hvalid as (Hn & Hs & Hc & Hci & Hcp & Hsu & Hsi & Hsp & Hp & Hf &
                        Hle & Hq & Hqi & Hqp).
  assert (Hsame : forall n' ci' si' p' f' q' category rest,
             ProductSuggestion.valid_fields parse_float product_data
               n' ci' si' p' f' q' ->
             ProductSuggestion.select_category c ci' si'
             = Return (category :: rest) ->
             ProductSuggestion.select_category c ci si
             = Return (category :: rest)).
  { intros n' ci' si' p' f' q' category rest Hv' Hsel.
    destruct (valid_fields_functional _ _ _ _ _ _ _ _ _ _ _ _ _ _ Hvalid Hv')
      as (_ & -> & -> & _). exact Hsel. }
  unfold ProductSuggestion.check_category, get_db_connection, dict_item.
  rewrite Hn, Hc, Hsu, Hp, Hq. cbn [Py.bind].
  destruct (connect (ProductSuggestion.storage c)) as [[]|e] eqn:Hconn;
    cbn [Py.bind].
  2:{ do 2 eexists. cbn [try_except]. split; [reflexivity|].
      split; [reflexivity|]. split; [now right|].
      split; [intros H; now destruct Hne|]. intros; congruence. }
  destruct (ProductSuggestion.select_category c ci si)
    as [[|[|col category] rest]|e] eqn:Hsel;
    cbn [Py.bind fetchone hd_error ProductSuggestion.found negb].
  - (* no row *)
    destruct (ProductSuggestion.select_available_categories c) as [av|e];
      cbn [Py.bind].
    + destruct (close (ProductSuggestion.storage c)) as [[]|e];
        cbn [Py.bind try_except];
        do 2 eexists; (split; [reflexivity|]);
        (split; [reflexivity|]); (split; [now right|]);
        (split; [intros H; now destruct Hne|]);
        intros n' ci' si' p' f' q' category rest Hv' _ Hsel' _ _;
        discriminate (Hsame _ _ _ _ _ _ _ _ Hv' Hsel').
    + destruct (rollback (ProductSuggestion.storage c)) as [[]|e'];
        destruct (close (ProductSuggestion.storage c)) as [[]|e''];
        cbn [Py.bind try_except];
        do 2 eexists; (split; [reflexivity|]);
        (split; [reflexivity|]); (split; [now right|]);
        (split; [intros H; now destruct Hne|]);
        intros n' ci' si' p' f' q' category rest Hv' _ Hsel' _ _;
        discriminate (Hsame _ _ _ _ _ _ _ _ Hv' Hsel').
  - (* an empty row *)
    destruct (ProductSuggestion.select_available_categories c) as [av|e];
      cbn [Py.bind].
    + destruct (close (ProductSuggestion.storage c)) as [[]|e];
        cbn [Py.bind try_except];
        do 2 eexists; (split; [reflexivity|]);
        (split; [reflexivity|]); (split; [now right|]);
        (split; [intros H; now destruct Hne|]);
        intros n' ci' si' p' f' q' category rest' Hv' _ Hsel' Hrow _;
        pose proof (Hsame _ _ _ _ _ _ _ _ Hv' Hsel') as E;
        injection E as E _; now destruct Hrow.
    + destruct (rollback (ProductSuggestion.storage c)) as [[]|e'];
        destruct (close (ProductSuggestion.storage c)) as [[]|e''];
        cbn [Py.bind try_except];
        do 2 eexists; (split; [reflexivity|]);
        (split; [reflexivity|]); (split; [now right|]);
        (split; [intros H; now destruct Hne|]);
        intros n' ci' si' p' f' q' category rest' Hv' _ Hsel' Hrow _;
        pose proof (Hsame _ _ _ _ _ _ _ _ Hv' Hsel') as E;
        injection E as E _; now destruct Hrow.
  - (* the category row *)
    destruct (close (ProductSuggestion.storage c)) as [[]|e] eqn:Hclose;
      cbn [Py.bind].
    + cbn [Py.bind ProductSuggestion.py_strip]. rewrite Hf.
      cbn [Py.bind try_except].
      do 2 eexists. split; [reflexivity|]. split; [reflexivity|].
      split; [now left|]. split; [|reflexivity].
      intros _. exists n, ci, si, p, f, q, (col :: category), rest.
      repeat split; try assumption; try reflexivity. discriminate.
    + do 2 eexists. cbn [try_except]. split; [reflexivity|].
      split; [reflexivity|]. split; [now right|].
      split; [intros H; now destruct Hne|]. intros; congruence.
  - (* the statement raises *)
    destruct (rollback (ProductSuggestion.storage c)) as [[]|e'];
      destruct (close (ProductSuggestion.storage c)) as [[]|e''];
      cbn [Py.bind try_except];
      do 2 eexists; (split; [reflexivity|]);
      (split; [reflexivity|]); (split; [now right|]);
      (split; [intros H; now destruct Hne|]);
      intros n' ci' si' p' f' q' category rest Hv' _ Hsel' _ _;
      discriminate (Hsame _ _ _ _ _ _ _ _ Hv' Hsel').
Qed.

Lemma suggestion_examples :
  SuggestionExamples.status_of
    (SuggestionExamples.suggest SuggestionExamples.laptops
       (SuggestionExamples.product (VFloat SuggestionExamples.price_999_5)))
  = Some (VStr (str "success")) /\
  SuggestionExamples.status_of
    (SuggestionExamples.suggest SuggestionExamples.laptops
       (SuggestionExamples.product (VFloat S754_nan)))
  = Some (VStr (str "success")) /\
  SuggestionExamples.status_of
    (SuggestionExamples.suggest SuggestionExamples.laptops
       (SuggestionExamples.product (VFloat (S754_zero true))))
  = Some (VStr (str "error")) /\
  SuggestionExamples.status_of
    (SuggestionExamples.suggest SuggestionExamples.unreachable
       (SuggestionExamples.product (VFloat SuggestionExamples.price_999_5)))
  = Some (VStr (str "error")).
Proof. repeat split; vm_compute; reflexivity. Qed.

(** X22: product data that miss a required field or fail the validation
    are answered without consulting the storage: the answer is the same
    for every catalog, reachable or not. *)
Theorem rejected_product_data_never_reach_storage
        (parse_float : pystr -> option pyfloat) (py_str : value -> pystr)
        (product_data : dict) :
  ProductSuggestion.missing_fields product_data <> [] \/
  ProductSuggestion.validation_errors parse_float product_data <> Return [] ->
  forall c c' : ProductSuggestion.Catalog,
    ProductSuggestion.create_product_suggestion parse_float py_str c
      product_data
    = ProductSuggestion.create_product_suggestion parse_float py_str c'
        product_data /\
    exists d,
      ProductSuggestion.create_product_suggestion parse_float py_str c
        product_data = Return (VDict d) /\
      dict_get (str "status") d = Some (VStr (str "error")) /\
      dict_get (str "validated_data") d = None.
Proof.
  intros H c c'.
  unfold ProductSuggestion.create_product_suggestion,
    ProductSuggestion.create_product_suggestion_body.
  destruct (ProductSuggestion.missing_fields product_data) as [|m ms].
  - destruct H as [H|H]; [now destruct H|].
    destruct (ProductSuggestion.validation_errors parse_float product_data)
      as [[|e1 errors]|e]; [now destruct H| |];
      cbn [Py.bind try_except]; (split; [reflexivity|]);
      eexists; (split; [reflexivity|]); split; reflexivity.
  - cbn [try_except]. split; [reflexivity|].
    eexists. split; [reflexivity|]. split; reflexivity.
Qed.

Lemma rejected_product_data_never_reach_storage_witness :
  SuggestionExamples.suggest SuggestionExamples.laptops
    (SuggestionExamples.product (VStr (str "cheap")))
  = SuggestionExamples.suggest SuggestionExamples.unreachable
      (SuggestionExamples.product (VStr (str "cheap"))) /\
  exists d,
    SuggestionExamples.suggest SuggestionExamples.laptops
      (SuggestionExamples.product (VStr (str "cheap"))) = Return (VDict d) /\
    dict_get (str "status") d = Some (VStr (str "error")) /\
    dict_get (str "validated_data") d = None.
Proof.
  apply (rejected_product_data_never_reach_storage
           (Pipeline.parse_float Examples.plain_env)
           (Pipeline.py_str Examples.plain_env)
           (SuggestionExamples.product (VStr (str "cheap")))).
  right. vm_compute. discriminate.
Defined.

(** ** Which model an agent uses *)

(** X23: the model name an [EnhancedAIAgent] is configured with has no
    influence on what it does: two agents constructed with different names
    send the same calls and agree on their availability and client, and
    they use the same model, the first the service lists, unless no model
    could be taken from the listing, in which case both are unavailable and
    keep their configured names. *)
Theorem enhanced_agent_ignores_configured_model
        (svc : Service) (model0 model0' : value) (t : trace) :
  exists a a' t',
    EnhancedAIAgent.init svc model0 t = (Return a, t') /\
    EnhancedAIAgent.init svc model0' t = (Return a', t') /\
    EnhancedAIAgent.available a = EnhancedAIAgent.available a' /\
    EnhancedAIAgent.client a = EnhancedAIAgent.client a' /\
    ((exists response first names,
         list_response svc t = Return response /\
         EnhancedAIAgent.available_models response = Return (first :: names) /\
         EnhancedAIAgent.model a = first /\
         EnhancedAIAgent.model a' = first)
     \/
     (EnhancedAIAgent.available a = false /\
      EnhancedAIAgent.model a = model0 /\
      EnhancedAIAgent.model a' = model0')).
Proof.
  unfold EnhancedAIAgent.init.
  destruct (new_client svc).
  - unfold EnhancedAIAgent.test_connection, try_io, Ollama.bind, call_list,
      call_generate, lift, ret.
    destruct (list_response svc t) as [r|e] eqn:Hl.
    + destruct (EnhancedAIAgent.available_models r) as [[|first names]|e]
        eqn:Hn.
      * do 3 eexists. repeat split; try reflexivity. right. repeat split.
      * destruct (generate_response svc _ first _) as [response|e].
        -- destruct (nonempty_with_response response) as [b|e];
             do 3 eexists; repeat split; try reflexivity;
             left; exists r, first, names; repeat split; assumption.
        -- do 3 eexists. repeat split; try reflexivity.
           left. exists r, first, names. repeat split; assumption.
      * do 3 eexists. repeat split; try reflexivity. right. repeat split.
    + do 3 eexists. repeat split; try reflexivity. right. repeat split.
  - do 3 eexists. repeat split; try reflexivity. right. repeat split.
Qed.

Lemma startswith_refl (s : pystr) : startswith s s = true.
Proof.
  induction s as [|c s IH]; simpl; [reflexivity|].
  now rewrite N.eqb_refl.
Qed.

Lemma contains_refl (s : pystr) : contains s s = true.
Proof. destruct s; simpl; [reflexivity|]. now rewrite N.eqb_refl, startswith_refl. Qed.

Lemma clean_name_Return (n : value) (m : pystr) :
  AIAgent.clean_name n = Return m -> exists s, n = VStr s /\ m = AIAgent.clean s.
Proof. destruct n; simpl; intros H; inversion H; eauto. Qed.

Lemma find_target_Some lower (model0 : pystr) (names : list value) (m : pystr) :
  AIAgent.find_target lower model0 names = Return (Some m) ->
  exists s, In (VStr s) names /\ m = AIAgent.clean s /\
            contains (lower model0) (lower m) = true.
Proof.
  induction names as [|n names IH]; simpl; [discriminate|].
  destruct (AIAgent.clean_name n) as [c|e] eqn:Hc; simpl; [|discriminate].
  destruct (clean_name_Return n c Hc) as [s [-> ->]].
  destruct (PyStr.eqb (lower model0) (lower (AIAgent.clean s))) eqn:He; simpl.
  - intros H. injection H as <-. exists s. split; [now left|].
    split; [reflexivity|]. apply pystr_eqb_eq in He. rewrite He.
    apply contains_refl.
  - destruct (contains (lower model0) (lower (AIAgent.clean s))) eqn:Hin.
    + intros H. injection H as <-. exists s. repeat split; auto.
    + intros H. destruct (IH H) as [s' [Hin' H']]. exists s'. split; [now right|exact H'].
Qed.

Lemma find_target_None lower (model0 : pystr) (names : list value) :
  AIAgent.find_target lower model0 names = Return None ->
  forall s, In (VStr s) names ->
            contains (lower model0) (lower (AIAgent.clean s)) = false.
Proof.
  induction names as [|n names IH]; simpl; [intros _ s []|].
  destruct (AIAgent.clean_name n) as [c|e] eqn:Hc; simpl; [|discriminate].
  destruct (clean_name_Return n c Hc) as [s0 [-> ->]].
  destruct (PyStr.eqb (lower model0) (lower (AIAgent.clean s0))); simpl;
    [discriminate|].
  destruct (contains (lower model0) (lower (AIAgent.clean s0))) eqn:Hin;
    [discriminate|].
  intros H s [E|Hs]; [injection E as <-; exact Hin|now apply IH].
Qed.

Lemma model_names_origin py_str (i : nat) (entry n : value) :
  In n (AIAgent.model_names py_str i entry) -> name_origin py_str i entry n.
Proof.
  unfold AIAgent.model_names, name_origin.
  destruct (truthy (AIAgent.declared_name entry)) eqn:Hd.
  - rewrite Hd. intros [<-|[]]. split; [exact Hd|now left].
  - destruct (AIAgent.name_from_string py_str i entry) as [m|e] eqn:Hm;
      [|intros []].
    destruct (truthy m) eqn:Ht; [|intros []].
    intros [<-|[]]. split; [exact Ht|]. right. now split.
Qed.

Lemma extract_names_origin py_str (entries : list value) :
  forall i0 n,
    In n (AIAgent.extract_names py_str i0 entries) ->
    exists i entry,
      nth_error entries i = Some entry /\
      name_origin py_str (i0 + i) entry n.
Proof.
  induction entries as [|m entries IH]; intros i0 n; simpl; [intros []|].
  rewrite in_app_iff. intros [H|H].
  - exists 0%nat, m. split; [reflexivity|].
    rewrite Nat.add_0_r. now apply model_names_origin.
  - destruct (IH (S i0) n H) as [i [entry [Hn Ho]]].
    exists (S i), entry. split; [exact Hn|].
    now rewrite Nat.add_succ_r.
Qed.

Lemma invented_name_example :
  ExtractionExamples.model_of
    (AIAgent.init ascii_lower (Pipeline.format_value Examples.plain_env)
       ExtractionExamples.nameless_service (str "llama3.1:latest") [])
  = Some (str "unknown_0").
Proof. vm_compute. reflexivity. Qed.

(** X24: an [AIAgent] that ends up available uses a name its extraction
    took from the listing, which need not be a name the service listed: its
    model is the cleaned form of a non-empty text that either an entry of
    the listing declares or that the string method made of an entry that
    declares none (for an entry that is an empty text, the invented
    "unknown_i").  Among the extracted names it is one that contains the
    configured name (after lower-casing) when the search found one, and
    otherwise the first, whatever was configured; construction then sent
    exactly the listing and one probing completion with that model. *)
Theorem basic_agent_uses_an_extracted_name
        (lower : pystr -> pystr) (py_str : value -> pystr) (svc : Service)
        (model0 : pystr) (t : trace) (a : AIAgent.agent) (t' : trace) :
  AIAgent.init lower py_str svc model0 t = (Return a, t') ->
  AIAgent.available a = true ->
  exists response entries names s,
    list_response svc t = Return response /\
    iterate (AIAgent.models_of_response response) = Return entries /\
    names = AIAgent.extract_names py_str 0 entries /\
    In (VStr s) names /\
    (exists i entry,
        nth_error entries i = Some entry /\
        name_origin py_str i entry (VStr s)) /\
    AIAgent.model a = AIAgent.clean s /\
    (contains (lower model0) (lower (AIAgent.model a)) = true
     \/
     (hd_error names = Some (VStr s) /\
      forall s', In (VStr s') names ->
                 contains (lower model0) (lower (AIAgent.clean s')) = false)
     \/
     (hd_error names = Some (VStr s) /\
      exists s', In (VStr s') names /\ AIAgent.clean s' = [])) /\
    t' = t ++ [EvList;
               EvGenerate (VStr (AIAgent.clean (AIAgent.model a)))
                          AIAgent.test_prompt].
Proof.
  unfold AIAgent.init.
  destruct (new_client svc); [|intros H; injection H as <- _; discriminate].
  unfold AIAgent.test_ollama_connection, try_io, Ollama.bind, call_list,
    lift, ret.
  destruct (list_response svc t) as [r|e] eqn:Hl;
    [|intros H; injection H as <- _; discriminate].
  unfold AIAgent.available_models.
  destruct (iterate (AIAgent.models_of_response r)) as [entries|e] eqn:Hi;
    cbn [Py.bind];
    [|intros H; injection H as <- _; discriminate].
  assert (Horigin : forall s,
             In (VStr s) (AIAgent.extract_names py_str 0 entries) ->
             exists i entry,
               nth_error entries i = Some entry /\
               name_origin py_str i entry (VStr s)).
  { intros s Hs. exact (extract_names_origin py_str entries 0 (VStr s) Hs). }
  destruct (AIAgent.extract_names py_str 0 entries) as [|first names] eqn:Hn;
    try (intros H; injection H as <- _; discriminate).
  destruct (AIAgent.find_target lower model0 (first :: names))
    as [[[|c actual]|]|e] eqn:Hft;
    try (intros H; injection H as <- _; discriminate).
  - (* a name with an empty cleaned form matched *)
    destruct (find_target_Some lower model0 _ _ Hft) as [s' [Hin' [Hc' _]]].
    destruct (AIAgent.clean_name first) as [m|e] eqn:Hc;
      [|intros H; injection H as <- _; discriminate].
    destruct (clean_name_Return first m Hc) as [s [-> ->]].
    destruct (test_model_generation_total svc (AIAgent.clean s) (t ++ [EvList]))
      as [ok ->].
    intros H Ha. injection H as <- <-. simpl in Ha. subst ok.
    exists r, entries, (VStr s :: names), s. rewrite <- app_assoc.
    split; [reflexivity|]. split; [exact Hi|]. split; [symmetry; exact Hn|].
    split; [now left|]. split; [apply Horigin; now left|].
    split; [reflexivity|]. split; [|reflexivity].
    right; right. split; [reflexivity|]. exists s'. now split.
  - (* the search found a name *)
    destruct (find_target_Some lower model0 _ _ Hft) as [s [Hin [Hc Hm]]].
    destruct (test_model_generation_total svc (c :: actual) (t ++ [EvList]))
      as [ok ->].
    intros H Ha. injection H as <- <-. simpl in Ha. subst ok.
    exists r, entries, (first :: names), s. rewrite <- app_assoc.
    split; [reflexivity|]. split; [exact Hi|]. split; [symmetry; exact Hn|].
    split; [exact Hin|]. split; [now apply Horigin|].
    split; [exact Hc|]. split; [|reflexivity].
    left. exact Hm.
  - (* no extracted name matches *)
    destruct (AIAgent.clean_name first) as [m|e] eqn:Hc;
      [|intros H; injection H as <- _; discriminate].
    destruct (clean_name_Return first m Hc) as [s [-> ->]].
    destruct (test_model_generation_total svc (AIAgent.clean s) (t ++ [EvList]))
      as [ok ->].
    intros H Ha. injection H as <- <-. simpl in Ha. subst ok.
    exists r, entries, (VStr s :: names), s. rewrite <- app_assoc.
    split; [reflexivity|]. split; [exact Hi|]. split; [symmetry; exact Hn|].
    split; [now left|]. split; [apply Horigin; now left|].
    split; [reflexivity|]. split; [|reflexivity].
    right; left. split; [reflexivity|].
    now apply find_target_None.
Qed.

Lemma basic_agent_uses_an_extracted_name_witness :
  exists response entries names s,
    list_response SelectionExamples.two_models_service [] = Return response /\
    iterate (AIAgent.models_of_response response) = Return entries /\
    names = AIAgent.extract_names (Pipeline.py_str Examples.plain_env) 0
                                  entries /\
    In (VStr s) names /\
    (exists i entry,
        nth_error entries i = Some entry /\
        name_origin (Pipeline.py_str Examples.plain_env) i entry (VStr s)) /\
    str "Llama3.1:latest" = AIAgent.clean s /\
    (contains (ascii_lower (str "llama3.1"))
              (ascii_lower (str "Llama3.1:latest")) = true
     \/
     (hd_error names = Some (VStr s) /\
      forall s', In (VStr s') names ->
                 contains (ascii_lower (str "llama3.1"))
                          (ascii_lower (AIAgent.clean s')) = false)
     \/
     (hd_error names = Some (VStr s) /\
      exists s', In (VStr s') names /\ AIAgent.clean s' = [])) /\
    [EvList; EvGenerate (VStr (str "Llama3.1:latest")) AIAgent.test_prompt]
    = [] ++ [EvList;
             EvGenerate (VStr (AIAgent.clean (str "Llama3.1:latest")))
                        AIAgent.test_prompt].
Proof.
  apply (basic_agent_uses_an_extracted_name ascii_lower
           (Pipeline.py_str Examples.plain_env)
           SelectionExamples.two_models_service (str "llama3.1") []
           {| AIAgent.model := str "Llama3.1:latest";
              AIAgent.available := true;
              AIAgent.client := true |}
           [EvList; EvGenerate (VStr (str "Llama3.1:latest"))
                               AIAgent.test_prompt]).
  - vm_compute. reflexivity.
  - reflexivity.
Defined.

(** ** The endpoints *)

Ltac exists_nil_trace :=
  eexists; exists []; do 2 eexists;
  rewrite app_nil_r;
  (split; [reflexivity|]); (split; [reflexivity|]);
  (split; [reflexivity|]); simpl; lia.

Lemma instance_supervisor_returns env st svc i query role t :
  exists d evs response b,
    Pipeline.instance_supervisor_agent env st svc i query role t
    = (Return (VDict d), t ++ evs) /\
    dict_get (str "response") d = Some response /\
    dict_get (str "needs_human_review") d = Some (VBool b) /\
    (List.length evs <= 1)%nat.
Proof.
  destruct i as [a|]; cbn [Pipeline.instance_supervisor_agent].
  - unfold Pipeline.supervisor_agent, try_io, Ollama.bind, lift, ret.
    destruct (Pipeline.get_comprehensive_business_data env st query)
      as [real_data|e].
    + destruct (EnhancedAIAgent.analyze_query_type_v (Pipeline.lower env) query)
        as [agent_type|e].
      * destruct (Pipeline.create_data_rich_prompt env query role agent_type
                    real_data) as [prompt|e].
        -- destruct (enhanced_safe_generate_returns svc a prompt t)
             as [v [evs [-> Hevs]]].
           do 4 eexists. split; [reflexivity|]. split; [reflexivity|].
           split; [reflexivity|]. destruct Hevs as [->| ->]; simpl; lia.
        -- exists_nil_trace.
      * exists_nil_trace.
    + exists_nil_trace.
  - exists_nil_trace.
Qed.

Lemma main_extract_length (response : pystr) :
  (List.length (Main_post.extract_actions_from_response response) <= 5)%nat.
Proof. rewrite main_extract_candidates. apply firstn_le_length. Qed.

Lemma header_style_gives_text env (response style : value) :
  In style header_styles ->
  exists s, Pipeline.apply_response_style env response style = VStr s.
Proof.
  unfold header_styles. simpl.
  intros [<-|[<-|[<-|[]]]]; eexists; vm_compute; reflexivity.
Qed.

(** X25: the [/ai/enhanced-query] endpoint either raises a 500 or returns
    a dictionary of exactly the six fields response, agent_type, data,
    reasoning, actions and needs_human_review, with at most five actions;
    it never raises anything else and sends at most one completion call.
    A request with a non-empty query and one of the styles Formal,
    Technical and Storytelling is always answered with the dictionary, and
    so is every request with a non-empty query whose response from the
    supervisor is text. *)
Theorem enhanced_endpoint_outcomes
        (env : Pipeline.Env) (st : Storage) (svc : Service)
        (i : Pipeline.instance) (query_data : dict) (role_name : pystr)
        (t : trace) :
  exists outcome evs,
    Pipeline.enhanced_ai_query env st svc i query_data role_name t
    = (outcome, t ++ evs) /\
    (List.length evs <= 1)%nat /\
    ((exists detail, outcome = Raise (HTTPException 500 detail))
     \/
     (exists d actions,
         outcome = Return (VDict d) /\
         List.map fst d = [str "response"; str "agent_type"; str "data";
                           str "reasoning"; str "actions";
                           str "needs_human_review"] /\
         dict_get (str "actions") d = Some (VList actions) /\
         (List.length actions <= 5)%nat)) /\
    (truthy (dict_get_default (str "query") (VStr []) query_data) = true ->
     In (dict_get_default (str "response_style") (VStr (str "Conversational"))
                          query_data) header_styles ->
     exists d, outcome = Return (VDict d)) /\
    (truthy (dict_get_default (str "query") (VStr []) query_data) = true ->
     (forall d t' s,
         Pipeline.instance_supervisor_agent env st svc i
           (dict_get_default (str "query") (VStr []) query_data) role_name t
         = (Return (VDict d), t') ->
         dict_get (str "response") d <> Some (VStr s)) ->
     ~ In (dict_get_default (str "response_style")
                            (VStr (str "Conversational")) query_data)
          header_styles ->
     exists detail, outcome = Raise (HTTPException 500 detail)).
Proof.
  unfold Pipeline.enhanced_ai_query, Pipeline.enhanced_ai_query_body.
  destruct (truthy (dict_get_default (str "query") (VStr []) query_data))
    eqn:Hq; cbn [negb]; cbv beta iota zeta.
  2:{ exists (Raise (HTTPException 500
                       (str "AI processing error: 400: Query is required"))), [].
      rewrite app_nil_r. split; [reflexivity|]. split; [simpl; lia|].
      split; [left; eexists; reflexivity|]. split; discriminate. }
  unfold try_io, Ollama.bind.
  destruct (instance_supervisor_returns env st svc i
              (dict_get_default (str "query") (VStr []) query_data)
              role_name t) as [d [evs [r [b [Hrun [Hr [Hb Hlen]]]]]]].
  rewrite Hrun. unfold lift, dict_item. cbn [Pipeline.as_dict].
  rewrite Hr. unfold ret.
  destruct (Pipeline.apply_response_style env r
              (dict_get_default (str "response_style")
                                (VStr (str "Conversational")) query_data))
    as [| | | |styled| | | |] eqn:Hstyle;
    cbn [Pipeline.extract_actions];
    try (eexists; exists evs; split; [reflexivity|]; split; [exact Hlen|];
         split; [left; eexists; reflexivity|];
         split;
         [intros _ Hin;
          destruct (header_style_gives_text env r _ Hin) as [s Hs];
          rewrite Hs in Hstyle; discriminate
         |intros _ _ _; eexists; reflexivity]).
  eexists. exists evs. split; [reflexivity|]. split; [exact Hlen|].
  split.
  { right. do 2 eexists. split; [reflexivity|]. split; [reflexivity|].
    split; [reflexivity|]. rewrite length_map. apply main_extract_length. }
  split; [intros _ _; eexists; reflexivity|].
  intros _ Hresp Hnot. exfalso.
  unfold Pipeline.apply_response_style in Hstyle.
  destruct (eq_str _ (str "Formal")) eqn:E1.
  { apply Hnot. unfold eq_str in E1.
    destruct (dict_get_default (str "response_style") _ query_data);
      try discriminate.
    apply pystr_eqb_eq in E1. subst. now left. }
  destruct (eq_str _ (str "Technical")) eqn:E2.
  { apply Hnot. unfold eq_str in E2.
    destruct (dict_get_default (str "response_style") _ query_data);
      try discriminate.
    apply pystr_eqb_eq in E2. subst. right; now left. }
  destruct (eq_str _ (str "Storytelling")) eqn:E3.
  { apply Hnot. unfold eq_str in E3.
    destruct (dict_get_default (str "response_style") _ query_data);
      try discriminate.
    apply pystr_eqb_eq in E3. subst. right; right; now left. }
  subst r. exact (Hresp d _ styled eq_refl Hr).
Qed.

Lemma null_response_example :
  EndpointExamples.is_500 (EndpointExamples.ask []) = true /\
  EndpointExamples.is_answer
    (EndpointExamples.ask [(str "response_style", VStr (str "Formal"))]) = true.
Proof. split; vm_compute; reflexivity. Qed.

Ltac exists_status ready connected :=
  eexists; exists [EvList], ready, connected;
  (split; [reflexivity|]); (split; [now right|]);
  (split; [reflexivity|]); (split; [reflexivity|]);
  (split; [try reflexivity; now destruct ready|]);
  (split; [reflexivity|]); split.

(** X26: [/ai/status] never raises and never reports an unavailable agent
    as ready: the status is "active" exactly when [agent_ready] is true,
    which requires the listing made for the request to succeed and the
    agent to be available; when the client cannot be created or the listing
    fails, the answer is "inactive" with [agent_ready] false and the error
    text, even for an available agent.  At most one listing is sent and no
    completion. *)
Theorem ai_status_reports_readiness
        (env : Pipeline.Env) (svc : Service) (i : BasicPipeline.instance)
        (t : trace) :
  exists d evs ready connected,
    StatusEndpoint.ai_status env svc i t = (Return (VDict d), t ++ evs) /\
    (evs = [] \/ evs = [EvList]) /\
    dict_get (str "agent_ready") d = Some (VBool ready) /\
    dict_get (str "ollama_connected") d = Some (VBool connected) /\
    dict_get (str "status") d
    = Some (VStr (if ready then str "active" else str "inactive")) /\
    ready = connected && StatusEndpoint.is_available i /\
    (connected = true ->
     dict_get (str "error") d = None /\
     dict_get (str "model") d = Some (StatusEndpoint.current_model i) /\
     exists response models entries,
       list_response svc t = Return response /\
       StatusEndpoint.listed_models response = Return models /\
       iterate models = Return entries /\
       dict_get (str "available_models") d
       = Some (VList (List.map (StatusEndpoint.model_name env) entries))) /\
    (connected = false ->
     exists e,
       dict_get (str "error") d = Some (VStr (str_exn e)) /\
       (new_client svc = Raise e \/ list_response svc t = Raise e \/
        exists response,
          list_response svc t = Return response /\
          (StatusEndpoint.listed_models response = Raise e \/
           exists models,
             StatusEndpoint.listed_models response = Return models /\
             iterate models = Raise e))).
Proof.
  unfold StatusEndpoint.ai_status, try_io, Ollama.bind, lift, call_list, ret.
  destruct (new_client svc) as [[]|e] eqn:Hc.
  - destruct (list_response svc t) as [r|e] eqn:Hl.
    + destruct (StatusEndpoint.listed_models r) as [models|e] eqn:Hm.
      * destruct (iterate models) as [entries|e] eqn:Hi.
        -- exists_status (StatusEndpoint.is_available i) true.
           ++ intros _. repeat split.
              exists r, models, entries. repeat split; assumption.
           ++ discriminate.
        -- exists_status false false; [discriminate|].
           intros _. exists e. split; [reflexivity|].
           right; right. exists r. split; [reflexivity|].
           right. exists models. split; assumption.
      * exists_status false false; [discriminate|].
        intros _. exists e. split; [reflexivity|].
        right; right. exists r. split; [reflexivity|now left].
    + exists_status false false; [discriminate|].
      intros _. exists e. split; [reflexivity|]. right; now left.
  - exists (Pipeline.as_dict
              (StatusEndpoint.inactive e
                 (str "Ollama not installed or not running"))), [], false, false.
    rewrite app_nil_r. split; [reflexivity|]. split; [now left|].
    split; [reflexivity|]. split; [reflexivity|]. split; [reflexivity|].
    split; [reflexivity|]. split; [discriminate|].
    intros _. exists e. split; [reflexivity|now left].
Qed.

Lemma named_by_model_only_names py_str (entry : value) (i : nat) :
  named_by_model_only entry ->
  exists name,
    name <> [] /\
    AIAgent.declared_name entry = VStr name /\
    AIAgent.model_names py_str i entry = [VStr name] /\
    EnhancedAIAgent.model_names entry = [VStr name].
Proof.
  intros (d & name & -> & Hm & Hne & Hn).
  exists name. split; [exact Hne|].
  unfold AIAgent.model_names, AIAgent.declared_name,
    EnhancedAIAgent.model_names, hasattr, dict_get_default.
  cbn [andb]. rewrite Hm.
  destruct name as [|c name]; [congruence|].
  repeat split.
Qed.

Lemma named_by_model_only_extract py_str (entries : list value) :
  Forall named_by_model_only entries ->
  forall i,
    AIAgent.extract_names py_str i entries
    = List.map AIAgent.declared_name entries /\
    flat_map EnhancedAIAgent.model_names entries
    = List.map AIAgent.declared_name entries.
Proof.
  induction 1 as [|entry entries He _ IH]; intros i; [split; reflexivity|].
  destruct (named_by_model_only_names py_str entry i He)
    as (name & _ & Hd & Ha & Hb).
  destruct (IH (S i)) as [IH1 IH2].
  cbn [AIAgent.extract_names flat_map List.map].
  rewrite Ha, Hb, IH1, IH2, Hd. split; reflexivity.
Qed.

(** X27: the status endpoint and the agents read the same model listing
    differently.  For a listing in dictionary form whose entries carry
    their name under "model" only, both agents extract one non-empty name
    per entry, while [/ai/status] reports "unknown" for every entry; and
    for a listing that is an object with a [models] attribute, which both
    agents read, [/ai/status] lists no model at all. *)
Theorem status_names_differ_from_agent_names
        (env : Pipeline.Env) (py_str : value -> pystr) (entries : list value) :
  Forall named_by_model_only entries ->
  (exists names,
      AIAgent.available_models py_str
        (VDict [(str "models", VList entries)]) = Return names /\
      EnhancedAIAgent.available_models
        (VDict [(str "models", VList entries)]) = Return names /\
      List.length names = List.length entries /\
      Forall (fun n => exists name, n = VStr name /\ name <> []) names) /\
  (exists models,
      StatusEndpoint.listed_models (VDict [(str "models", VList entries)])
      = Return models /\
      iterate models = Return entries /\
      List.map (StatusEndpoint.model_name env) entries
      = repeat (VStr (str "unknown")) (List.length entries)) /\
  (forall attrs,
      AIAgent.models_of_response (VObj ((str "models", VList entries) :: attrs))
      = VList entries /\
      EnhancedAIAgent.models_of_response
        (VObj ((str "models", VList entries) :: attrs))
      = VList entries /\
      StatusEndpoint.listed_models
        (VObj ((str "models", VList entries) :: attrs))
      = Return (VList [])).
Proof.
  intros H. split; [|split].
  - exists (List.map AIAgent.declared_name entries).
    destruct (named_by_model_only_extract py_str entries H 0) as [H1 H2].
    unfold AIAgent.available_models, EnhancedAIAgent.available_models.
    cbn. rewrite H1, H2. repeat split.
    + apply length_map.
    + clear H1 H2. induction H as [|entry entries He _ IH]; simpl;
        constructor; [|exact IH].
      destruct (named_by_model_only_names py_str entry 0 He)
        as (name & Hne & -> & _). now exists name.
  - exists (VList entries). repeat split.
    induction H as [|entry entries He _ IH]; [reflexivity|].
    destruct He as (d & name & -> & _ & _ & Hn).
    cbn [List.map List.length repeat]. rewrite IH.
    unfold StatusEndpoint.model_name, dict_get_default. now rewrite Hn.
  - intros attrs. repeat split.
Qed.

Lemma status_names_differ_from_agent_names_witness :
  (exists names,
      AIAgent.available_models (Pipeline.py_str Examples.plain_env)
        (VDict [(str "models",
                 VList [VDict [(str "model", VStr (str "llama3.1:latest"))]])])
      = Return names /\
      EnhancedAIAgent.available_models
        (VDict [(str "models",
                 VList [VDict [(str "model", VStr (str "llama3.1:latest"))]])])
      = Return names /\
      List.length names = 1%nat /\
      Forall (fun n => exists name, n = VStr name /\ name <> []) names) /\
  (exists models,
      StatusEndpoint.listed_models
        (VDict [(str "models",
                 VList [VDict [(str "model", VStr (str "llama3.1:latest"))]])])
      = Return models /\
      iterate models
      = Return [VDict [(str "model", VStr (str "llama3.1:latest"))]] /\
      List.map (StatusEndpoint.model_name Examples.plain_env)
               [VDict [(str "model", VStr (str "llama3.1:latest"))]]
      = [VStr (str "unknown")]) /\
  (forall attrs,
      AIAgent.models_of_response
        (VObj ((str "models",
                VList [VDict [(str "model", VStr (str "llama3.1:latest"))]])
                 :: attrs))
      = VList [VDict [(str "model", VStr (str "llama3.1:latest"))]] /\
      EnhancedAIAgent.models_of_response
        (VObj ((str "models",
                VList [VDict [(str "model", VStr (str "llama3.1:latest"))]])
                 :: attrs))
      = VList [VDict [(str "model", VStr (str "llama3.1:latest"))]] /\
      StatusEndpoint.listed_models
        (VObj ((str "models",
                VList [VDict [(str "model", VStr (str "llama3.1:latest"))]])
                 :: attrs))
      = Return (VList [])).
Proof.
  apply (status_names_differ_from_agent_names Examples.plain_env
           (Pipeline.py_str Examples.plain_env)
           [VDict [(str "model", VStr (str "llama3.1:latest"))]]).
  constructor; [|constructor].
  exists [(str "model", VStr (str "llama3.1:latest"))], (str "llama3.1:latest").
  repeat split. vm_compute. discriminate.
Defined.

(** ** The data gatherers *)

Lemma dict_mem_set (k k' : pystr) (v : value) (d : dict) :
  dict_mem k (dict_set k' v d) = PyStr.eqb k k' || dict_mem k d.
Proof.
  destruct (PyStr.eqb k k') eqn:E.
  - apply pystr_eqb_eq in E. subst k'. unfold dict_mem.
    now rewrite dict_get_set_same.
  - rewrite dict_mem_set_other; [reflexivity|].
    intros ->. now rewrite pystr_eqb_refl in E.
Qed.

Lemma fill_returns (steps : list (pystr * (dict -> result value))) :
  Forall (fun kf => forall d, exists v, snd kf d = Return v) steps ->
  forall d,
  exists d',
    Pipeline.fill steps d = (d', None) /\
    forall k, dict_mem k d'
              = dict_mem k d || existsb (PyStr.eqb k) (List.map fst steps).
Proof.
  induction 1 as [|[k0 f] steps Hf _ IH]; intros d; simpl.
  - exists d. split; [reflexivity|]. intros k. now rewrite orb_false_r.
  - destruct (Hf d) as [v Hv]. simpl in Hv. rewrite Hv.
    destruct (IH (dict_set k0 v d)) as [d' [Hrun Hk]].
    exists d'. split; [exact Hrun|].
    intros k. rewrite Hk, dict_mem_set.
    destruct (PyStr.eqb k k0), (dict_mem k d); reflexivity.
Qed.

Ltac aggregator_returns :=
  intros;
  cbv beta delta [AICRUDTools.get_system_health
                    AICRUDTools.analyze_user_behavior
                    AICRUDTools.get_sales_trends
                    AICRUDTools.get_category_insights
                    AICRUDTools.search_products
                    AICRUDTools.get_low_stock_products];
  match goal with
  | |- exists v, try_except ?body _ = Return v =>
      destruct body; eexists; reflexivity
  | |- exists v, Return _ = Return v => eexists; reflexivity
  end.

Lemma data_steps_return env st (query_lower : pystr) :
  Forall (fun kf : pystr * (dict -> result value) =>
            forall d, exists v, snd kf d = Return v)
         (Pipeline.data_steps env st query_lower).
Proof.
  unfold Pipeline.data_steps.
  repeat (apply Forall_cons; [cbn [snd]; aggregator_returns|]).
  apply Forall_nil.
Qed.

Lemma relevant_steps_return env st (user_input lowered role : pystr) :
  Forall (fun kf : pystr * (dict -> result value) =>
            forall d, exists v, snd kf d = Return v)
         (BasicPipeline.relevant_steps env st user_input lowered role) /\
  incl (List.map fst (BasicPipeline.relevant_steps env st user_input lowered role))
       relevant_keys.
Proof.
  unfold BasicPipeline.relevant_steps. cbv zeta.
  repeat match goal with
         | |- context [if ?b then _ else _] => destruct b
         end;
    (split;
     [repeat (apply Forall_cons; [cbn [snd]; aggregator_returns|]);
      apply Forall_nil
     |intros k Hk; simpl in Hk; unfold relevant_keys; simpl; tauto]).
Qed.

Lemma existsb_eqb_In (k : pystr) (keys : list pystr) :
  existsb (PyStr.eqb k) keys = true <-> In k keys.
Proof.
  rewrite existsb_exists. split.
  - intros [x [Hin He]]. apply pystr_eqb_eq in He. now subst.
  - intros H. exists k. split; [exact H|apply pystr_eqb_refl].
Qed.

(** X28: the outer [except] branches of the two data gatherers are never
    taken, because every aggregator operation absorbs its own errors: for
    every textual query and every storage, [get_comprehensive_business_data]
    returns a dictionary with exactly the eight keys system_health,
    user_analytics, sales_trends, category_insights, products, low_stock,
    summary and query_context, and [get_relevant_data] one whose keys are
    among low_stock, products, categories, trends, system_health and
    user_analytics; neither ever carries the top-level key error. *)
Theorem gathered_data_carry_no_error
        (env : Pipeline.Env) (st : Storage) (q role : pystr) :
  (exists data,
      Pipeline.get_comprehensive_business_data env st (VStr q) = Return data /\
      (forall k, dict_mem k data = true <-> In k comprehensive_keys) /\
      dict_get (str "error") data = None) /\
  (exists data,
      BasicPipeline.get_relevant_data env st (VStr q) role = Return data /\
      (forall k, dict_mem k data = true -> In k relevant_keys) /\
      dict_get (str "error") data = None).
Proof.
  split.
  - unfold Pipeline.get_comprehensive_business_data, EnhancedAIAgent.py_lower.
    cbn [Py.bind].
    destruct (fill_returns _ (data_steps_return env st (Pipeline.lower env q)) [])
      as [data [-> Hk]].
    exists data. split; [reflexivity|].
    assert (Hkeys : forall k, dict_mem k data = true <-> In k comprehensive_keys).
    { intros k. rewrite Hk. cbn [dict_mem dict_get orb].
      apply existsb_eqb_In. }
    split; [exact Hkeys|].
    destruct (dict_get (str "error") data) as [v|] eqn:E; [|reflexivity].
    assert (Hin : In (str "error") comprehensive_keys).
    { apply Hkeys. unfold dict_mem. now rewrite E. }
    exfalso. revert Hin. vm_compute. intuition discriminate.
  - unfold BasicPipeline.get_relevant_data, EnhancedAIAgent.py_lower.
    cbn [Py.bind].
    destruct (relevant_steps_return env st q (Pipeline.lower env q) role)
      as [Hret Hincl].
    destruct (fill_returns _ Hret []) as [data [-> Hk]].
    exists data. split; [reflexivity|].
    assert (Hkeys : forall k, dict_mem k data = true -> In k relevant_keys).
    { intros k. rewrite Hk. cbn [dict_mem dict_get orb].
      intros H. apply existsb_eqb_In in H. now apply Hincl. }
    split; [exact Hkeys|].
    destruct (dict_get (str "error") data) as [v|] eqn:E; [|reflexivity].
    assert (Hin : In (str "error") relevant_keys).
    { apply Hkeys. unfold dict_mem. now rewrite E. }
    exfalso. revert Hin. vm_compute. intuition discriminate.
Qed.

(** ** The direct agents *)

Lemma direct_agent_on_supplied_data env st ty reasoning svc self query role d t :
  (exists e,
      Pipeline.create_data_rich_prompt env query role ty d = Raise e /\
      DirectAgents.direct_agent env st ty reasoning svc self query role (Some d) t
      = (Raise e, t)) \/
  (exists prompt response evs,
      Pipeline.create_data_rich_prompt env query role ty d = Return prompt /\
      DirectAgents.direct_agent env st ty reasoning svc self query role (Some d) t
      = (Return (VDict [(str "response", response);
                        (str "type", VStr ty);
                        (str "data", VDict d);
                        (str "reasoning", VStr reasoning);
                        (str "needs_human_review", VBool false)]),
         t ++ evs) /\
      (evs = [] \/ evs = [EvGenerate (EnhancedAIAgent.model self) prompt])).
Proof.
  unfold DirectAgents.direct_agent, Ollama.bind, lift, ret.
  destruct (Pipeline.create_data_rich_prompt env query role ty d) as [prompt|e].
  - right.
    destruct (enhanced_safe_generate_returns svc self prompt t)
      as [v [evs [-> Hevs]]].
    exists prompt, v, evs. auto.
  - left. exists e. auto.
Qed.

Lemma direct_agent_without_lower env st ty reasoning svc self query role t :
  (forall q, query <> VStr q) ->
  (forall bs, query <> VBytes bs) ->
  exists msg,
    DirectAgents.direct_agent env st ty reasoning svc self query role None t
    = (Raise (PyExc AttributeError msg), t).
Proof.
  intros Hq Hb.
  unfold DirectAgents.direct_agent, Ollama.bind, lift, ret,
    Pipeline.get_comprehensive_business_data.
  destruct query as [| | | |q|bs| | |]; try (eexists; reflexivity).
  - now destruct (Hq q).
  - now destruct (Hb bs).
Qed.

Lemma fill_then_raise (steps : list (pystr * (dict -> result value)))
      (k : pystr) (e : exn) :
  Forall (fun kf => forall d, exists v, snd kf d = Return v) steps ->
  forall d,
  exists d', Pipeline.fill (steps ++ [(k, fun _ => Raise e)]) d = (d', Some e).
Proof.
  induction 1 as [|[k0 f] steps Hf _ IH]; intros d; simpl.
  - now exists d.
  - destruct (Hf d) as [v Hv]. simpl in Hv. rewrite Hv. apply IH.
Qed.

Lemma aggregator_steps_return env st :
  Forall (fun kf : pystr * (dict -> result value) =>
            forall d, exists v, snd kf d = Return v)
         (Pipeline.aggregator_steps env st).
Proof.
  unfold Pipeline.aggregator_steps.
  repeat (apply Forall_cons; [cbn [snd]; aggregator_returns|]).
  apply Forall_nil.
Qed.

Lemma summary_neq_error : str "error" <> str "summary".
Proof. vm_compute. discriminate. Qed.

Lemma business_data_of_bytes env st (bs : list N) :
  exists data,
    Pipeline.get_comprehensive_business_data env st (VBytes bs) = Return data /\
    dict_get (str "error") data
    = Some (VStr (str_exn EnhancedAIAgent.str_in_bytes)).
Proof.
  unfold Pipeline.get_comprehensive_business_data, EnhancedAIAgent.py_lower.
  cbn [Py.bind]. unfold Pipeline.bytes_steps.
  destruct (fill_then_raise _ (str "summary") EnhancedAIAgent.str_in_bytes
              (aggregator_steps_return env st) []) as [data ->].
  eexists. split; [reflexivity|].
  rewrite dict_get_set_other by exact summary_neq_error.
  apply dict_get_set_same.
Qed.

(** X20: the five direct agents ([react_agent], [planner_agent],
    [analytics_agent], [rag_agent], [crag_agent]) have no [try] block and do
    not classify the query.  Called without data on a query that has no
    [lower] method (neither text nor bytes) each raises [AttributeError]
    before anything is sent to the service; called without data on a bytes
    query each goes on with the gathered data, which carry the error text of
    the keyword test; in both cases [supervisor_agent] answers with an error
    dictionary and sends nothing.  Called with data each either raises what
    the prompt formatting raised or returns the dictionary with its own
    fixed type, the data it was given and [needs_human_review] [False],
    after at most one completion call with the client's model. *)
Theorem direct_agents_do_not_absorb_errors
        (env : Pipeline.Env) (st : Storage) :
  Forall
    (fun entry : pystr *
                 (Service -> EnhancedAIAgent.agent -> value -> pystr ->
                  option dict -> IO value) =>
       let (ty, agent) := entry in
       forall svc self query role t,
         ((forall q, query <> VStr q) ->
          (exists d,
              Pipeline.supervisor_agent env st svc self query role t
              = (Return (VDict d), t) /\
              dict_get (str "type") d = Some (VStr (str "error"))) /\
          ((forall bs, query <> VBytes bs) ->
           exists msg,
             agent svc self query role None t
             = (Raise (PyExc AttributeError msg), t)) /\
          (forall bs, query = VBytes bs ->
           exists data,
             Pipeline.get_comprehensive_business_data env st query
             = Return data /\
             dict_get (str "error") data
             = Some (VStr (str_exn EnhancedAIAgent.str_in_bytes)) /\
             agent svc self query role None t
             = agent svc self query role (Some data) t)) /\
         (forall d,
             (exists e,
                 Pipeline.create_data_rich_prompt env query role ty d = Raise e /\
                 agent svc self query role (Some d) t = (Raise e, t)) \/
             (exists prompt result evs,
                 Pipeline.create_data_rich_prompt env query role ty d
                 = Return prompt /\
                 agent svc self query role (Some d) t
                 = (Return (VDict result), t ++ evs) /\
                 dict_get (str "type") result = Some (VStr ty) /\
                 dict_get (str "data") result = Some (VDict d) /\
                 dict_get (str "needs_human_review") result
                 = Some (VBool false) /\
                 (evs = [] \/
                  evs = [EvGenerate (EnhancedAIAgent.model self) prompt]))))
    (direct_agents env st).
Proof.
  assert (H : forall ty reasoning svc self query role t,
             ((forall q, query <> VStr q) ->
              (exists d,
                  Pipeline.supervisor_agent env st svc self query role t
                  = (Return (VDict d), t) /\
                  dict_get (str "type") d = Some (VStr (str "error"))) /\
              ((forall bs, query <> VBytes bs) ->
               exists msg,
                 DirectAgents.direct_agent env st ty reasoning svc self query
                                           role None t
                 = (Raise (PyExc AttributeError msg), t)) /\
              (forall bs, query = VBytes bs ->
               exists data,
                 Pipeline.get_comprehensive_business_data env st query
                 = Return data /\
                 dict_get (str "error") data
                 = Some (VStr (str_exn EnhancedAIAgent.str_in_bytes)) /\
                 DirectAgents.direct_agent env st ty reasoning svc self query
                                           role None t
                 = DirectAgents.direct_agent env st ty reasoning svc self
                                             query role (Some data) t)) /\
             (forall d,
                 (exists e,
                     Pipeline.create_data_rich_prompt env query role ty d
                     = Raise e /\
                     DirectAgents.direct_agent env st ty reasoning svc self
                                               query role (Some d) t
                     = (Raise e, t)) \/
                 (exists prompt result evs,
                     Pipeline.create_data_rich_prompt env query role ty d
                     = Return prompt /\
                     DirectAgents.direct_agent env st ty reasoning svc self
                                               query role (Some d) t
                     = (Return (VDict result), t ++ evs) /\
                     dict_get (str "type") result = Some (VStr ty) /\
                     dict_get (str "data") result = Some (VDict d) /\
                     dict_get (str "needs_human_review") result
                     = Some (VBool false) /\
                     (evs = [] \/
                      evs = [EvGenerate (EnhancedAIAgent.model self) prompt])))).
  { intros ty reasoning svc self query role t. split.
    - intros Hq. split; [|split].
      + unfold Pipeline.supervisor_agent, try_io, Ollama.bind, lift, ret.
        destruct query as [| | | |q|bs| | |];
          try (eexists; split; reflexivity).
        * now destruct (Hq q).
        * destruct (business_data_of_bytes env st bs) as [data [-> _]].
          eexists. split; reflexivity.
      + intros Hb. now apply direct_agent_without_lower.
      + intros bs ->.
        destruct (business_data_of_bytes env st bs) as [data [Hd He]].
        exists data. split; [exact Hd|]. split; [exact He|].
        unfold DirectAgents.direct_agent, Ollama.bind, lift, ret.
        now rewrite Hd.
    - intros d.
      destruct (direct_agent_on_supplied_data env st ty reasoning svc self
                  query role d t)
        as [[e [He Hr]]|[prompt [response [evs [Hp [Hr Hevs]]]]]].
      + left. exists e. auto.
      + right. exists prompt. eexists. exists evs.
        split; [exact Hp|]. split; [exact Hr|].
        repeat split; try reflexivity. exact Hevs. }
  unfold direct_agents, DirectAgents.react_agent, DirectAgents.planner_agent,
    DirectAgents.analytics_agent, DirectAgents.rag_agent,
    DirectAgents.crag_agent.
  repeat (apply Forall_cons; [cbv beta iota; intros; apply H|]).
  apply Forall_nil.
Qed.
